(** * fs_ramdisk: the KallistiOS RAM-disk file system

    A shallow embedding of [kernel/fs/fs_ramdisk.c].  The C module keeps
    its whole state in static variables and heap objects; here that state
    is an explicit record threaded through a small state-and-crash monad.

    - [rd_file_t] objects live in a store indexed by their address, and are
      chained through their [dirlist] link exactly as the BSD [LIST] macros
      chain them;
    - [rd_dir_t] list heads live in a second store (they are allocated
      separately and pointed at by [rootdir] and by [rd_file.data]);
    - [rd_fd_t] handles live in a third store, and [rd_fd_queue] lists the
      registered ones;
    - 32-bit unsigned arithmetic ([uint32_t], and [size_t] on the SH-4) is
      written out with [wrap32];
    - dereferencing a pointer that addresses no object (a null pointer, or
      an object that has been freed), running off the end of a data block
      or of an array, and failing an [assert] are crashes of the model.

    [mutex_lock_scoped(&rd_mutex)] serialises every entry point, so each
    operation is modelled as one atomic step. *)

From Stdlib Require Import ZArith Lia List String Ascii Bool.
From stdpp Require Import base gmap list fin_maps.
Import ListNotations.

Local Open Scope Z_scope.

(** ** Constants of headers that are used but not defined by the module *)

(** Open-mode flags of [<fcntl.h>] and [<kos/fs.h>].  The module only ever
    masks and compares them, so they are kept abstract. *)
Class FcntlFlags := {
  O_MODE_MASK : Z;
  O_RDONLY : Z;
  O_WRONLY : Z;
  O_RDWR : Z;
  O_APPEND : Z;
  O_TRUNC : Z;
  O_DIR : Z
}.

(** File-mode bits of [<sys/stat.h>]. *)
Class StatBits := {
  S_IFDIR : Z; S_IFREG : Z;
  S_IRWXU : Z; S_IRWXG : Z; S_IRWXO : Z;
  S_IRUSR : Z; S_IWUSR : Z; S_IXUSR : Z;
  S_IRGRP : Z; S_IWGRP : Z; S_IXGRP : Z;
  S_IROTH : Z; S_IWOTH : Z; S_IXOTH : Z
}.

(** The values of the KallistiOS toolchain (newlib), used for the concrete
    runs below. *)
#[export] Instance kos_fcntl : FcntlFlags := {|
  O_MODE_MASK := 15;
  O_RDONLY := 0;
  O_WRONLY := 1;
  O_RDWR := 2;
  O_APPEND := 8;
  O_TRUNC := 1024;
  O_DIR := 4096
|}.

#[export] Instance posix_stat : StatBits := {|
  S_IFDIR := 16384; S_IFREG := 32768;
  S_IRWXU := 448; S_IRWXG := 56; S_IRWXO := 7;
  S_IRUSR := 256; S_IWUSR := 128; S_IXUSR := 64;
  S_IRGRP := 32; S_IWGRP := 16; S_IXGRP := 8;
  S_IROTH := 4; S_IWOTH := 2; S_IXOTH := 1
|}.

(** [dirent_t] is declared in [<kos/fs.h>]: a structure that holds the
    name in an array of characters, of which the module has to know only
    the length.  The concrete runs below take 256. *)
Class DirentLayout := {
  DIRENT_NAME_LEN : Z
}.

#[export] Instance kos_dirent : DirentLayout := {|
  DIRENT_NAME_LEN := 256
|}.

(** The [errno] values the module stores. *)
Inductive errno_t :=
  | ENOENT | ENOMEM | EBUSY | EINVAL | EISDIR | EBADF | ENOSPC.

(** [whence] argument of [ramdisk_seek]; [SEEK_OTHER] stands for every
    value that is none of the three constants ([default:] of the switch). *)
Inductive whence_t := SEEK_SET | SEEK_CUR | SEEK_END | SEEK_OTHER.

(** ** Machine integers *)

Definition wrap32 (z : Z) : Z := z mod 2 ^ 32.

(** Conversion of a 32-bit unsigned value to the signed 32-bit types
    [ssize_t], [off_t] and [int]. *)
Definition signed32 (z : Z) : Z :=
  let u := wrap32 z in if u <? 2 ^ 31 then u else u - 2 ^ 32.

Definition NULL : Z := 0.

(** Lock constants *)
Definition OPENFOR_NOTHING : Z := 0.
Definition OPENFOR_READ : Z := 1.
Definition OPENFOR_WRITE : Z := 2.

(** [static const dev_t rd_dev = 'r' | ('a' << 8) | ('m' << 16)] *)
Definition rd_dev : Z :=
  Z.lor (Z.lor 114 (Z.shiftl 97 8)) (Z.shiftl 109 16).

(** [static const blksize_t rd_blksize = 1024] *)
Definition rd_blksize : Z := 1024.

(** ** C strings *)

Definition strlen (s : string) : Z := Z.of_nat (String.length s).

(** [s + n] on [char *]. *)
Fixpoint str_advance (n : nat) (s : string) {struct n} : string :=
  match n, s with
  | S k, String _ s' => str_advance k s'
  | _, _ => s
  end.

(** The first [n] characters: what [strncpy(d, s, n); d[n] = 0] leaves. *)
Fixpoint strncpy (s : string) (n : nat) {struct n} : string :=
  match n, s with
  | S k, String c s' => String c (strncpy s' k)
  | _, _ => EmptyString
  end.

(** [strchr]: offset of the first occurrence, [None] for a null result. *)
Fixpoint strchr (s : string) (c : ascii) : option nat :=
  match s with
  | EmptyString => None
  | String x s' =>
      if Ascii.eqb x c then Some O
      else match strchr s' c with Some i => Some (S i) | None => None end
  end.

(** [strrchr]: offset of the last occurrence. *)
Fixpoint strrchr (s : string) (c : ascii) : option nat :=
  match s with
  | EmptyString => None
  | String x s' =>
      match strrchr s' c with
      | Some i => Some (S i)
      | None => if Ascii.eqb x c then Some O else None
      end
  end.

Definition tolower (c : ascii) : Z :=
  let n := Z.of_N (N_of_ascii c) in
  if (65 <=? n) && (n <=? 90) then n + 32 else n.

Fixpoint strncasecmp (a b : string) (n : nat) {struct n} : Z :=
  match n with
  | O => 0
  | S k =>
      match a, b with
      | EmptyString, EmptyString => 0
      | EmptyString, String cb _ => 0 - tolower cb
      | String ca _, EmptyString => tolower ca
      | String ca a', String cb b' =>
          if tolower ca =? tolower cb then strncasecmp a' b' k
          else tolower ca - tolower cb
      end
  end.

Definition slash : ascii := "/"%char.

(** ** Data model *)

(** What [rd_file.data] points at.  A file's block is owned by the one
    [rd_file_t] that points at it, so it is kept by value; a directory's
    [rd_dir_t] is kept by address. *)
Inductive rd_data :=
  | DataNull
  | DataBlock (b : list Byte.byte)
  | DataDir (d : Z).

(** [le_prev] of a [LIST_ENTRY]: the address of the link that points at
    this element, either the [lh_first] of a head or the [le_next] of the
    previous element. *)
Inductive link :=
  | LinkNone
  | LinkHead (d : Z)
  | LinkNext (f : Z).

Record rd_file := mk_rd_file {
  name : string;
  size : Z;
  isdir : bool;
  openfor : Z;
  usage : Z;
  data : rd_data;
  datasize : Z;
  le_next : Z;
  le_prev : link
}.

Record dirent_t := mk_dirent {
  d_size : Z;
  d_name : string;
  d_time : Z;
  d_attr : Z
}.

Record rd_fd := mk_rd_fd {
  file : Z;
  dir : bool;
  ptr : Z;
  dirent : dirent_t;
  omode : Z
}.

Record stat_t := mk_stat {
  st_dev : Z;
  st_mode : Z;
  st_size : Z;
  st_nlink : Z;
  st_blksize : Z;
  st_blocks : Z
}.

(** The module's static variables, the three object stores, [errno], and
    the allocator: [brk] is the next address handed out (addresses are not
    recycled), [oracle] lists the outcomes of the coming allocation
    requests (once it is used up, requests succeed). *)
Record state := mk_state {
  files : gmap Z rd_file;
  dirs : gmap Z Z;
  fds : gmap Z rd_fd;
  rd_fd_queue : list Z;
  root : Z;
  rootdir : Z;
  errno : option errno_t;
  brk : Z;
  oracle : list bool
}.

Definition with_files (m : gmap Z rd_file) (s : state) : state :=
  mk_state m (dirs s) (fds s) (rd_fd_queue s) (root s) (rootdir s)
           (errno s) (brk s) (oracle s).
Definition with_dirs (m : gmap Z Z) (s : state) : state :=
  mk_state (files s) m (fds s) (rd_fd_queue s) (root s) (rootdir s)
           (errno s) (brk s) (oracle s).
Definition with_fds (m : gmap Z rd_fd) (s : state) : state :=
  mk_state (files s) (dirs s) m (rd_fd_queue s) (root s) (rootdir s)
           (errno s) (brk s) (oracle s).
Definition with_queue (q : list Z) (s : state) : state :=
  mk_state (files s) (dirs s) (fds s) q (root s) (rootdir s)
           (errno s) (brk s) (oracle s).
Definition with_root (r : Z) (s : state) : state :=
  mk_state (files s) (dirs s) (fds s) (rd_fd_queue s) r (rootdir s)
           (errno s) (brk s) (oracle s).
Definition with_rootdir (r : Z) (s : state) : state :=
  mk_state (files s) (dirs s) (fds s) (rd_fd_queue s) (root s) r
           (errno s) (brk s) (oracle s).
Definition with_errno (e : option errno_t) (s : state) : state :=
  mk_state (files s) (dirs s) (fds s) (rd_fd_queue s) (root s) (rootdir s)
           e (brk s) (oracle s).
Definition with_brk (b : Z) (s : state) : state :=
  mk_state (files s) (dirs s) (fds s) (rd_fd_queue s) (root s) (rootdir s)
           (errno s) b (oracle s).
Definition with_oracle (o : list bool) (s : state) : state :=
  mk_state (files s) (dirs s) (fds s) (rd_fd_queue s) (root s) (rootdir s)
           (errno s) (brk s) o.

(** Field updates of [rd_file_t] and [rd_fd_t]. *)
Definition set_size (v : Z) (f : rd_file) : rd_file :=
  mk_rd_file (name f) v (isdir f) (openfor f) (usage f) (data f)
             (datasize f) (le_next f) (le_prev f).
Definition set_openfor (v : Z) (f : rd_file) : rd_file :=
  mk_rd_file (name f) (size f) (isdir f) v (usage f) (data f)
             (datasize f) (le_next f) (le_prev f).
Definition set_usage (v : Z) (f : rd_file) : rd_file :=
  mk_rd_file (name f) (size f) (isdir f) (openfor f) v (data f)
             (datasize f) (le_next f) (le_prev f).
Definition set_data (v : rd_data) (f : rd_file) : rd_file :=
  mk_rd_file (name f) (size f) (isdir f) (openfor f) (usage f) v
             (datasize f) (le_next f) (le_prev f).
Definition set_datasize (v : Z) (f : rd_file) : rd_file :=
  mk_rd_file (name f) (size f) (isdir f) (openfor f) (usage f) (data f)
             v (le_next f) (le_prev f).
Definition set_le_next (v : Z) (f : rd_file) : rd_file :=
  mk_rd_file (name f) (size f) (isdir f) (openfor f) (usage f) (data f)
             (datasize f) v (le_prev f).
Definition set_le_prev (v : link) (f : rd_file) : rd_file :=
  mk_rd_file (name f) (size f) (isdir f) (openfor f) (usage f) (data f)
             (datasize f) (le_next f) v.

Definition set_file (v : Z) (d : rd_fd) : rd_fd :=
  mk_rd_fd v (dir d) (ptr d) (dirent d) (omode d).
Definition set_ptr (v : Z) (d : rd_fd) : rd_fd :=
  mk_rd_fd (file d) (dir d) v (dirent d) (omode d).
Definition set_dirent (v : dirent_t) (d : rd_fd) : rd_fd :=
  mk_rd_fd (file d) (dir d) (ptr d) v (omode d).

(** ** The state-and-crash monad *)

Inductive trap :=
  | BadPointer (a : Z)     (* access through a pointer to no object *)
  | OutOfBounds            (* [memcpy] past the end of a data block,
                              [strcpy] past the end of an array *)
  | BadCast                (* a data block used as an [rd_dir_t] or back *)
  | AssertFailed           (* [assert] / [assert_msg] *)
  | Diverges.              (* a list walk that does not end *)

Inductive outcome (A : Type) :=
  | Ok (a : A)
  | Crash (t : trap).
Arguments Ok {A} a.
Arguments Crash {A} t.

Definition M (A : Type) : Type := state -> outcome (A * state).

Definition ret {A} (a : A) : M A := fun s => Ok (a, s).

Definition bind {A B} (m : M A) (k : A -> M B) : M B :=
  fun s => match m s with
           | Ok (a, s') => k a s'
           | Crash t => Crash t
           end.

Definition lift {A} (o : outcome A) : M A :=
  fun s => match o with
           | Ok a => Ok (a, s)
           | Crash t => Crash t
           end.

Definition bindo {A B} (o : outcome A) (k : A -> outcome B) : outcome B :=
  match o with
  | Ok a => k a
  | Crash t => Crash t
  end.

Declare Scope rd_scope.
Delimit Scope rd_scope with rd.
Notation "x <~ m ;; k" := (bind m (fun x => k))
  (at level 100, m at next level, right associativity) : rd_scope.
Notation "m ;;; k" := (bind m (fun _ => k))
  (at level 100, right associativity) : rd_scope.
Notation "x <~~ m ;; k" := (bindo m (fun x => k))
  (at level 100, m at next level, right associativity) : rd_scope.
Local Open Scope rd_scope.

Definition gets {A} (f : state -> A) : M A := fun s => Ok (f s, s).
Definition modify (f : state -> state) : M unit := fun s => Ok (tt, f s).
Definition crash {A} (t : trap) : M A := fun _ => Crash t.

Definition set_errno (e : errno_t) : M unit := modify (with_errno (Some e)).

Definition assert (b : bool) : M unit :=
  if b then ret tt else crash AssertFailed.

(** ** Memory *)

Definition deref_file (m : gmap Z rd_file) (a : Z) : outcome rd_file :=
  match m !! a with
  | Some f => Ok f
  | None => Crash (BadPointer a)
  end.

Definition deref_dir (m : gmap Z Z) (a : Z) : outcome Z :=
  match m !! a with
  | Some first => Ok first
  | None => Crash (BadPointer a)
  end.

Definition deref_fd (m : gmap Z rd_fd) (a : Z) : outcome rd_fd :=
  match m !! a with
  | Some d => Ok d
  | None => Crash (BadPointer a)
  end.

Definition get_file (a : Z) : M rd_file :=
  fun s => lift (deref_file (files s) a) s.
Definition get_dir (a : Z) : M Z :=
  fun s => lift (deref_dir (dirs s) a) s.
Definition get_fd (a : Z) : M rd_fd :=
  fun s => lift (deref_fd (fds s) a) s.

(** [f->field = v] *)
Definition upd_file (a : Z) (g : rd_file -> rd_file) : M unit :=
  f <~ get_file a ;;
  modify (fun s => with_files (<[a := g f]> (files s)) s).

Definition upd_fd (a : Z) (g : rd_fd -> rd_fd) : M unit :=
  d <~ get_fd a ;;
  modify (fun s => with_fds (<[a := g d]> (fds s)) s).

(** The outcome of the next allocation request, and the state once it has
    been answered. *)
Definition next_alloc (s : state) : bool :=
  match oracle s with
  | [] => true
  | b :: _ => b
  end.

Definition after_alloc (s : state) : state :=
  with_oracle (tail (oracle s)) s.

(** One allocation request: does it succeed? *)
Definition alloc_ok : M bool :=
  fun s => Ok (next_alloc s, after_alloc s).

(** [malloc] / [calloc] of an object that the model keeps by address:
    a fresh address, or [NULL]. *)
Definition malloc_obj : M Z :=
  ok <~ alloc_ok ;;
  if ok then
    a <~ gets brk ;;
    modify (with_brk (a + 1)) ;;;
    ret a
  else ret NULL.

(** The contents of a fresh block are indeterminate in C; the model
    fills it with zero bytes. *)
Definition fresh_block (n : Z) : rd_data :=
  DataBlock (repeat Byte.x00 (Z.to_nat n)).

(** [malloc(n)] of a data block. *)
Definition malloc_block (n : Z) : M rd_data :=
  ok <~ alloc_ok ;;
  ret (if ok then fresh_block n else DataNull).

(** A successful [realloc(p, n)]: the old contents up to [n] bytes, then
    fresh bytes. *)
Definition realloc_block (d : rd_data) (n : Z) : rd_data :=
  match d with
  | DataBlock b =>
      DataBlock (take (Z.to_nat n)
                      (b ++ repeat Byte.x00 (Z.to_nat n - length b)))
  | _ => fresh_block n
  end.

(** [memcpy(buf, data + off, n)] *)
Definition mem_read (d : rd_data) (off n : Z) : outcome (list Byte.byte) :=
  if n =? 0 then Ok []
  else match d with
       | DataBlock b =>
           if off + n <=? Z.of_nat (length b)
           then Ok (take (Z.to_nat n) (drop (Z.to_nat off) b))
           else Crash OutOfBounds
       | DataNull => Crash (BadPointer off)
       | DataDir _ => Crash BadCast
       end.

(** [memcpy(data + off, src, length src)] *)
Definition mem_write (d : rd_data) (off : Z) (src : list Byte.byte)
  : outcome rd_data :=
  match src with
  | [] => Ok d
  | _ =>
      match d with
      | DataBlock b =>
          if off + Z.of_nat (length src) <=? Z.of_nat (length b)
          then Ok (DataBlock (take (Z.to_nat off) b ++ src ++
                              drop (Z.to_nat off + length src) b))
          else Crash OutOfBounds
      | DataNull => Crash (BadPointer off)
      | DataDir _ => Crash BadCast
      end
  end.

(** [(rd_dir_t * )f->data] followed by [assert(... != NULL)] *)
Definition dir_of_data (d : rd_data) : outcome Z :=
  match d with
  | DataDir a => Ok a
  | DataNull => Crash AssertFailed
  | DataBlock _ => Crash BadCast
  end.

(** ** The [LIST] macros of [<sys/queue.h>] on [rd_file.dirlist] *)

(** [LIST_INSERT_HEAD(head, elm, dirlist)] *)
Definition LIST_INSERT_HEAD (head elm : Z) : M unit :=
  first <~ get_dir head ;;
  upd_file elm (set_le_next first) ;;;
  (if first =? NULL then ret tt
   else upd_file first (set_le_prev (LinkNext elm))) ;;;
  modify (fun s => with_dirs (<[head := elm]> (dirs s)) s) ;;;
  upd_file elm (set_le_prev (LinkHead head)).

(** [LIST_REMOVE(elm, dirlist)] *)
Definition LIST_REMOVE (elm : Z) : M unit :=
  e <~ get_file elm ;;
  (if le_next e =? NULL then ret tt
   else upd_file (le_next e) (set_le_prev (le_prev e))) ;;;
  match le_prev e with
  | LinkHead d =>
      get_dir d ;;;
      modify (fun s => with_dirs (<[d := le_next e]> (dirs s)) s)
  | LinkNext p => upd_file p (set_le_next (le_next e))
  | LinkNone => crash (BadPointer NULL)
  end.

(** ** File primitives *)

(** [ramdisk_fd_invalid]: [!fd || !fd->file] *)
Definition ramdisk_fd_invalid (h : Z) : M bool :=
  if h =? NULL then ret true
  else fd <~ get_fd h ;; ret (file fd =? NULL).

(** The body of [LIST_FOREACH] in [ramdisk_find], from element [f] on.
    The walk of a well-formed list ends; [fuel] bounds the walk of any
    other, which the C loop would never leave. *)
Fixpoint list_find (fuel : nat) (m : gmap Z rd_file) (f : Z)
    (nm : string) (namelen : nat) : outcome Z :=
  if f =? NULL then Ok NULL
  else
    match fuel with
    | O => Crash Diverges
    | S k =>
        e <~~ deref_file m f ;;
        if (strlen (name e) =? Z.of_nat namelen)
           && (strncasecmp nm (name e) namelen =? 0)
        then Ok f
        else list_find k m (le_next e) nm namelen
    end.

(** [ramdisk_find]: search directory [parent] for the file named by the
    first [namelen] characters of [nm]. *)
Definition ramdisk_find (fm : gmap Z rd_file) (dm : gmap Z Z)
    (parent : Z) (nm : string) (namelen : nat) : outcome Z :=
  first <~~ deref_dir dm parent ;;
  list_find (base.size fm) fm first nm namelen.

(** The [while((cur = strchr(fn, '/')))] loop of [ramdisk_find_path] and
    what follows it.  Every turn advances [fn] past a slash, so
    [String.length fn] turns are always enough. *)
Fixpoint find_path_walk (fuel : nat) (fm : gmap Z rd_file) (dm : gmap Z Z)
    (parent : Z) (fn : string) (dir : bool) (f : Z) : outcome Z :=
  match strchr fn slash with
  | Some cur =>
      match fuel with
      | O => Crash Diverges
      | S k =>
          step <~~
            (match cur with
             | O => Ok (Some (parent, f))
             | S _ =>
                 f' <~~ ramdisk_find fm dm parent fn cur ;;
                 if f' =? NULL then Ok None
                 else
                   e <~~ deref_file fm f' ;;
                   if negb (isdir e) then Ok None
                   else
                     d <~~ dir_of_data (data e) ;;
                     Ok (Some (d, f'))
             end) ;;
          match step with
          | None => Ok NULL
          | Some (parent', f') =>
              find_path_walk k fm dm parent' (str_advance (S cur) fn) dir f'
          end
      end
  | None =>
      match fn with
      | String _ _ =>
          f' <~~ ramdisk_find fm dm parent fn (String.length fn) ;;
          if f' =? NULL then Ok NULL
          else
            e <~~ deref_file fm f' ;;
            if (negb dir && isdir e) || (dir && negb (isdir e))
            then Ok NULL
            else Ok f'
      | EmptyString =>
          if negb dir then Ok NULL else Ok f
      end
  end.

(** [ramdisk_find_path] *)
Definition ramdisk_find_path (fm : gmap Z rd_file) (dm : gmap Z Z)
    (parent : Z) (fn : string) (dir : bool) : outcome Z :=
  find_path_walk (String.length fn) fm dm parent fn dir NULL.

Definition find_path (parent : Z) (fn : string) (dir : bool) : M Z :=
  fun s => lift (ramdisk_find_path (files s) (dirs s) parent fn dir) s.

(** [ramdisk_get_parent]: the return code, [*dout] and [*fnout]. *)
Definition ramdisk_get_parent (parent : Z) (fn : string)
  : M (Z * Z * string) :=
  match strrchr fn slash with
  | None => ret (0, parent, fn)
  | Some p =>
      ok <~ alloc_ok ;;
      if negb ok then set_errno ENOMEM ;;; ret (-2, NULL, EmptyString)
      else
        f <~ find_path parent (strncpy fn p) true ;;
        if f =? NULL then set_errno ENOENT ;;; ret (-1, NULL, EmptyString)
        else
          e <~ get_file f ;;
          d <~ lift (dir_of_data (data e)) ;;
          ret (0, d, str_advance (S p) fn)
  end.

(** [ramdisk_create_file].  The new [rd_file_t] is entered in the store
    once its fields are set; the paths that free it leave no trace. *)
Definition ramdisk_create_file (parent : Z) (fn : string) (dir : bool)
  : M Z :=
  r <~ ramdisk_get_parent parent fn ;;
  let '(rc, pdir, p) := r in
  if rc <? 0 then ret NULL
  else
    f <~ malloc_obj ;;
    if f =? NULL then set_errno ENOMEM ;;; ret NULL
    else
      named <~ alloc_ok ;;
      if negb named then set_errno ENOMEM ;;; ret NULL
      else
        blk <~
          (if negb dir then
             b <~ malloc_block rd_blksize ;; ret (b, rd_blksize)
           else
             a <~ malloc_obj ;;
             ret (if a =? NULL then DataNull else DataDir a, 0)) ;;
        let '(d, dsz) := blk in
        match d with
        | DataNull => set_errno ENOMEM ;;; ret NULL
        | _ =>
            modify (fun s =>
              with_files
                (<[f := mk_rd_file p 0 dir OPENFOR_NOTHING 0 d dsz
                                   NULL LinkNone]> (files s)) s) ;;;
            LIST_INSERT_HEAD pdir f ;;;
            ret f
        end.

Definition nonzero (z : Z) : bool := negb (z =? 0).

(** [ramdisk_open] *)
Definition ramdisk_open `{FcntlFlags} (fn : string) (mode : Z) : M Z :=
  let mm := Z.land mode O_MODE_MASK in
  let want_dir := nonzero (Z.land mode O_DIR) in
  let fn := match fn with
            | String c fn' => if Ascii.eqb c slash then fn' else fn
            | EmptyString => fn
            end in
  if want_dir && negb (mm =? O_RDONLY) then set_errno EISDIR ;;; ret NULL
  else
    rt <~ gets root ;;
    assert (negb (rt =? NULL)) ;;;
    f <~ (match fn with
          | EmptyString => ret rt
          | String _ _ =>
              rd <~ gets rootdir ;;
              f <~ find_path rd fn want_dir ;;
              if f =? NULL then
                if negb (mm =? O_RDONLY) && negb want_dir
                then ramdisk_create_file rd fn want_dir
                else set_errno ENOENT ;;; ret NULL
              else ret f
          end) ;;
    if f =? NULL then ret NULL
    else
      e <~ get_file f ;;
      if isdir e && negb want_dir then set_errno EINVAL ;;; ret NULL
      else if openfor e =? OPENFOR_WRITE then ret NULL
      else
        fd <~ malloc_obj ;;
        if fd =? NULL then set_errno ENOMEM ;;; ret NULL
        else
          modify (fun s =>
            with_fds (<[fd := mk_rd_fd f want_dir 0
                                       (mk_dirent 0 EmptyString 0 0) mode]>
                        (fds s)) s) ;;;
          locked <~
            (if mm =? O_RDONLY then
               upd_file f (set_openfor OPENFOR_READ) ;;;
               upd_fd fd (set_ptr 0) ;;;
               ret true
             else if nonzero (Z.land mm O_RDWR)
                     || nonzero (Z.land mm O_WRONLY) then
               if openfor e =? OPENFOR_READ then ret false
               else
                 upd_file f (set_openfor OPENFOR_WRITE) ;;;
                 (if nonzero (Z.land mode O_APPEND) then
                    upd_fd fd (set_ptr (size e))
                  else if nonzero (Z.land mode O_TRUNC) then
                    upd_file f (set_datasize rd_blksize) ;;;
                    b <~ malloc_block rd_blksize ;;
                    upd_file f (set_data b) ;;;
                    upd_file f (set_size 0) ;;;
                    upd_fd fd (set_ptr 0)
                  else upd_fd fd (set_ptr 0)) ;;;
                 ret true
             else crash AssertFailed) ;;
          if negb locked then ret NULL
          else
            (if want_dir then
               e' <~ get_file f ;;
               d <~ lift (dir_of_data (data e')) ;;
               first <~ get_dir d ;;
               upd_fd fd (set_ptr (wrap32 first))
             else ret tt) ;;;
            e' <~ get_file f ;;
            upd_file f (set_usage (usage e' + 1)) ;;;
            modify (fun s => with_queue (rd_fd_queue s ++ [fd]) s) ;;;
            ret fd.

(** [ramdisk_close].  [free(fd)] takes the [rd_fd_t] out of the store of
    handles, so that a handle used after it has been closed is a pointer
    to no object. *)
Definition ramdisk_close (h : Z) : M Z :=
  bad <~ ramdisk_fd_invalid h ;;
  if bad then set_errno EBADF ;;; ret 0
  else
    fd <~ get_fd h ;;
    let f := file fd in
    upd_fd h (set_file NULL) ;;;
    e <~ get_file f ;;
    upd_file f (set_usage (usage e - 1)) ;;;
    assert (0 <=? usage e - 1) ;;;
    (if usage e - 1 =? 0 then upd_file f (set_openfor OPENFOR_NOTHING)
     else ret tt) ;;;
    modify (fun s =>
      with_queue (filter (fun x => x <> h) (rd_fd_queue s)) s) ;;;
    modify (fun s => with_fds (delete h (fds s)) s) ;;;
    ret 0.

(** [ramdisk_read]: the return value and the bytes copied to [buf]. *)
Definition ramdisk_read (h : Z) (bytes : Z) : M (Z * list Byte.byte) :=
  bad <~ ramdisk_fd_invalid h ;;
  if bad then set_errno EBADF ;;; ret (-1, [])
  else
    fd <~ get_fd h ;;
    if dir fd then set_errno EBADF ;;; ret (-1, [])
    else
      e <~ get_file (file fd) ;;
      let bytes :=
        if wrap32 (ptr fd + bytes) >? size e
        then wrap32 (size e - ptr fd) else bytes in
      buf <~ lift (mem_read (data e) (ptr fd) bytes) ;;
      upd_fd h (set_ptr (wrap32 (ptr fd + bytes))) ;;;
      ret (signed32 bytes, buf).

(** [ramdisk_write]; [bytes] is the length of [buf]. *)
Definition ramdisk_write (h : Z) (buf : list Byte.byte) : M Z :=
  let bytes := Z.of_nat (length buf) in
  bad <~ ramdisk_fd_invalid h ;;
  if bad then set_errno EBADF ;;; ret (-1)
  else
    fd <~ get_fd h ;;
    if dir fd then set_errno EBADF ;;; ret (-1)
    else
      e <~ get_file (file fd) ;;
      if negb (openfor e =? OPENFOR_WRITE) then set_errno EBADF ;;; ret (-1)
      else
        grown <~
          (if wrap32 (ptr fd + bytes) >? datasize e then
             ok <~ alloc_ok ;;
             if negb ok then ret false
             else
               let n := wrap32 (wrap32 (ptr fd + bytes) + rd_blksize * 4) in
               upd_file (file fd) (set_data (realloc_block (data e) n)) ;;;
               upd_file (file fd) (set_datasize n) ;;;
               ret true
           else ret true) ;;
        if negb grown then set_errno ENOSPC ;;; ret (-1)
        else
          e <~ get_file (file fd) ;;
          d <~ lift (mem_write (data e) (ptr fd) buf) ;;
          upd_file (file fd) (set_data d) ;;;
          upd_fd h (set_ptr (wrap32 (ptr fd + bytes))) ;;;
          (if size e <? wrap32 (ptr fd + bytes)
           then upd_file (file fd) (set_size (wrap32 (ptr fd + bytes)))
           else ret tt) ;;;
          ret (signed32 bytes).

(** [ramdisk_seek] *)
Definition ramdisk_seek (h : Z) (offset : Z) (whence : whence_t) : M Z :=
  bad <~ ramdisk_fd_invalid h ;;
  if bad then set_errno EBADF ;;; ret (-1)
  else
    fd <~ get_fd h ;;
    if dir fd then set_errno EBADF ;;; ret (-1)
    else
      e <~ get_file (file fd) ;;
      let moved :=
        match whence with
        | SEEK_SET =>
            if offset <? 0 then None else Some (wrap32 offset)
        | SEEK_CUR =>
            if (offset <? 0) && (wrap32 (- offset) >? ptr fd) then None
            else Some (wrap32 (ptr fd + offset))
        | SEEK_END =>
            if (offset <? 0) && (wrap32 (- offset) >? size e) then None
            else Some (wrap32 (size e + offset))
        | SEEK_OTHER => None
        end in
      match moved with
      | None => set_errno EINVAL ;;; ret (-1)
      | Some p =>
          let p := if p >? size e then size e else p in
          upd_fd h (set_ptr p) ;;;
          ret (signed32 p)
      end.

(** [ramdisk_tell] *)
Definition ramdisk_tell (h : Z) : M Z :=
  bad <~ ramdisk_fd_invalid h ;;
  if bad then set_errno EBADF ;;; ret (-1)
  else
    fd <~ get_fd h ;;
    if dir fd then set_errno EBADF ;;; ret (-1)
    else ret (signed32 (ptr fd)).

(** [ramdisk_total]; the result is a [size_t]. *)
Definition ramdisk_total (h : Z) : M Z :=
  bad <~ ramdisk_fd_invalid h ;;
  if bad then set_errno EBADF ;;; ret (wrap32 (-1))
  else
    fd <~ get_fd h ;;
    if dir fd then set_errno EBADF ;;; ret (wrap32 (-1))
    else
      e <~ get_file (file fd) ;;
      ret (size e).

(** [ramdisk_readdir]: [None] is the null result, [Some] the entry left in
    [fd->dirent].  [strcpy(fd->dirent.name, f->name)] copies the name and
    its terminator with no test of the length: a name that does not fit
    the array runs over the rest of the [rd_fd_t]. *)
Definition ramdisk_readdir `{FcntlFlags} `{DirentLayout} (h : Z)
  : M (option dirent_t) :=
  bad <~ ramdisk_fd_invalid h ;;
  if bad then set_errno EBADF ;;; ret None
  else
    fd <~ get_fd h ;;
    if negb (dir fd) then set_errno EBADF ;;; ret None
    else
      let f := ptr fd in
      e <~ get_file f ;;
      upd_fd h (set_ptr (wrap32 (le_next e))) ;;;
      (if DIRENT_NAME_LEN <? strlen (name e) + 1
       then crash OutOfBounds else ret tt) ;;;
      let ent :=
        if isdir e then mk_dirent (-1) (name e) 0 O_DIR
        else mk_dirent (signed32 (size e)) (name e) 0 0 in
      upd_fd h (set_dirent ent) ;;;
      ret (Some ent).

(** [ramdisk_rewinddir] *)
Definition ramdisk_rewinddir (h : Z) : M Z :=
  bad <~ ramdisk_fd_invalid h ;;
  if bad then set_errno EBADF ;;; ret (-1)
  else
    fd <~ get_fd h ;;
    if negb (dir fd) then set_errno EBADF ;;; ret (-1)
    else
      e <~ get_file (file fd) ;;
      d <~ lift (dir_of_data (data e)) ;;
      first <~ get_dir d ;;
      upd_fd h (set_ptr (wrap32 first)) ;;;
      ret 0.

(** [ramdisk_unlink] *)
Definition ramdisk_unlink (fn : string) : M Z :=
  rd <~ gets rootdir ;;
  f <~ find_path rd fn false ;;
  if f =? NULL then set_errno ENOENT ;;; ret (-1)
  else
    e <~ get_file f ;;
    if nonzero (usage e) then set_errno EBUSY ;;; ret (-1)
    else
      LIST_REMOVE f ;;;
      modify (fun s => with_files (delete f (files s)) s) ;;;
      ret 0.

(** Modelled from the spec: [__align_up] is a macro of a header outside
    the module; the spec has the block count "derived from capacity rounded
    up to the block size". *)
Definition align_up (v a : Z) : Z := (v + (a - 1)) / a * a.

(** [ramdisk_stat]: the return value and what is left in [*st]. *)
Definition ramdisk_stat `{StatBits} (path : string) : M (Z * option stat_t) :=
  let len := String.length path in
  if (len =? 0)%nat
     || ((len =? 1)%nat && String.eqb path (String slash EmptyString))
  then
    ret (0, Some (mk_stat rd_dev
                    (Z.lor (Z.lor (Z.lor S_IFDIR S_IRWXU) S_IRWXG) S_IRWXO)
                    (-1) 2 0 0))
  else
    rd <~ gets rootdir ;;
    f <~ find_path rd path false ;;
    if f =? NULL then set_errno ENOENT ;;; ret (-1, None)
    else
      e <~ get_file f ;;
      let rw := Z.lor (Z.lor (Z.lor (Z.lor (Z.lor S_IRUSR S_IWUSR) S_IRGRP)
                                    S_IWGRP) S_IROTH) S_IWOTH in
      ret (0, Some (mk_stat rd_dev
                      (Z.lor rw
                         (if isdir e
                          then Z.lor (Z.lor (Z.lor S_IFDIR S_IXUSR) S_IXGRP)
                                     S_IXOTH
                          else S_IFREG))
                      (if isdir e then -1 else signed32 (datasize e))
                      (if isdir e then 2 else 1)
                      rd_blksize
                      (align_up (datasize e) rd_blksize / rd_blksize))).

(** [ramdisk_fstat] *)
Definition ramdisk_fstat `{StatBits} (h : Z) : M (Z * option stat_t) :=
  bad <~ ramdisk_fd_invalid h ;;
  if bad then set_errno EBADF ;;; ret (-1, None)
  else
    fd <~ get_fd h ;;
    e <~ get_file (file fd) ;;
    let rw := Z.lor (Z.lor (Z.lor (Z.lor (Z.lor S_IRUSR S_IWUSR) S_IRGRP)
                                  S_IWGRP) S_IROTH) S_IWOTH in
    ret (0, Some (mk_stat rd_dev
                    (Z.lor rw (if isdir e then S_IFDIR else S_IFREG))
                    (if isdir e then -1 else signed32 (datasize e))
                    (if isdir e then 2 else 1)
                    rd_blksize
                    (align_up (datasize e) rd_blksize / rd_blksize))).

(** ** Attach and detach *)

(** [fs_ramdisk_attach]: [obj] is the caller's block, [sz] its size. *)
Definition fs_ramdisk_attach `{FcntlFlags} (fn : string)
    (obj : list Byte.byte) (sz : Z) : M Z :=
  fd <~ ramdisk_open fn (Z.lor O_WRONLY O_TRUNC) ;;
  if fd =? NULL then ret (-1)
  else
    d <~ get_fd fd ;;
    let f := file d in
    upd_file f (set_data (DataBlock obj)) ;;;
    upd_file f (set_datasize (wrap32 sz)) ;;;
    upd_file f (set_size (wrap32 sz)) ;;;
    ramdisk_close fd ;;;
    ret 0.

(** [fs_ramdisk_detach]: the return value, [*obj] and [*size] (the two
    out-parameters are written only when the open succeeds). *)
Definition fs_ramdisk_detach `{FcntlFlags} (fn : string)
  : M (Z * option (rd_data * Z)) :=
  fd <~ ramdisk_open fn O_RDONLY ;;
  if fd =? NULL then ret (-1, None)
  else
    d <~ get_fd fd ;;
    let f := file d in
    e <~ get_file f ;;
    upd_file f (set_data DataNull) ;;;
    upd_file f (set_datasize 0) ;;;
    upd_file f (set_size 0) ;;;
    ramdisk_close fd ;;;
    ramdisk_unlink fn ;;;
    ret (0, Some (data e, size e)).

(** ** Initialisation *)

(** The state before [fs_ramdisk_init]: the statics are zero. *)
Definition boot (o : list bool) : state :=
  mk_state ∅ ∅ ∅ [] NULL NULL None 1 o.

(** [fs_ramdisk_init] (the registration with the name manager is outside
    the module). *)
Definition fs_ramdisk_init : M unit :=
  rd <~ gets rootdir ;;
  if negb (rd =? NULL) then ret tt
  else
    d <~ malloc_obj ;;
    modify (with_rootdir d) ;;;
    if d =? NULL then ret tt
    else
      r <~ malloc_obj ;;
      modify (with_root r) ;;;
      if r =? NULL then ret tt
      else
        named <~ alloc_ok ;;
        if negb named then ret tt
        else
          modify (fun s =>
            with_files
              (<[r := mk_rd_file (String slash EmptyString) 0 true
                                 OPENFOR_NOTHING 0 (DataDir d) 0
                                 NULL LinkNone]> (files s)) s) ;;;
          modify (fun s => with_dirs (<[d := NULL]> (dirs s)) s) ;;;
          modify (with_queue []).

(** ** Phases of [ramdisk_open]

    [ramdisk_open] is one C function; the proofs cut it after the lookup
    ("Look for the file") and treat the rest separately.  The two halves
    below are literally the two parts of the definition above (lemma
    [ramdisk_open_phases]). *)

Definition strip_slash (fn : string) : string :=
  match fn with
  | String c fn' => if Ascii.eqb c slash then fn' else fn
  | EmptyString => fn
  end.

Definition open_lookup `{FcntlFlags} (fn : string) (mode : Z) : M Z :=
  let mm := Z.land mode O_MODE_MASK in
  let want_dir := nonzero (Z.land mode O_DIR) in
  rt <~ gets root ;;
  assert (negb (rt =? NULL)) ;;;
  match fn with
  | EmptyString => ret rt
  | String _ _ =>
      rd <~ gets rootdir ;;
      f <~ find_path rd fn want_dir ;;
      if f =? NULL then
        if negb (mm =? O_RDONLY) && negb want_dir
        then ramdisk_create_file rd fn want_dir
        else set_errno ENOENT ;;; ret NULL
      else ret f
  end.

Definition open_lock `{FcntlFlags} (f fd : Z) (e : rd_file) (mode : Z)
  : M bool :=
  let mm := Z.land mode O_MODE_MASK in
  if mm =? O_RDONLY then
    upd_file f (set_openfor OPENFOR_READ) ;;;
    upd_fd fd (set_ptr 0) ;;;
    ret true
  else if nonzero (Z.land mm O_RDWR) || nonzero (Z.land mm O_WRONLY) then
    if openfor e =? OPENFOR_READ then ret false
    else
      upd_file f (set_openfor OPENFOR_WRITE) ;;;
      (if nonzero (Z.land mode O_APPEND) then
         upd_fd fd (set_ptr (size e))
       else if nonzero (Z.land mode O_TRUNC) then
         upd_file f (set_datasize rd_blksize) ;;;
         b <~ malloc_block rd_blksize ;;
         upd_file f (set_data b) ;;;
         upd_file f (set_size 0) ;;;
         upd_fd fd (set_ptr 0)
       else upd_fd fd (set_ptr 0)) ;;;
      ret true
  else crash AssertFailed.

Definition open_register (f fd : Z) (want_dir : bool) : M Z :=
  (if want_dir then
     e' <~ get_file f ;;
     d <~ lift (dir_of_data (data e')) ;;
     first <~ get_dir d ;;
     upd_fd fd (set_ptr (wrap32 first))
   else ret tt) ;;;
  e' <~ get_file f ;;
  upd_file f (set_usage (usage e' + 1)) ;;;
  modify (fun s => with_queue (rd_fd_queue s ++ [fd]) s) ;;;
  ret fd.

Definition open_handle `{FcntlFlags} (f : Z) (mode : Z) : M Z :=
  let want_dir := nonzero (Z.land mode O_DIR) in
  if f =? NULL then ret NULL
  else
    e <~ get_file f ;;
    if isdir e && negb want_dir then set_errno EINVAL ;;; ret NULL
    else if openfor e =? OPENFOR_WRITE then ret NULL
    else
      fd <~ malloc_obj ;;
      if fd =? NULL then set_errno ENOMEM ;;; ret NULL
      else
        modify (fun s =>
          with_fds (<[fd := mk_rd_fd f want_dir 0
                                     (mk_dirent 0 EmptyString 0 0) mode]>
                      (fds s)) s) ;;;
        locked <~ open_lock f fd e mode ;;
        if negb locked then ret NULL
        else open_register f fd want_dir.

(** ** Mode predicates, as [ramdisk_open] tests them *)

Definition mode_dir `{FcntlFlags} (mode : Z) : bool :=
  nonzero (Z.land mode O_DIR).

Definition mode_rdonly `{FcntlFlags} (mode : Z) : bool :=
  Z.land mode O_MODE_MASK =? O_RDONLY.

Definition mode_write `{FcntlFlags} (mode : Z) : bool :=
  negb (mode_rdonly mode)
  && (nonzero (Z.land (Z.land mode O_MODE_MASK) O_RDWR)
      || nonzero (Z.land (Z.land mode O_MODE_MASK) O_WRONLY)).

Definition mode_append `{FcntlFlags} (mode : Z) : bool :=
  nonzero (Z.land mode O_APPEND).

Definition mode_trunc `{FcntlFlags} (mode : Z) : bool :=
  nonzero (Z.land mode O_TRUNC).

(** A plain read-only open of a file. *)
Definition opens_read `{FcntlFlags} (mode : Z) : Prop :=
  mode_rdonly mode = true /\ mode_dir mode = false.

(** An open of a file for writing. *)
Definition opens_write `{FcntlFlags} (mode : Z) : Prop :=
  mode_write mode = true /\ mode_dir mode = false.

(** An open of a file for writing that truncates it. *)
Definition opens_truncate `{FcntlFlags} (mode : Z) : Prop :=
  opens_write mode /\ mode_append mode = false /\ mode_trunc mode = true.

(** What the attach/detach bridge needs of the flag values: [O_RDONLY] is
    a read-only open and [O_WRONLY | O_TRUNC] a truncating open. *)
Definition flags_sane `{FcntlFlags} : Prop :=
  opens_read O_RDONLY /\ opens_truncate (Z.lor O_WRONLY O_TRUNC).

(** ** Well-formed states *)

(** The elements of a directory list, front to back: [chain m prev a l]
    when the list that starts at [a] (whose back link must be [prev])
    visits exactly [l] and ends with a null [le_next]. *)
Inductive chain (m : gmap Z rd_file) : link -> Z -> list Z -> Prop :=
  | chain_nil prev : chain m prev NULL []
  | chain_cons prev a e l :
      a <> NULL ->
      m !! a = Some e ->
      le_prev e = prev ->
      chain m (LinkNext a) (le_next e) l ->
      chain m prev a (a :: l).

(** The number of registered handles that refer to the file at [a]. *)
Definition live_count_of (fdm : gmap Z rd_fd) (q : list Z) (a : Z) : Z :=
  Z.of_nat (length (filter (fun h => file <$> fdm !! h = Some a) q)).

Definition live_count (s : state) (a : Z) : Z :=
  live_count_of (fds s) (rd_fd_queue s) a.

(** The lock state agrees with [n] holders. *)
Definition lock_ok (e : rd_file) (n : Z) : Prop :=
  usage e = n /\
  ((openfor e = OPENFOR_NOTHING /\ n = 0)
   \/ (openfor e = OPENFOR_READ /\ 0 < n)
   \/ (openfor e = OPENFOR_WRITE /\ n = 1)).

(** A file's block holds its contents. *)
Definition block_ok (e : rd_file) : Prop :=
  match data e with
  | DataBlock b =>
      0 <= size e <= datasize e /\ datasize e = Z.of_nat (length b)
  | DataNull => size e = 0
  | DataDir _ => False
  end.

(** The states the module can be in once initialised: one root directory
    whose list [l] holds files only (nothing creates a subdirectory),
    usage counts that count the registered handles, and an allocator that
    has handed out every address in use.  The invariant is stated on the
    components of the state that it reads. *)
Record inv_core (fm : gmap Z rd_file) (dm : gmap Z Z) (fdm : gmap Z rd_fd)
    (q : list Z) (rt rd bk : Z) (l : list Z) : Prop := {
  inv_brk : 0 < bk;
  inv_files_lt : forall a, is_Some (fm !! a) -> 0 < a < bk;
  inv_dirs_lt : forall a, is_Some (dm !! a) -> 0 < a < bk;
  inv_fds_lt : forall a, is_Some (fdm !! a) -> 0 < a < bk;
  inv_root : exists r, fm !! rt = Some r /\ isdir r = true
                       /\ data r = DataDir rd;
  inv_chain : exists first, dm !! rd = Some first
                /\ chain fm (LinkHead rd) first l;
  inv_nodup : NoDup (rt :: l);
  inv_nodes : forall a, is_Some (fm !! a) -> a ∈ rt :: l;
  inv_flat : forall a e, a ∈ l -> fm !! a = Some e ->
               isdir e = false /\ block_ok e;
  inv_locks : forall a e, fm !! a = Some e ->
                lock_ok e (live_count_of fdm q a);
  inv_queue_nodup : NoDup q;
  inv_queue : forall h, h ∈ q ->
                exists fd, fdm !! h = Some fd
                  /\ is_Some (fm !! file fd) /\ 0 <= ptr fd
}.

Definition inv_at (s : state) (l : list Z) : Prop :=
  inv_core (files s) (dirs s) (fds s) (rd_fd_queue s)
           (root s) (rootdir s) (brk s) l.

Definition inv (s : state) : Prop := exists l, inv_at s l.

(** Path [fn] (without its leading slash) names the file at [f]. *)
Definition resolves (s : state) (fn : string) (f : Z) : Prop :=
  f <> NULL /\
  ramdisk_find_path (files s) (dirs s) (rootdir s) fn false = Ok f.


(** What path resolution reads of an [rd_file_t]. *)
Definition shape (e : rd_file) : string * bool * Z * option rd_data :=
  (name e, isdir e, le_next e, if isdir e then Some (data e) else None).

Definition same_shape (m m' : gmap Z rd_file) : Prop :=
  base.size m = base.size m' /\
  forall a, shape <$> m !! a = shape <$> m' !! a.

(** A handle that [ramdisk_open] has returned and that has not been
    closed. *)
Definition live (s : state) (h : Z) : Prop := h ∈ rd_fd_queue s.

(** The [rd_file_t] that [ramdisk_close] leaves behind. *)
Definition closed_file (e : rd_file) : rd_file :=
  let e1 := set_usage (usage e - 1) e in
  if usage e - 1 =? 0 then set_openfor OPENFOR_NOTHING e1 else e1.

(** The bytes of a data block. *)
Definition block_bytes (d : rd_data) : list Byte.byte :=
  match d with
  | DataBlock b => b
  | _ => []
  end.

(** Where a seek request points before it is checked and clamped. *)
Definition seek_target (fd : rd_fd) (e : rd_file) (offset : Z)
    (whence : whence_t) : Z :=
  match whence with
  | SEEK_SET => offset
  | SEEK_CUR => ptr fd + offset
  | SEEK_END => size e + offset
  | SEEK_OTHER => -1
  end.

(** The zeroed [dirent] of a handle that [calloc] has just returned. *)
Definition dirent0 : dirent_t := mk_dirent 0 EmptyString 0 0.

(** The state after [ramdisk_open] has registered handle [d] (at the next
    free address) for the file at [f], leaving [e'] there. *)
Definition opened (s : state) (f : Z) (e' : rd_file) (d : rd_fd) : state :=
  with_queue (rd_fd_queue s ++ [brk s])
    (with_files (<[f := e']> (files s))
       (with_fds (<[brk s := d]> (fds s))
          (with_brk (brk s + 1) s))).

(** ** Example states *)

Definition run_state {A} (m : M A) (s : state) : state :=
  match m s with
  | Ok (_, s') => s'
  | Crash _ => s
  end.

(** The state that [fs_ramdisk_init] leaves on a fresh system: the root
    directory at address 2, its empty list head at address 1. *)
Definition st_init : state :=
  mk_state
    (<[2 := mk_rd_file (String slash EmptyString) 0 true OPENFOR_NOTHING 0
                       (DataDir 1) 0 NULL LinkNone]> ∅)
    (<[1 := NULL]> ∅) ∅ [] 2 1 None 3 [].

(** The object at an address of an example state. *)
Definition the_file (s : state) (a : Z) : rd_file :=
  default (mk_rd_file EmptyString 0 false 0 0 DataNull 0 NULL LinkNone)
          (files s !! a).

Definition the_fd (s : state) (h : Z) : rd_fd :=
  default (mk_rd_fd NULL false 0 dirent0 0) (fds s !! h).

(** Example runs, with the flag values of the KallistiOS toolchain.  On
    [st_init] the first file created lives at address 3 and the first
    handle at address 4. *)
Definition ex_bytes : list Byte.byte := [Byte.x48; Byte.x69; Byte.x21].

(** ["/a"] has just been opened with [O_WRONLY | O_TRUNC] (handle 4). *)
Definition st_writing : state :=
  run_state (ramdisk_open (H := kos_fcntl) "/a" (Z.lor O_WRONLY O_TRUNC))
            st_init.

(** [ex_bytes] have been written through handle 4. *)
Definition st_written : state :=
  run_state (ramdisk_write 4 ex_bytes) st_writing.

(** Handle 4 has been closed: ["/a"] holds [ex_bytes], nobody has it
    open. *)
Definition st_file : state :=
  run_state (ramdisk_close 4) st_written.

(** ["/a"] is open read-only (handle 5). *)
Definition st_reading : state :=
  run_state (ramdisk_open (H := kos_fcntl) "/a" O_RDONLY) st_file.

(** ["/a"] is open write-only, without truncation (handle 5). *)
Definition st_wronly : state :=
  run_state (ramdisk_open (H := kos_fcntl) "/a" O_WRONLY) st_file.

(** The root directory is open for listing: of the empty file system
    (handle 3), and of the one that holds ["/a"] (handle 5). *)
Definition st_listing_empty : state :=
  run_state (ramdisk_open (H := kos_fcntl) "/" (Z.lor O_RDONLY O_DIR))
            st_init.

Definition st_listing : state :=
  run_state (ramdisk_open (H := kos_fcntl) "/" (Z.lor O_RDONLY O_DIR))
            st_file.

(** The claim that a detach of a file which other handles still hold
    reports failure. *)
Definition detach_fails_when_held `{FcntlFlags} : Prop :=
  forall s fn f e,
    inv s -> resolves s (strip_slash fn) f -> files s !! f = Some e ->
    0 < usage e ->
    exists out s', fs_ramdisk_detach fn s = Ok ((-1, out), s').

(** ** The remaining entry points *)

(** [ramdisk_mmap]: the data pointer; [DataNull] is the null result. *)
Definition ramdisk_mmap (h : Z) : M rd_data :=
  bad <~ ramdisk_fd_invalid h ;;
  if bad then ret DataNull
  else
    fd <~ get_fd h ;;
    if dir fd then ret DataNull
    else
      e <~ get_file (file fd) ;;
      ret (data e).

(** [cmd] argument of [ramdisk_fcntl]; [F_OTHER] stands for every value
    that is none of the four constants ([default:] of the switch). *)
Inductive fcntl_cmd := F_GETFL | F_SETFL | F_GETFD | F_SETFD | F_OTHER.

(** [ramdisk_fcntl] *)
Definition ramdisk_fcntl (h : Z) (cmd : fcntl_cmd) : M Z :=
  bad <~ ramdisk_fd_invalid h ;;
  if bad then set_errno EBADF ;;; ret (-1)
  else
    match cmd with
    | F_GETFL => fd <~ get_fd h ;; ret (omode fd)
    | F_SETFL | F_GETFD | F_SETFD => ret 0
    | F_OTHER => set_errno EINVAL ;;; ret (-1)
    end.

(** [free(f->data)]: a data block is owned by its file and goes with it;
    an [rd_dir_t] leaves the store of list heads. *)
Definition free_data (d : rd_data) : M unit :=
  match d with
  | DataDir a => modify (fun s => with_dirs (delete a (dirs s)) s)
  | _ => ret tt
  end.

(** The body of [LIST_FOREACH_SAFE] in [fs_ramdisk_shutdown], from element
    [f1] on.  [fuel] bounds the walk as in [list_find]. *)
Fixpoint shutdown_walk (fuel : nat) (f1 : Z) : M unit :=
  if f1 =? NULL then ret tt
  else
    match fuel with
    | O => crash Diverges
    | S k =>
        e <~ get_file f1 ;;
        let f2 := le_next e in
        LIST_REMOVE f1 ;;;
        e' <~ get_file f1 ;;
        free_data (data e') ;;;
        modify (fun s => with_files (delete f1 (files s)) s) ;;;
        shutdown_walk k f2
    end.

(** [fs_ramdisk_shutdown] (the mutex and the name manager are outside the
    module).  Neither [root] nor [rootdir] is reset. *)
Definition fs_ramdisk_shutdown : M unit :=
  rd <~ gets rootdir ;;
  if rd =? NULL then ret tt
  else
    first <~ get_dir rd ;;
    n <~ gets (fun s => base.size (files s)) ;;
    shutdown_walk n first ;;;
    get_dir rd ;;;
    modify (fun s => with_dirs (delete rd (dirs s)) s) ;;;
    rt <~ gets root ;;
    get_file rt ;;;
    modify (fun s => with_files (delete rt (files s)) s).

(** ** Handles, as the entry points test them *)

(** What [ramdisk_fd_invalid] accepts as invalid: the null handle, or a
    handle whose [file] is null. *)
Definition invalid_handle (s : state) (h : Z) : Prop :=
  h = NULL \/ exists fd, fds s !! h = Some fd /\ file fd = NULL.

(** A handle that passes [ramdisk_fd_invalid], with its [rd_fd_t]. *)
Definition valid_handle (s : state) (h : Z) (fd : rd_fd) : Prop :=
  h <> NULL /\ fds s !! h = Some fd /\ file fd <> NULL.

(** ** Files and paths *)

(** A file that [ramdisk_create_file] has just made. *)
Definition new_file (fn : string) (first rd : Z) : rd_file :=
  mk_rd_file fn 0 false OPENFOR_NOTHING 0 (fresh_block rd_blksize)
             rd_blksize first (LinkHead rd).

#[export] Instance link_eq_dec : EqDecision link.
Proof. solve_decision. Defined.

(** ** Listing a directory *)

(** The entry that [ramdisk_readdir] makes of an [rd_file_t]. *)
Definition entry_of `{FcntlFlags} (e : rd_file) : dirent_t :=
  if isdir e then mk_dirent (-1) (name e) 0 O_DIR
  else mk_dirent (signed32 (size e)) (name e) 0 0.

(** A caller's loop: up to [n] calls of [ramdisk_readdir], stopping at the
    first null result; the entries returned, in order. *)
Fixpoint readdir_n `{FcntlFlags} `{DirentLayout} (n : nat) (h : Z)
  : M (list dirent_t) :=
  match n with
  | O => ret []
  | S k =>
      r <~ ramdisk_readdir h ;;
      match r with
      | None => ret []
      | Some ent => rest <~ readdir_n k h ;; ret (ent :: rest)
      end
  end.

(** ** More example states *)

(** A second file, ["/b"], has been created (at address 5) and closed. *)
Definition st_two : state :=
  run_state (ramdisk_close 6)
    (run_state (ramdisk_open (H := kos_fcntl) "/b" O_WRONLY) st_file).

(** The root directory of [st_two] is open for listing (handle 7). *)
Definition st_listing_two : state :=
  run_state (ramdisk_open (H := kos_fcntl) "/" (Z.lor O_RDONLY O_DIR)) st_two.

(** ** Allocation outcomes *)

(** The next [n] allocation requests succeed. *)
Definition allocs_succeed (n : nat) (o : list bool) : Prop :=
  Forall (fun b => b = true) (take n o).

(** ** Names *)

(** Two strings of the same length whose characters agree up to the case
    of ASCII letters. *)
Fixpoint same_fold (a b : string) : bool :=
  match a, b with
  | EmptyString, EmptyString => true
  | String x a', String y b' => (tolower x =? tolower y) && same_fold a' b'
  | _, _ => false
  end.

(** ** Stat *)

(** What [ramdisk_stat] reports for the root directory. *)
Definition root_stat `{StatBits} : stat_t :=
  mk_stat rd_dev (Z.lor (Z.lor (Z.lor S_IFDIR S_IRWXU) S_IRWXG) S_IRWXO)
          (-1) 2 0 0.

(** Read and write permission for owner, group and others. *)
Definition mode_rw `{StatBits} : Z :=
  Z.lor (Z.lor (Z.lor (Z.lor (Z.lor S_IRUSR S_IWUSR) S_IRGRP) S_IWGRP)
               S_IROTH) S_IWOTH.

(** ** Paths *)

(** A path without its leading slashes. *)
Fixpoint skip_slashes (fn : string) : string :=
  match fn with
  | String c fn' => if Ascii.eqb c slash then skip_slashes fn' else fn
  | EmptyString => fn
  end.

(** The first file of the list [l] whose name is [nm] up to the case of
    letters; null when there is none. *)
Definition first_named (s : state) (l : list Z) (nm : string) : Z :=
  default NULL (find (fun a => same_fold nm (name (the_file s a))) l).


(** Memory runs out while ["/a"] is opened with [O_WRONLY | O_TRUNC]: the
    handle is allocated (handle 5), the new block of the file is not. *)
Definition st_trunc_nomem : state :=
  run_state (ramdisk_open (H := kos_fcntl) "/a" (Z.lor O_WRONLY O_TRUNC))
            (with_oracle [true; false] st_file).

(** The reader of ["/a"] (handle 5) has moved to the end of the file, and
    ["/a"] has then been detached while the reader holds it. *)
Definition st_held_detached : state :=
  run_state (fs_ramdisk_detach (H := kos_fcntl) "/a")
            (run_state (ramdisk_seek 5 0 SEEK_END) st_reading).
(** * Proofs *)

(** ** Running the monad *)

Ltac run :=
  unfold bind, bindo, ret, gets, modify, set_errno, lift, assert, crash,
         get_file, get_fd, get_dir, upd_file, upd_fd,
         deref_file, deref_fd, deref_dir,
         alloc_ok, malloc_obj, malloc_block, ramdisk_fd_invalid;
  cbn [files dirs fds rd_fd_queue root rootdir errno brk oracle
       with_files with_dirs with_fds with_queue with_root with_rootdir
       with_errno with_brk with_oracle after_alloc negb andb orb fst snd].

Ltac rw_hyp :=
  match goal with
  | |- context [after_alloc (with_files ?m ?s)] =>
      change (after_alloc (with_files m s)) with (with_files m (after_alloc s))
  | |- context [after_alloc (with_fds ?m ?s)] =>
      change (after_alloc (with_fds m s)) with (with_fds m (after_alloc s))
  | |- context [after_alloc (with_dirs ?m ?s)] =>
      change (after_alloc (with_dirs m s)) with (with_dirs m (after_alloc s))
  | |- context [after_alloc (with_brk ?m ?s)] =>
      change (after_alloc (with_brk m s)) with (with_brk m (after_alloc s))
  | |- context [after_alloc (with_queue ?m ?s)] =>
      change (after_alloc (with_queue m s)) with (with_queue m (after_alloc s))
  | |- context [after_alloc (with_errno ?m ?s)] =>
      change (after_alloc (with_errno m s)) with (with_errno m (after_alloc s))
  | |- context [next_alloc (with_files ?m ?s)] =>
      change (next_alloc (with_files m s)) with (next_alloc s)
  | |- context [next_alloc (with_fds ?m ?s)] =>
      change (next_alloc (with_fds m s)) with (next_alloc s)
  | |- context [next_alloc (with_dirs ?m ?s)] =>
      change (next_alloc (with_dirs m s)) with (next_alloc s)
  | |- context [next_alloc (with_brk ?m ?s)] =>
      change (next_alloc (with_brk m s)) with (next_alloc s)
  | |- context [next_alloc (with_queue ?m ?s)] =>
      change (next_alloc (with_queue m s)) with (next_alloc s)
  | |- context [next_alloc (with_errno ?m ?s)] =>
      change (next_alloc (with_errno m s)) with (next_alloc s)
  | H : ?m !! ?k = _ |- context [?m !! ?k] => rewrite H
  | H : (?a =? ?b) = _ |- context [?a =? ?b] => rewrite H
  | H : (?a >? ?b) = _ |- context [?a >? ?b] => rewrite H
  | H : (?a <? ?b) = _ |- context [?a <? ?b] => rewrite H
  | H : (?a <=? ?b) = _ |- context [?a <=? ?b] => rewrite H
  | H : dir ?x = _ |- context [dir ?x] => rewrite H
  | H : isdir ?x = _ |- context [isdir ?x] => rewrite H
  | H : oracle ?s = _ |- context [oracle ?s] => rewrite H
  | H : next_alloc ?s = _ |- context [next_alloc ?s] => rewrite H
  | H : nonzero ?x = _ |- context [nonzero ?x] => rewrite H
  | |- context [<[?a := _]> _ !! ?a] => rewrite lookup_insert_eq
  | |- context [<[?a := _]> _ !! ?b] =>
      rewrite (lookup_insert_ne _ a b) by (assumption || congruence || lia)
  end.

Ltac go := run; repeat (rw_hyp; run).

Lemma eqb_null h : h <> NULL -> (h =? NULL) = false.
Proof. intros Hh. apply Z.eqb_neq. exact Hh. Qed.

Lemma ramdisk_open_phases `{FcntlFlags} fn mode s :
  ramdisk_open fn mode s =
  (if mode_dir mode && negb (mode_rdonly mode)
   then set_errno EISDIR ;;; ret NULL
   else f <~ open_lookup (strip_slash fn) mode ;; open_handle f mode) s.
Proof.
  unfold ramdisk_open, open_lookup, open_handle, open_lock, open_register,
    mode_dir, mode_rdonly, strip_slash.
  destruct (nonzero (Z.land mode O_DIR)
            && negb (Z.land mode O_MODE_MASK =? O_RDONLY)); [reflexivity|].
  unfold bind, gets, assert, ret, crash.
  destruct (negb (root s =? NULL)); reflexivity.
Qed.

(** ** 32-bit arithmetic *)

Lemma wrap32_small z : 0 <= z < 2 ^ 32 -> wrap32 z = z.
Proof. intros Hz. unfold wrap32. apply Z.mod_small. exact Hz. Qed.

Lemma wrap32_range z : 0 <= wrap32 z < 2 ^ 32.
Proof. unfold wrap32. apply Z.mod_pos_bound. lia. Qed.

Lemma signed32_small z : 0 <= z < 2 ^ 31 -> signed32 z = z.
Proof.
  intros Hz. unfold signed32. rewrite wrap32_small by lia.
  destruct (z <? 2 ^ 31) eqn:E; [reflexivity|].
  apply Z.ltb_ge in E. lia.
Qed.

(** ** Strings *)

Lemma strncasecmp_refl a n : strncasecmp a a n = 0.
Proof.
  revert a. induction n as [|n IH]; intros a; [reflexivity|].
  destruct a as [|c a]; [reflexivity|]. cbn.
  rewrite Z.eqb_refl. apply IH.
Qed.

Lemma strrchr_none_strchr fn c : strrchr fn c = None -> strchr fn c = None.
Proof.
  induction fn as [|x fn IH]; [reflexivity|]. cbn.
  destruct (strrchr fn c); [discriminate|].
  destruct (Ascii.eqb x c); [discriminate|].
  intros _. rewrite IH; reflexivity.
Qed.

Lemma strchr_lt fn c i : strchr fn c = Some i -> (i < String.length fn)%nat.
Proof.
  revert i. induction fn as [|x fn IH]; intros i; [discriminate|]. cbn.
  destruct (Ascii.eqb x c).
  - intros [= <-]. lia.
  - destruct (strchr fn c) as [j|]; [|discriminate].
    intros [= <-]. specialize (IH j eq_refl). lia.
Qed.

Lemma str_advance_length n fn :
  String.length (str_advance n fn) = (String.length fn - n)%nat.
Proof.
  revert fn. induction n as [|n IH]; intros fn; cbn.
  - destruct fn; cbn; lia.
  - destruct fn as [|c fn]; cbn; [reflexivity|]. apply IH.
Qed.

(** ** Data blocks *)

Lemma realloc_block_length b n :
  exists b', realloc_block (DataBlock b) n = DataBlock b'
             /\ length b' = Z.to_nat n
             /\ forall k, (k <= length b)%nat -> (k <= Z.to_nat n)%nat ->
                  take k b' = take k b.
Proof.
  eexists. split; [reflexivity|]. split.
  - rewrite length_take, length_app, repeat_length. lia.
  - intros k Hk Hn. rewrite take_take. rewrite Nat.min_l by lia.
    rewrite take_app_le by lia. reflexivity.
Qed.

Lemma mem_write_read b off src :
  0 <= off ->
  off + Z.of_nat (length src) <= Z.of_nat (length b) ->
  exists b', mem_write (DataBlock b) off src = Ok (DataBlock b')
    /\ length b' = length b
    /\ take (length src) (drop (Z.to_nat off) b') = src
    /\ take (Z.to_nat off) b' = take (Z.to_nat off) b.
Proof.
  intros Hoff Hlen.
  assert (Hb : length (take (Z.to_nat off) b) = Z.to_nat off)
    by (rewrite length_take; lia).
  destruct src as [|x src].
  - exists b. cbn. repeat split; reflexivity.
  - eexists. split.
    + unfold mem_write.
      destruct (off + Z.of_nat (length (x :: src)) <=? Z.of_nat (length b))
        eqn:E; [reflexivity|].
      apply Z.leb_gt in E. lia.
    + split; [|split].
      * rewrite !length_app, length_take, length_drop. cbn [length] in *. lia.
      * rewrite drop_app_length' by (symmetry; exact Hb).
        rewrite take_app_length. reflexivity.
      * rewrite take_app_length' by (symmetry; exact Hb). reflexivity.
Qed.

(** ** Directory lists *)

Lemma chain_elem m prev a l x :
  chain m prev a l -> x ∈ l -> x <> NULL /\ is_Some (m !! x).
Proof.
  induction 1 as [|prev a e l Ha He Hp Hc IH]; intros Hx.
  - inversion Hx.
  - apply elem_of_cons in Hx as [->|Hx]; [split; eauto|]. apply IH, Hx.
Qed.

Lemma chain_inj m prev a l l' prev' :
  chain m prev a l -> chain m prev' a l' -> l = l'.
Proof.
  intros Hc. revert l' prev'.
  induction Hc as [|prev a e l Ha He Hp Hc IH]; intros l' prev' Hc'.
  - inversion Hc'; subst; [reflexivity|congruence].
  - inversion Hc'; subst; [congruence|].
    f_equal. replace e0 with e in * by congruence. eapply IH; eauto.
Qed.

Lemma NoDup_size_le (m : gmap Z rd_file) (l : list Z) :
  NoDup l -> (forall x, x ∈ l -> is_Some (m !! x)) ->
  (length l <= base.size m)%nat.
Proof.
  intros Hnd Hin.
  rewrite <- (size_dom (D := gset Z) m).
  rewrite <- (size_list_to_set (C := gset Z) l Hnd).
  apply subseteq_size. intros x Hx.
  apply elem_of_list_to_set in Hx. apply elem_of_dom. auto.
Qed.

(** The walk of a well-formed list ends, at null or at one of the
    elements. *)
Lemma list_find_chain m prev a l nm n fuel :
  chain m prev a l -> (length l <= fuel)%nat ->
  exists r, list_find fuel m a nm n = Ok r /\ (r = NULL \/ r ∈ l).
Proof.
  intros Hc. revert fuel.
  induction Hc as [|prev a e l Ha He Hp Hc IH]; intros fuel Hfuel.
  - exists NULL. split; [|auto]. destruct fuel; reflexivity.
  - cbn [length] in Hfuel. destruct fuel as [|fuel]; [lia|].
    cbn [list_find]. rewrite (eqb_null _ Ha).
    unfold bindo, deref_file. rewrite He.
    destruct ((strlen (name e) =? Z.of_nat n)
              && (strncasecmp nm (name e) n =? 0)).
    + exists a. split; [reflexivity|]. right. apply elem_of_cons. auto.
    + destruct (IH fuel ltac:(lia)) as (r & Hr & Hin).
      exists r. split; [exact Hr|].
      destruct Hin as [->|Hin]; [auto|]. right. apply elem_of_cons. auto.
Qed.

Lemma list_find_head m a e nm fuel :
  a <> NULL -> m !! a = Some e -> name e = nm ->
  list_find (S fuel) m a nm (String.length nm) = Ok a.
Proof.
  intros Ha He Hn. cbn [list_find]. rewrite (eqb_null _ Ha).
  unfold bindo, deref_file. rewrite He, Hn.
  unfold strlen. rewrite Z.eqb_refl, strncasecmp_refl. reflexivity.
Qed.

(** ** Path resolution reads the shape of the tree only *)

Lemma same_shape_lookup m m' a e :
  same_shape m m' -> m !! a = Some e ->
  exists e', m' !! a = Some e' /\ shape e' = shape e.
Proof.
  intros [_ Hs] He. specialize (Hs a). rewrite He in Hs.
  destruct (m' !! a) as [e'|]; [|discriminate].
  exists e'. split; [reflexivity|]. cbn in Hs. congruence.
Qed.

Lemma same_shape_none m m' a :
  same_shape m m' -> m !! a = None -> m' !! a = None.
Proof.
  intros [_ Hs] He. specialize (Hs a). rewrite He in Hs.
  destruct (m' !! a); [discriminate|reflexivity].
Qed.

Lemma list_find_shape m m' fuel a nm n :
  same_shape m m' -> list_find fuel m a nm n = list_find fuel m' a nm n.
Proof.
  intros Hs. revert a. induction fuel as [|fuel IH]; intros a; cbn.
  - reflexivity.
  - destruct (a =? NULL); [reflexivity|]. unfold bindo, deref_file.
    destruct (m !! a) as [e|] eqn:He.
    + destruct (same_shape_lookup _ _ _ _ Hs He) as (e' & -> & Hsh).
      unfold shape in Hsh. injection Hsh as Hn Hd Hnx _.
      rewrite Hn, Hnx. destruct (_ && _); [reflexivity|apply IH].
    + rewrite (same_shape_none _ _ _ Hs He). reflexivity.
Qed.

Lemma ramdisk_find_shape m m' dm parent nm n :
  same_shape m m' ->
  ramdisk_find m dm parent nm n = ramdisk_find m' dm parent nm n.
Proof.
  intros Hs. unfold ramdisk_find, bindo.
  destruct (deref_dir dm parent); [|reflexivity].
  rewrite (proj1 Hs). apply list_find_shape, Hs.
Qed.

Lemma bindo_ext {A B} (o o' : outcome A) (k k' : A -> outcome B) :
  o = o' -> (forall a, k a = k' a) -> bindo o k = bindo o' k'.
Proof. intros <- Hk. destruct o; cbn; auto. Qed.

Lemma deref_shape {B} m m' a (k k' : rd_file -> outcome B) :
  same_shape m m' ->
  (forall e e', shape e' = shape e -> k e = k' e') ->
  bindo (deref_file m a) k = bindo (deref_file m' a) k'.
Proof.
  intros Hs Hk. unfold bindo, deref_file.
  destruct (m !! a) as [e|] eqn:He.
  - destruct (same_shape_lookup _ _ _ _ Hs He) as (e' & -> & Hsh). auto.
  - rewrite (same_shape_none _ _ _ Hs He). reflexivity.
Qed.

Lemma find_path_walk_shape m m' dm fuel parent fn dir f :
  same_shape m m' ->
  find_path_walk fuel m dm parent fn dir f
  = find_path_walk fuel m' dm parent fn dir f.
Proof.
  intros Hs.
  assert (Hlast : forall parent fn : _,
    (f' <~~ ramdisk_find m dm parent fn (String.length fn) ;;
     if f' =? NULL then Ok NULL
     else e <~~ deref_file m f' ;;
          if (negb dir && isdir e) || (dir && negb (isdir e))
          then Ok NULL else Ok f')
    = (f' <~~ ramdisk_find m' dm parent fn (String.length fn) ;;
       if f' =? NULL then Ok NULL
       else e <~~ deref_file m' f' ;;
            if (negb dir && isdir e) || (dir && negb (isdir e))
            then Ok NULL else Ok f')).
  { clear parent fn f. intros parent fn.
    apply bindo_ext; [apply ramdisk_find_shape, Hs|].
    intros r. destruct (r =? NULL); [reflexivity|].
    apply deref_shape; [exact Hs|]. intros e e' Hsh.
    unfold shape in Hsh. injection Hsh as _ Hd _ _. rewrite Hd. reflexivity. }
  revert parent fn f.
  induction fuel as [|fuel IH]; intros parent fn f; cbn [find_path_walk].
  - destruct (strchr fn slash); [reflexivity|].
    destruct fn; [reflexivity|]. apply Hlast.
  - destruct (strchr fn slash) as [cur|].
    + apply bindo_ext.
      * destruct cur as [|cur]; [reflexivity|].
        apply bindo_ext; [apply ramdisk_find_shape, Hs|].
        intros r. destruct (r =? NULL); [reflexivity|].
        apply deref_shape; [exact Hs|]. intros e e' Hsh.
        unfold shape in Hsh. injection Hsh as _ Hd _ Hdt.
        rewrite Hd in Hdt |- *.
        destruct (isdir e); [|reflexivity]. cbn.
        injection Hdt as ->. reflexivity.
      * intros [[p f']|]; [apply IH|reflexivity].
    + destruct fn; [reflexivity|]. apply Hlast.
Qed.

Lemma ramdisk_find_path_shape m m' dm parent fn dir :
  same_shape m m' ->
  ramdisk_find_path m dm parent fn dir
  = ramdisk_find_path m' dm parent fn dir.
Proof. intros Hs. apply find_path_walk_shape, Hs. Qed.

(** Updating fields that are not part of the shape. *)
Lemma same_shape_insert (m : gmap Z rd_file) a e e' :
  m !! a = Some e -> shape e' = shape e -> same_shape m (<[a := e']> m).
Proof.
  intros He Hsh. split.
  - symmetry. apply map_size_insert_Some. rewrite He. eauto.
  - intros b. destruct (decide (a = b)) as [<-|Hne].
    + rewrite lookup_insert_eq, He. cbn. congruence.
    + rewrite lookup_insert_ne by exact Hne. reflexivity.
Qed.

Lemma same_shape_refl m : same_shape m m.
Proof. split; reflexivity. Qed.

Lemma same_shape_trans m1 m2 m3 :
  same_shape m1 m2 -> same_shape m2 m3 -> same_shape m1 m3.
Proof.
  intros [H1 H2] [H3 H4]. split; [congruence|].
  intros a. rewrite H2. apply H4.
Qed.

(** ** Path resolution in a flat tree *)

Section Flat.
Variables (fm : gmap Z rd_file) (dm : gmap Z Z).
Variables (parent first : Z) (prev : link) (l : list Z).
Hypothesis Hhead : dm !! parent = Some first.
Hypothesis Hchain : chain fm prev first l.
Hypothesis Hsize : (length l <= base.size fm)%nat.
Hypothesis Hflat :
  forall a e, a ∈ l -> fm !! a = Some e -> isdir e = false.

Lemma ramdisk_find_flat nm n :
  exists r, ramdisk_find fm dm parent nm n = Ok r /\ (r = NULL \/ r ∈ l).
Proof.
  unfold ramdisk_find, bindo, deref_dir. rewrite Hhead.
  eapply list_find_chain; eauto.
Qed.

Lemma flat_elem r :
  r ∈ l -> (r =? NULL) = false
           /\ exists e, fm !! r = Some e /\ isdir e = false.
Proof.
  intros Hr. destruct (chain_elem _ _ _ _ _ Hchain Hr) as [Hn [e He]].
  split; [apply eqb_null, Hn|]. exists e. split; [exact He|]. eauto.
Qed.

Lemma find_path_walk_flat fuel fn dir f0 :
  (String.length fn <= fuel)%nat ->
  exists r, find_path_walk fuel fm dm parent fn dir f0 = Ok r
    /\ (if dir then r = NULL \/ r = f0 else r = NULL \/ r ∈ l).
Proof.
  assert (Hlast : forall fn : string,
    exists r,
      (f' <~~ ramdisk_find fm dm parent fn (String.length fn) ;;
       if f' =? NULL then Ok NULL
       else e <~~ deref_file fm f' ;;
            if (negb dir && isdir e) || (dir && negb (isdir e))
            then Ok NULL else Ok f') = Ok r
      /\ (if dir then r = NULL \/ r = f0 else r = NULL \/ r ∈ l)).
  { clear fn. intros fn.
    destruct (ramdisk_find_flat fn (String.length fn)) as (r & -> & Hr).
    cbn [bindo]. destruct Hr as [->|Hr].
    - exists NULL. cbn. destruct dir; auto.
    - destruct (flat_elem r Hr) as (-> & e & He & Hd).
      unfold bindo, deref_file. rewrite He, Hd.
      destruct dir; cbn; eauto. }
  revert fn. induction fuel as [|fuel IH]; intros fn Hlen;
    cbn [find_path_walk].
  - destruct (strchr fn slash) as [cur|] eqn:Hcur.
    + apply strchr_lt in Hcur. lia.
    + destruct fn; [|apply Hlast].
      exists (if negb dir then NULL else f0). destruct dir; cbn; auto.
  - destruct (strchr fn slash) as [cur|] eqn:Hcur.
    + assert (Hadv : (String.length (str_advance (S cur) fn) <= fuel)%nat).
      { rewrite str_advance_length. apply strchr_lt in Hcur. lia. }
      destruct cur as [|cur].
      * cbn [bindo]. apply IH, Hadv.
      * destruct (ramdisk_find_flat fn (S cur)) as (r & -> & Hr).
        cbn [bindo]. destruct Hr as [->|Hr].
        -- exists NULL. cbn. destruct dir; auto.
        -- destruct (flat_elem r Hr) as (-> & e & He & Hd).
           unfold bindo, deref_file. rewrite He, Hd. cbn.
           exists NULL. destruct dir; auto.
    + destruct fn; [|apply Hlast].
      exists (if negb dir then NULL else f0). destruct dir; cbn; auto.
Qed.

Lemma ramdisk_find_path_flat fn dir :
  exists r, ramdisk_find_path fm dm parent fn dir = Ok r
    /\ (if dir then r = NULL else r = NULL \/ r ∈ l).
Proof.
  destruct (find_path_walk_flat (String.length fn) fn dir NULL
              ltac:(lia)) as (r & Hr & Hcase).
  exists r. split; [exact Hr|]. destruct dir; tauto.
Qed.
End Flat.

(** ** Write *)

Section Write.
Variables (s : state) (h : Z) (buf : list Byte.byte).
Variables (fd : rd_fd) (e : rd_file) (b : list Byte.byte).
Let len := Z.of_nat (length buf).
Hypothesis Hh : h <> NULL.
Hypothesis Hfd : fds s !! h = Some fd.
Hypothesis Hfile : file fd <> NULL.
Hypothesis Hdir : dir fd = false.
Hypothesis He : files s !! file fd = Some e.
Hypothesis Hlock : openfor e = OPENFOR_WRITE.
Hypothesis Hdata : data e = DataBlock b.
Hypothesis Hcap : datasize e = Z.of_nat (length b).
Hypothesis Hptr : 0 <= ptr fd.
Hypothesis Hfit : ptr fd + len + rd_blksize * 4 < 2 ^ 32.

Lemma write_no_space :
  datasize e < ptr fd + len -> next_alloc s = false ->
  ramdisk_write h buf s
  = Ok (-1, with_errno (Some ENOSPC) (after_alloc s)).
Proof using Hh Hfd Hfile Hdir He Hlock Hptr Hfit.
  clear Hdata Hcap.
  intros Hgrow Hoom. unfold rd_blksize in Hfit.
  assert (Hw : wrap32 (ptr fd + Z.of_nat (length buf)) = ptr fd + len)
    by (apply wrap32_small; subst len; lia).
  apply eqb_null in Hh, Hfile.
  assert (Hl : (openfor e =? OPENFOR_WRITE) = true)
    by (apply Z.eqb_eq; exact Hlock).
  assert (Hg : (ptr fd + len >? datasize e) = true)
    by (apply Z.gtb_lt; lia).
  unfold ramdisk_write. go. rewrite Hw. go. reflexivity.
Qed.

Lemma write_ok :
  (datasize e < ptr fd + len -> next_alloc s = true) ->
  exists s' e' b',
    ramdisk_write h buf s = Ok (signed32 len, s')
    /\ files s' = <[file fd := e']> (files s)
    /\ fds s' = <[h := set_ptr (ptr fd + len) fd]> (fds s)
    /\ rd_fd_queue s' = rd_fd_queue s
    /\ dirs s' = dirs s /\ root s' = root s /\ rootdir s' = rootdir s
    /\ errno s' = errno s /\ brk s' = brk s
    /\ oracle s' = (if datasize e <? ptr fd + len
                    then oracle (after_alloc s) else oracle s)
    /\ (isdir e = false -> shape e' = shape e)
    /\ isdir e' = isdir e /\ le_prev e' = le_prev e
    /\ openfor e' = openfor e /\ usage e' = usage e
    /\ data e' = DataBlock b'
    /\ datasize e' = Z.of_nat (length b')
    /\ datasize e' = (if datasize e <? ptr fd + len
                      then ptr fd + len + rd_blksize * 4
                      else datasize e)
    /\ take (length buf) (drop (Z.to_nat (ptr fd)) b') = buf
    /\ (ptr fd <= datasize e ->
        take (Z.to_nat (ptr fd)) b' = take (Z.to_nat (ptr fd)) b)
    /\ size e' = Z.max (size e) (ptr fd + len).
Proof.
  intros Halloc. unfold rd_blksize in *.
  assert (Hw : wrap32 (ptr fd + Z.of_nat (length buf)) = ptr fd + len)
    by (apply wrap32_small; subst len; lia).
  assert (Hw2 : wrap32 (ptr fd + len + 1024 * 4) = ptr fd + len + 1024 * 4)
    by (apply wrap32_small; subst len; lia).
  apply eqb_null in Hh, Hfile.
  assert (Hl : (openfor e =? OPENFOR_WRITE) = true)
    by (apply Z.eqb_eq; exact Hlock).
  unfold ramdisk_write, rd_blksize. go. rewrite Hw.
  destruct (datasize e <? ptr fd + len) eqn:Hgrow.
  - (* the block grows *)
    apply Z.ltb_lt in Hgrow. specialize (Halloc Hgrow).
    assert (Hg : (ptr fd + len >? datasize e) = true)
      by (apply Z.gtb_lt; lia).
    go. rewrite Hw2.
    destruct (realloc_block_length b (ptr fd + len + 1024 * 4))
      as (b1 & Hb1 & Hlen1 & Hpre1).
    destruct (mem_write_read b1 (ptr fd) buf Hptr ltac:(subst len; lia))
      as (b2 & Hb2 & Hlen2 & Hrd & Hpre2).
    assert (Hsz : (size e <? ptr fd + len) = true
                  \/ (size e <? ptr fd + len) = false)
      by (destruct (size e <? ptr fd + len); auto).
    go; cbn [data set_data set_datasize]; rewrite Hdata, Hb1, Hb2;
      cbn [lift]; go; cbn [size set_size set_data set_datasize];
      (destruct Hsz as [Hsz|Hsz]; rewrite Hsz; go;
       [apply Z.ltb_lt in Hsz | apply Z.ltb_ge in Hsz];
       eexists _, _, b2; (split; [reflexivity|]);
       cbn [files fds rd_fd_queue dirs root rootdir errno brk oracle
            with_files with_fds with_queue with_errno with_brk
            with_oracle tail];
       rewrite ?insert_insert_eq;
       repeat split;
       first [ reflexivity | lia | exact Hrd
             | cbn; rewrite Hlen2, Hlen1; lia
             | cbn; lia
             | intros Hle; rewrite Hpre2; apply Hpre1; lia
             | intros Hd; unfold shape; cbn; rewrite Hd; reflexivity ]).
  - (* the block is large enough *)
    apply Z.ltb_ge in Hgrow.
    assert (Hg : (ptr fd + len >? datasize e) = false).
    { destruct (ptr fd + len >? datasize e) eqn:E; [|reflexivity].
      apply Z.gtb_lt in E. lia. }
    go. rewrite Hdata.
    destruct (mem_write_read b (ptr fd) buf Hptr ltac:(subst len; lia))
      as (b2 & Hb2 & Hlen2 & Hrd & Hpre2).
    rewrite Hb2. cbn [lift]. go. cbn [size set_size set_data].
    assert (Hsz : (size e <? ptr fd + len) = true
                  \/ (size e <? ptr fd + len) = false)
      by (destruct (size e <? ptr fd + len); auto).
    destruct Hsz as [Hsz|Hsz]; rewrite Hsz; go;
      [apply Z.ltb_lt in Hsz | apply Z.ltb_ge in Hsz];
      eexists _, _, b2; (split; [reflexivity|]);
      cbn [files fds rd_fd_queue dirs root rootdir errno brk oracle
           with_files with_fds with_queue with_errno with_brk
           with_oracle];
      rewrite ?insert_insert_eq;
      repeat split;
      first [ reflexivity | lia | exact Hrd
            | cbn; rewrite Hlen2; lia
            | cbn; lia
            | intros Hle; exact Hpre2
            | intros Hd; unfold shape; cbn; rewrite Hd; reflexivity ].
Qed.
End Write.

(** ** Close, read, total, seek on a valid handle *)

Section Handle.
Variables (s : state) (h : Z) (fd : rd_fd) (e : rd_file).
Hypothesis Hh : h <> NULL.
Hypothesis Hfd : fds s !! h = Some fd.
Hypothesis Hfile : file fd <> NULL.
Hypothesis He : files s !! file fd = Some e.

Lemma close_ok :
  1 <= usage e ->
  ramdisk_close h s
  = Ok (0, with_queue (filter (fun x => x <> h) (rd_fd_queue s))
             (with_files (<[file fd := closed_file e]> (files s))
                (with_fds (delete h (fds s)) s))).
Proof.
  intros Hu. apply eqb_null in Hh, Hfile.
  assert (Hle : (0 <=? usage e - 1) = true) by (apply Z.leb_le; lia).
  unfold ramdisk_close, closed_file. go.
  cbn [usage set_usage].
  destruct (usage e - 1 =? 0) eqn:Hz; go;
    rewrite ?insert_insert_eq, ?delete_insert_eq; reflexivity.
Qed.

Lemma total_ok :
  dir fd = false -> ramdisk_total h s = Ok (size e, s).
Proof.
  intros Hd. apply eqb_null in Hh, Hfile.
  unfold ramdisk_total. go. reflexivity.
Qed.

Lemma read_ok n :
  dir fd = false -> block_ok e ->
  0 <= ptr fd <= size e -> 0 <= n -> size e + n < 2 ^ 32 ->
  let k := Z.min n (size e - ptr fd) in
  ramdisk_read h n s
  = Ok ((signed32 k,
         take (Z.to_nat k)
              (drop (Z.to_nat (ptr fd)) (block_bytes (data e)))),
        with_fds (<[h := set_ptr (ptr fd + k) fd]> (fds s)) s).
Proof.
  intros Hd Hb Hp Hn Hfit k. apply eqb_null in Hh, Hfile.
  unfold ramdisk_read. go.
  rewrite (wrap32_small (ptr fd + n)) by lia.
  assert (Hk : (if ptr fd + n >? size e
                then wrap32 (size e - ptr fd) else n) = k).
  { subst k. destruct (ptr fd + n >? size e) eqn:E.
    - apply Z.gtb_lt in E. rewrite wrap32_small by lia. lia.
    - assert (~ size e < ptr fd + n)
        by (intros Hc; apply Z.gtb_lt in Hc; congruence). lia. }
  rewrite Hk.
  assert (Hk0 : 0 <= k) by (subst k; lia).
  assert (Hrd : mem_read (data e) (ptr fd) k
                = Ok (take (Z.to_nat k)
                        (drop (Z.to_nat (ptr fd)) (block_bytes (data e))))).
  { unfold mem_read. destruct (k =? 0) eqn:Ek.
    - apply Z.eqb_eq in Ek. rewrite Ek. reflexivity.
    - apply Z.eqb_neq in Ek. unfold block_ok in Hb.
      destruct (data e) as [|b|d]; [subst k; lia| |contradiction].
      cbn [block_bytes].
      destruct (ptr fd + k <=? Z.of_nat (length b)) eqn:El; [reflexivity|].
      apply Z.leb_gt in El. subst k. lia. }
  rewrite Hrd. go. rewrite (wrap32_small (ptr fd + k)) by (subst k; lia).
  reflexivity.
Qed.

Lemma seek_ok offset whence :
  dir fd = false -> whence <> SEEK_OTHER ->
  0 <= ptr fd <= size e -> size e < 2 ^ 31 ->
  - 2 ^ 31 <= offset < 2 ^ 31 ->
  let t := seek_target fd e offset whence in
  ramdisk_seek h offset whence s
  = if t <? 0 then Ok (-1, with_errno (Some EINVAL) s)
    else Ok (Z.min t (size e),
             with_fds (<[h := set_ptr (Z.min t (size e)) fd]> (fds s)) s).
Proof.
  intros Hd Hw Hp Hs Ho t. apply eqb_null in Hh, Hfile.
  assert (Hclamp : forall p, 0 <= p ->
            (if p >? size e then size e else p) = Z.min p (size e)).
  { intros p Hp0. destruct (p >? size e) eqn:E.
    - apply Z.gtb_lt in E. lia.
    - assert (~ size e < p)
        by (intros Hc; apply Z.gtb_lt in Hc; congruence). lia. }
  unfold ramdisk_seek. go. subst t.
  destruct whence; cbn [seek_target]; [| | |congruence].
  - destruct (offset <? 0) eqn:E; go; [reflexivity|].
    apply Z.ltb_ge in E. rewrite wrap32_small by lia.
    rewrite Hclamp by lia. rewrite signed32_small by lia. reflexivity.
  - destruct (offset <? 0) eqn:E; cbn [andb].
    + apply Z.ltb_lt in E. rewrite (wrap32_small (- offset)) by lia.
      destruct (- offset >? ptr fd) eqn:E2.
      * apply Z.gtb_lt in E2.
        destruct (ptr fd + offset <? 0) eqn:E3;
          [|apply Z.ltb_ge in E3; lia]. go. reflexivity.
      * assert (~ ptr fd < - offset)
          by (intros Hc; apply Z.gtb_lt in Hc; congruence).
        destruct (ptr fd + offset <? 0) eqn:E3;
          [apply Z.ltb_lt in E3; lia|]. go.
        rewrite wrap32_small by lia. rewrite Hclamp by lia.
        rewrite signed32_small by lia. reflexivity.
    + apply Z.ltb_ge in E.
      destruct (ptr fd + offset <? 0) eqn:E3;
        [apply Z.ltb_lt in E3; lia|]. go.
      rewrite wrap32_small by lia. rewrite Hclamp by lia.
      rewrite signed32_small by lia. reflexivity.
  - destruct (offset <? 0) eqn:E; cbn [andb].
    + apply Z.ltb_lt in E. rewrite (wrap32_small (- offset)) by lia.
      destruct (- offset >? size e) eqn:E2.
      * apply Z.gtb_lt in E2.
        destruct (size e + offset <? 0) eqn:E3;
          [|apply Z.ltb_ge in E3; lia]. go. reflexivity.
      * assert (~ size e < - offset)
          by (intros Hc; apply Z.gtb_lt in Hc; congruence).
        destruct (size e + offset <? 0) eqn:E3;
          [apply Z.ltb_lt in E3; lia|]. go.
        rewrite wrap32_small by lia. rewrite Hclamp by lia.
        rewrite signed32_small by lia. reflexivity.
    + apply Z.ltb_ge in E.
      destruct (size e + offset <? 0) eqn:E3;
        [apply Z.ltb_lt in E3; lia|]. go.
      rewrite wrap32_small by lia. rewrite Hclamp by lia.
      rewrite signed32_small by lia. reflexivity.
Qed.
End Handle.

(** ** Counting the registered handles *)

Lemma filter_ext_elem {A} (P Q : A -> Prop)
    `{forall x, Decision (P x)} `{forall x, Decision (Q x)} (l : list A) :
  (forall x, x ∈ l -> P x <-> Q x) -> filter P l = filter Q l.
Proof.
  induction l as [|x l IH]; intros Hpq; [reflexivity|].
  rewrite !filter_cons.
  assert (Hx : P x <-> Q x) by (apply Hpq; left).
  rewrite IH by (intros y Hy; apply Hpq; right; exact Hy).
  destruct (decide (P x)), (decide (Q x)); tauto.
Qed.

Lemma live_count_nonneg fdm q a : 0 <= live_count_of fdm q a.
Proof. unfold live_count_of. lia. Qed.

Lemma live_count_insert_fresh fdm q h d a :
  h ∉ q -> live_count_of (<[h := d]> fdm) q a = live_count_of fdm q a.
Proof.
  intros Hh. unfold live_count_of. f_equal. f_equal.
  apply filter_ext_elem. intros x Hx.
  rewrite lookup_insert_ne; [reflexivity|]. intros ->. contradiction.
Qed.

Lemma live_count_app fdm q h a :
  live_count_of fdm (q ++ [h]) a
  = live_count_of fdm q a
    + (if decide (file <$> fdm !! h = Some a) then 1 else 0).
Proof.
  unfold live_count_of. rewrite filter_app, length_app, filter_cons.
  destruct (decide _); cbn; lia.
Qed.

Lemma live_count_open fdm q h d a :
  h ∉ q ->
  live_count_of (<[h := d]> fdm) (q ++ [h]) a
  = live_count_of fdm q a + (if decide (file d = a) then 1 else 0).
Proof.
  intros Hh. rewrite live_count_app, live_count_insert_fresh by exact Hh.
  rewrite lookup_insert_eq. cbn.
  destruct (decide (Some (file d) = Some a)) as [E|E],
           (decide (file d = a)) as [E'|E']; congruence.
Qed.

Lemma live_count_close fdm q h d a :
  NoDup q -> h ∈ q -> fdm !! h = Some d ->
  live_count_of (delete h fdm) (filter (fun x => x <> h) q) a
  = live_count_of fdm q a - (if decide (file d = a) then 1 else 0).
Proof.
  intros Hnd Hin Hd. unfold live_count_of.
  induction q as [|x q IH]; [inversion Hin|].
  apply NoDup_cons in Hnd as [Hx Hnd].
  rewrite (filter_cons (fun x => x <> h)), (filter_cons _ x q).
  destruct (decide (x = h)) as [->|Hne].
  - (* the closed handle: the rest of the queue does not hold it *)
    destruct (decide (h <> h)) as [Hn|_]; [congruence|].
    assert (Hq : filter (fun x => x <> h) q = q).
    { clear -Hx. induction q as [|y q IH]; [reflexivity|].
      rewrite filter_cons. apply not_elem_of_cons in Hx as [Hy Hx].
      destruct (decide (y <> h)) as [_|Hn];
        [|exfalso; apply Hn; congruence]. f_equal. auto. }
    rewrite Hq.
    assert (Hf : filter (fun h0 => file <$> delete h fdm !! h0 = Some a) q
                 = filter (fun h0 => file <$> fdm !! h0 = Some a) q).
    { apply filter_ext_elem. intros y Hy.
      rewrite lookup_delete_ne; [reflexivity|]. intros ->. contradiction. }
    rewrite Hf, Hd. cbn.
    destruct (decide (Some (file d) = Some a)) as [E|E],
             (decide (file d = a)) as [E'|E']; cbn; try congruence; lia.
  - destruct (decide (x <> h)) as [_|Hn]; [|exfalso; apply Hn, Hne].
    apply elem_of_cons in Hin as [->|Hin]; [congruence|].
    specialize (IH Hnd Hin).
    rewrite filter_cons. rewrite lookup_delete_ne by congruence.
    destruct (decide (file <$> fdm !! x = Some a)); cbn [length] in *; lia.
Qed.

(** ** Updates that keep the invariant *)

Lemma chain_ext m m' prev a l :
  chain m prev a l ->
  (forall x e, x ∈ l -> m !! x = Some e ->
     exists e', m' !! x = Some e' /\ le_next e' = le_next e
                /\ le_prev e' = le_prev e) ->
  chain m' prev a l.
Proof.
  induction 1 as [|prev a e l Ha He Hp Hc IH]; intros Hext.
  - constructor.
  - destruct (Hext a e ltac:(left) He) as (e' & He' & Hn & Hpv).
    econstructor; [exact Ha|exact He'|congruence|].
    rewrite Hn. apply IH. intros x ex Hx. apply Hext. right. exact Hx.
Qed.

Lemma block_ok_fields e e' :
  data e' = data e -> size e' = size e -> datasize e' = datasize e ->
  block_ok e -> block_ok e'.
Proof. unfold block_ok. intros -> -> ->. auto. Qed.

Lemma lock_ok_fields e e' n :
  usage e' = usage e -> openfor e' = openfor e ->
  lock_ok e n -> lock_ok e' n.
Proof. unfold lock_ok. intros -> ->. auto. Qed.

Lemma inv_core_update fm dm fdm q rt rd bk l f e e' fdm' q' :
  inv_core fm dm fdm q rt rd bk l ->
  fm !! f = Some e ->
  isdir e' = isdir e -> le_next e' = le_next e -> le_prev e' = le_prev e ->
  (isdir e = true -> data e' = data e) ->
  (isdir e = false -> block_ok e') ->
  (forall a, is_Some (fdm' !! a) -> 0 < a < bk) ->
  NoDup q' ->
  (forall h, h ∈ q' ->
     exists fd, fdm' !! h = Some fd
       /\ is_Some (fm !! file fd) /\ 0 <= ptr fd) ->
  (forall a, a <> f -> live_count_of fdm' q' a = live_count_of fdm q a) ->
  lock_ok e' (live_count_of fdm' q' f) ->
  inv_core (<[f := e']> fm) dm fdm' q' rt rd bk l.
Proof.
  intros [Hbk Hfl Hdl Hfdl Hroot Hch Hnd Hnodes Hflat Hlocks Hqnd Hq]
    He Hisd Hnx Hpv Hdata Hblk Hfdl' Hqnd' Hq' Hcnt Hlock.
  assert (Hsome : forall a, is_Some (<[f := e']> fm !! a) <-> is_Some (fm !! a)).
  { intros a. rewrite lookup_insert_is_Some. split.
    - intros [<-|[_ Hx]]; [rewrite He; eauto|exact Hx].
    - intros Hx. destruct (decide (f = a)); auto. }
  constructor.
  - exact Hbk.
  - intros a Ha. apply Hfl, Hsome, Ha.
  - exact Hdl.
  - exact Hfdl'.
  - destruct Hroot as (r & Hr & Hrd & Hrdata).
    destruct (decide (f = rt)) as [->|Hne].
    + exists e'. rewrite lookup_insert_eq.
      replace r with e in * by congruence.
      split; [reflexivity|]. split; [congruence|].
      rewrite Hdata by exact Hrd. exact Hrdata.
    + exists r. rewrite lookup_insert_ne by exact Hne. auto.
  - destruct Hch as (first & Hfirst & Hchain). exists first.
    split; [exact Hfirst|]. eapply chain_ext; [exact Hchain|].
    intros x ex Hx Hex. destruct (decide (f = x)) as [->|Hne].
    + exists e'. rewrite lookup_insert_eq.
      replace ex with e in * by congruence. auto.
    + exists ex. rewrite lookup_insert_ne by exact Hne. auto.
  - exact Hnd.
  - intros a Ha. apply Hnodes, Hsome, Ha.
  - intros a x Ha Hx. destruct (decide (f = a)) as [->|Hne].
    + rewrite lookup_insert_eq in Hx. injection Hx as <-.
      destruct (Hflat a e Ha He) as [Hd _].
      split; [congruence|]. apply Hblk, Hd.
    + rewrite lookup_insert_ne in Hx by exact Hne. eauto.
  - intros a x Hx. destruct (decide (f = a)) as [->|Hne].
    + rewrite lookup_insert_eq in Hx. injection Hx as <-. exact Hlock.
    + rewrite lookup_insert_ne in Hx by exact Hne.
      rewrite Hcnt by congruence. eauto.
  - exact Hqnd'.
  - intros h Hh. destruct (Hq' h Hh) as (fd & Hfd & Hf & Hp).
    exists fd. split; [exact Hfd|]. split; [apply Hsome, Hf|exact Hp].
Qed.

(** Facts read off the invariant. *)
Lemma inv_core_elem fm dm fdm q rt rd bk l a :
  inv_core fm dm fdm q rt rd bk l -> a ∈ l ->
  a <> NULL /\ exists e, fm !! a = Some e /\ isdir e = false /\ block_ok e.
Proof.
  intros Hinv Ha. destruct (inv_chain _ _ _ _ _ _ _ _ Hinv) as (first & _ & Hc).
  destruct (chain_elem _ _ _ _ _ Hc Ha) as [Hn [e He]].
  split; [exact Hn|]. exists e. split; [exact He|].
  eapply inv_flat; eauto.
Qed.

Lemma inv_core_size fm dm fdm q rt rd bk l :
  inv_core fm dm fdm q rt rd bk l -> (length l <= base.size fm)%nat.
Proof.
  intros Hinv. apply NoDup_size_le.
  - pose proof (inv_nodup _ _ _ _ _ _ _ _ Hinv) as Hnd.
    apply NoDup_cons in Hnd. tauto.
  - intros x Hx. destruct (inv_core_elem _ _ _ _ _ _ _ _ _ Hinv Hx)
      as (_ & e & He & _). rewrite He. eauto.
Qed.

Lemma inv_core_find_path fm dm fdm q rt rd bk l fn dir :
  inv_core fm dm fdm q rt rd bk l ->
  exists r, ramdisk_find_path fm dm rd fn dir = Ok r
    /\ (if dir then r = NULL else r = NULL \/ r ∈ l).
Proof.
  intros Hinv.
  destruct (inv_chain _ _ _ _ _ _ _ _ Hinv) as (first & Hfirst & Hc).
  eapply ramdisk_find_path_flat; eauto.
  - eapply inv_core_size, Hinv.
  - intros a e Ha He. eapply inv_flat; eauto.
Qed.

Lemma inv_core_handle fm dm fdm q rt rd bk l h :
  inv_core fm dm fdm q rt rd bk l -> h ∈ q ->
  h <> NULL /\ exists fd e,
    fdm !! h = Some fd /\ file fd <> NULL /\ fm !! file fd = Some e
    /\ 0 <= ptr fd /\ 1 <= usage e.
Proof.
  intros Hinv Hh.
  destruct (inv_queue _ _ _ _ _ _ _ _ Hinv h Hh) as (fd & Hfd & [e He] & Hp).
  pose proof (inv_fds_lt _ _ _ _ _ _ _ _ Hinv h ltac:(rewrite Hfd; eauto)).
  pose proof (inv_files_lt _ _ _ _ _ _ _ _ Hinv (file fd)
                ltac:(rewrite He; eauto)).
  split; [unfold NULL; lia|]. exists fd, e.
  repeat split; try assumption; [unfold NULL; lia|].
  destruct (inv_locks _ _ _ _ _ _ _ _ Hinv _ _ He) as [Hu _].
  rewrite Hu. unfold live_count_of.
  assert (Hin : h ∈ filter (fun h0 => file <$> fdm !! h0 = Some (file fd)) q).
  { apply list_elem_of_filter. split; [rewrite Hfd; reflexivity|exact Hh]. }
  destruct (filter _ q); [inversion Hin|]. cbn [length]. lia.
Qed.

(** ** Close keeps the invariant *)

Lemma closed_file_fields e :
  isdir (closed_file e) = isdir e /\ le_next (closed_file e) = le_next e
  /\ le_prev (closed_file e) = le_prev e /\ data (closed_file e) = data e
  /\ size (closed_file e) = size e /\ datasize (closed_file e) = datasize e
  /\ name (closed_file e) = name e /\ usage (closed_file e) = usage e - 1.
Proof.
  unfold closed_file. destruct (usage e - 1 =? 0); cbn; repeat split.
Qed.

Lemma closed_file_lock e n :
  1 <= n -> lock_ok e n -> lock_ok (closed_file e) (n - 1).
Proof.
  intros Hn [Hu Hl]. unfold lock_ok, closed_file.
  destruct (usage e - 1 =? 0) eqn:Hz; cbn [usage openfor set_openfor set_usage].
  - apply Z.eqb_eq in Hz. split; [lia|]. left. split; [reflexivity|lia].
  - apply Z.eqb_neq in Hz. split; [lia|].
    destruct Hl as [[_ H0]|[[Hr H1]|[_ H1]]]; [lia| |lia].
    right. left. split; [exact Hr|lia].
Qed.

Lemma close_live s l h :
  inv_at s l -> live s h ->
  exists fd e,
    fds s !! h = Some fd /\ files s !! file fd = Some e
    /\ ramdisk_close h s
       = Ok (0, with_queue (filter (fun x => x <> h) (rd_fd_queue s))
                  (with_files (<[file fd := closed_file e]> (files s))
                     (with_fds (delete h (fds s)) s)))
    /\ inv_at (with_queue (filter (fun x => x <> h) (rd_fd_queue s))
                 (with_files (<[file fd := closed_file e]> (files s))
                    (with_fds (delete h (fds s)) s))) l.
Proof.
  intros Hinv Hlive. unfold inv_at in Hinv.
  destruct (inv_core_handle _ _ _ _ _ _ _ _ _ Hinv Hlive)
    as (Hh & fd & e & Hfd & Hf & He & Hp & Hu).
  exists fd, e. split; [exact Hfd|]. split; [exact He|].
  split; [apply close_ok; assumption|].
  unfold inv_at. cbn [files dirs fds rd_fd_queue root rootdir brk
                      with_queue with_files with_fds].
  destruct (closed_file_fields e) as (Hi & Hn & Hpv & Hd & Hs & Hds & _ & _).
  pose proof (inv_queue_nodup _ _ _ _ _ _ _ _ Hinv) as Hnd.
  eapply inv_core_update; eauto.
  - intros Hfile. eapply block_ok_fields; eauto.
    pose proof (inv_nodes _ _ _ _ _ _ _ _ Hinv (file fd)
                  ltac:(rewrite He; eauto)) as Hin.
    apply elem_of_cons in Hin as [Hroot|Hin].
    + destruct (inv_root _ _ _ _ _ _ _ _ Hinv) as (r & Hr & Hrd & _).
      rewrite Hroot in He. congruence.
    + eapply inv_flat; eauto.
  - intros a [x Ha]. apply lookup_delete_Some in Ha as [_ Ha].
    apply (inv_fds_lt _ _ _ _ _ _ _ _ Hinv). eauto.
  - apply NoDup_filter, Hnd.
  - intros x Hx. apply list_elem_of_filter in Hx as [Hne Hx].
    rewrite lookup_delete_ne by congruence.
    apply (inv_queue _ _ _ _ _ _ _ _ Hinv), Hx.
  - intros a Ha. rewrite (live_count_close _ _ _ _ _ Hnd Hlive Hfd).
    destruct (decide (file fd = a)); [congruence|lia].
  - rewrite (live_count_close _ _ _ _ _ Hnd Hlive Hfd).
    destruct (decide (file fd = file fd)); [|congruence].
    pose proof (inv_locks _ _ _ _ _ _ _ _ Hinv _ _ He) as Hl.
    apply closed_file_lock; [|exact Hl]. destruct Hl as [<- _]. exact Hu.
Qed.

(** ** Open: what happens once the file has been looked up *)

Section OpenHandle.
Context `{FcntlFlags}.
Variables (s : state) (f : Z) (e : rd_file) (mode : Z).
Hypothesis Hf : f <> NULL.
Hypothesis Hbrk : 0 < brk s.
Hypothesis He : files s !! f = Some e.

Lemma open_handle_read :
  isdir e = false -> openfor e <> OPENFOR_WRITE ->
  opens_read mode -> next_alloc s = true ->
  open_handle f mode s
  = Ok (brk s,
        opened (after_alloc s) f
          (set_usage (usage e + 1) (set_openfor OPENFOR_READ e))
          (mk_rd_fd f false 0 dirent0 mode)).
Proof.
  intros Hd Hw [Hrd Hnd] Ha. unfold mode_rdonly, mode_dir in *.
  apply eqb_null in Hf. apply Z.eqb_neq in Hw.
  assert (Hb : (brk s =? NULL) = false) by (apply Z.eqb_neq; unfold NULL; lia).
  unfold open_handle, open_lock, open_register, opened. go.
  cbn [usage set_openfor]. rewrite ?insert_insert_eq. reflexivity.
Qed.

Lemma open_handle_truncate :
  isdir e = false -> openfor e = OPENFOR_NOTHING ->
  opens_truncate mode ->
  next_alloc s = true -> next_alloc (after_alloc s) = true ->
  open_handle f mode s
  = Ok (brk s,
        opened (after_alloc (after_alloc s)) f
          (set_usage (usage e + 1)
             (set_size 0
                (set_data (fresh_block rd_blksize)
                   (set_datasize rd_blksize
                      (set_openfor OPENFOR_WRITE e)))))
          (mk_rd_fd f false 0 dirent0 mode)).
Proof.
  intros Hd Hn [[Hwr Hnd] [Hap Htr]] Ha Ha2.
  unfold mode_write, mode_rdonly, mode_dir, mode_append, mode_trunc in *.
  apply andb_prop in Hwr as [Hro Hwr]. apply negb_true_iff in Hro.
  apply eqb_null in Hf.
  assert (Hw : (openfor e =? OPENFOR_WRITE) = false) by (rewrite Hn; reflexivity).
  assert (Hr : (openfor e =? OPENFOR_READ) = false) by (rewrite Hn; reflexivity).
  assert (Hb : (brk s =? NULL) = false) by (apply Z.eqb_neq; unfold NULL; lia).
  unfold open_handle, open_lock, open_register, opened. go.
  rewrite Hwr. go.
  cbn [usage set_openfor set_datasize set_data set_size].
  rewrite ?insert_insert_eq. reflexivity.
Qed.

Lemma open_handle_locked :
  isdir e && negb (mode_dir mode) = false ->
  openfor e = OPENFOR_WRITE ->
  open_handle f mode s = Ok (NULL, s).
Proof.
  intros Hd Hw. unfold mode_dir in Hd. apply eqb_null in Hf.
  apply Z.eqb_eq in Hw.
  unfold open_handle. go. rewrite Hd. go. reflexivity.
Qed.

Lemma open_handle_busy :
  isdir e = false -> openfor e = OPENFOR_READ ->
  opens_write mode -> next_alloc s = true ->
  open_handle f mode s
  = Ok (NULL,
        with_fds (<[brk s := mk_rd_fd f false 0 dirent0 mode]> (fds s))
          (with_brk (brk s + 1) (after_alloc s))).
Proof.
  intros Hd Hr [Hwr Hnd] Ha.
  unfold mode_write, mode_rdonly, mode_dir in *.
  apply andb_prop in Hwr as [Hro Hwr]. apply negb_true_iff in Hro.
  apply eqb_null in Hf.
  assert (Hw : (openfor e =? OPENFOR_WRITE) = false) by (rewrite Hr; reflexivity).
  apply Z.eqb_eq in Hr.
  assert (Hb : (brk s =? NULL) = false) by (apply Z.eqb_neq; unfold NULL; lia).
  unfold open_handle, open_lock. go. rewrite Hwr. go. reflexivity.
Qed.
End OpenHandle.

(** ** Allocation and registration keep the invariant *)

Lemma inv_core_brk fm dm fdm q rt rd bk bk' l :
  bk <= bk' ->
  inv_core fm dm fdm q rt rd bk l -> inv_core fm dm fdm q rt rd bk' l.
Proof.
  intros Hle [Hbk Hfl Hdl Hfdl Hroot Hch Hnd Hnodes Hflat Hlocks Hqnd Hq].
  constructor; try assumption; try lia.
  - intros a Ha. specialize (Hfl a Ha). lia.
  - intros a Ha. specialize (Hdl a Ha). lia.
  - intros a Ha. specialize (Hfdl a Ha). lia.
Qed.

Lemma inv_core_fresh_handle fm dm fdm q rt rd bk l :
  inv_core fm dm fdm q rt rd bk l -> bk ∉ q.
Proof.
  intros Hinv Hin.
  destruct (inv_queue _ _ _ _ _ _ _ _ Hinv bk Hin) as (fd & Hfd & _).
  pose proof (inv_fds_lt _ _ _ _ _ _ _ _ Hinv bk ltac:(rewrite Hfd; eauto)).
  lia.
Qed.

Lemma inv_core_node_block fm dm fdm q rt rd bk l f e :
  inv_core fm dm fdm q rt rd bk l -> fm !! f = Some e ->
  isdir e = false -> f ∈ l /\ block_ok e.
Proof.
  intros Hinv He Hd.
  pose proof (inv_nodes _ _ _ _ _ _ _ _ Hinv f ltac:(rewrite He; eauto)) as Hin.
  apply elem_of_cons in Hin as [->|Hin].
  - destruct (inv_root _ _ _ _ _ _ _ _ Hinv) as (r & Hr & Hrd & _). congruence.
  - split; [exact Hin|]. eapply inv_flat; eauto.
Qed.

(** A handle that is allocated but not registered (the leak on the
    "already open for reading" path). *)
Lemma inv_core_leak fm dm fdm q rt rd bk l d :
  inv_core fm dm fdm q rt rd bk l ->
  inv_core fm dm (<[bk := d]> fdm) q rt rd (bk + 1) l.
Proof.
  intros Hinv. pose proof (inv_core_fresh_handle _ _ _ _ _ _ _ _ Hinv) as Hfresh.
  pose proof (inv_brk _ _ _ _ _ _ _ _ Hinv) as Hbk0.
  destruct (inv_core_brk _ _ _ _ _ _ bk (bk + 1) _ ltac:(lia) Hinv)
    as [Hbk Hfl Hdl Hfdl Hroot Hch Hnd Hnodes Hflat Hlocks Hqnd Hq].
  constructor; try assumption.
  - intros a Ha. apply lookup_insert_is_Some in Ha as [<-|[_ Ha]]; [lia|auto].
  - intros a e He. rewrite live_count_insert_fresh by exact Hfresh. auto.
  - intros h Hh. rewrite lookup_insert_ne by (intros ->; contradiction). auto.
Qed.

(** A handle that is allocated and registered for the file at [f]. *)
Lemma inv_core_opened fm dm fdm q rt rd bk l f e e' d :
  inv_core fm dm fdm q rt rd bk l ->
  fm !! f = Some e ->
  isdir e' = isdir e -> le_next e' = le_next e -> le_prev e' = le_prev e ->
  (isdir e = true -> data e' = data e) ->
  (isdir e = false -> block_ok e') ->
  file d = f -> 0 <= ptr d ->
  lock_ok e' (live_count_of fdm q f + 1) ->
  inv_core (<[f := e']> fm) dm (<[bk := d]> fdm) (q ++ [bk]) rt rd (bk + 1) l.
Proof.
  intros Hinv He Hisd Hnx Hpv Hdata Hblk Hfile Hptr Hlock.
  pose proof (inv_core_fresh_handle _ _ _ _ _ _ _ _ Hinv) as Hfresh.
  pose proof (inv_core_brk _ _ _ _ _ _ bk (bk + 1) _ ltac:(lia) Hinv) as Hinv'.
  eapply inv_core_update; eauto.
  - intros a Ha. apply lookup_insert_is_Some in Ha as [<-|[_ Ha]].
    + pose proof (inv_brk _ _ _ _ _ _ _ _ Hinv). lia.
    + apply (inv_fds_lt _ _ _ _ _ _ _ _ Hinv'), Ha.
  - apply NoDup_app. split; [apply (inv_queue_nodup _ _ _ _ _ _ _ _ Hinv)|].
    split; [|apply NoDup_singleton].
    intros x Hx Hx'. apply list_elem_of_singleton in Hx'. subst x. contradiction.
  - intros h Hh. apply elem_of_app in Hh as [Hh|Hh].
    + rewrite lookup_insert_ne by (intros ->; contradiction).
      apply (inv_queue _ _ _ _ _ _ _ _ Hinv), Hh.
    + apply list_elem_of_singleton in Hh. subst h. exists d.
      rewrite lookup_insert_eq. rewrite Hfile, He. eauto.
  - intros a Ha. rewrite live_count_open by exact Hfresh.
    destruct (decide (file d = a)); [congruence|lia].
  - rewrite live_count_open by exact Hfresh.
    destruct (decide (file d = f)); [exact Hlock|congruence].
Qed.

(** ** Open keeps the invariant *)

Lemma lock_ok_read e n :
  0 <= n -> usage e = n -> lock_ok (set_usage (usage e + 1) (set_openfor OPENFOR_READ e)) (n + 1).
Proof. intros Hn Hu. split; cbn; [lia|]. right. left. split; [reflexivity|lia]. Qed.

Lemma lock_ok_write e e1 n :
  lock_ok e n -> openfor e <> OPENFOR_READ -> openfor e <> OPENFOR_WRITE ->
  usage e1 = usage e -> openfor e1 = OPENFOR_WRITE ->
  lock_ok (set_usage (usage e1 + 1) e1) (n + 1).
Proof.
  intros [Hu Hl] Hr Hw Hu1 Ho1.
  destruct Hl as [[_ H0]|[[? _]|[? _]]]; try congruence.
  split; cbn; [lia|]. right. right. split; [exact Ho1|lia].
Qed.

Section OpenInv.
Context `{FcntlFlags}.

Lemma open_handle_inv s l f mode :
  inv_at s l -> f = NULL \/ is_Some (files s !! f) ->
  mode_dir mode && negb (mode_rdonly mode) = false ->
  match open_handle f mode s with
  | Ok (r, s') =>
      inv_at s' l
      /\ (r = NULL \/ (r = brk s /\ rd_fd_queue s' = rd_fd_queue s ++ [r]))
  | Crash _ =>
      mode_dir mode = true
      \/ (mode_rdonly mode = false /\ mode_write mode = false)
  end.
Proof.
  intros Hinv Hfin Hmode. unfold inv_at in *.
  unfold mode_write, mode_dir, mode_rdonly.
  pose proof (inv_brk _ _ _ _ _ _ _ _ Hinv) as Hbk.
  unfold mode_dir, mode_rdonly in Hmode.
  unfold open_handle.
  destruct (f =? NULL) eqn:Hf0; [go; auto|].
  destruct Hfin as [->|[e He]]; [discriminate|].
  go.
  destruct (isdir e && negb (nonzero (Z.land mode O_DIR))) eqn:Hd; go;
    [auto|].
  destruct (openfor e =? OPENFOR_WRITE) eqn:Hw; go; [auto|].
  destruct (next_alloc s) eqn:Ha; go.
  2:{ change (NULL =? NULL) with true. go. auto. }
  assert (Hb : (brk s =? NULL) = false)
    by (apply Z.eqb_neq; unfold NULL; lia).
  go. unfold open_lock, open_register.
  pose proof (inv_locks _ _ _ _ _ _ _ _ Hinv _ _ He) as Hlk.
  pose proof (live_count_nonneg (fds s) (rd_fd_queue s) f) as Hcnt.
  assert (Hblk : isdir e = false -> block_ok e)
    by (intros Hfl; eapply inv_core_node_block; eauto).
  assert (Hsz : isdir e = false -> 0 <= size e).
  { intros Hfl. specialize (Hblk Hfl). unfold block_ok in Hblk.
    destruct (data e); [lia|lia|contradiction]. }
  destruct (Z.land mode O_MODE_MASK =? O_RDONLY) eqn:Hro; go.
  - (* read-only *)
    destruct (nonzero (Z.land mode O_DIR)) eqn:Hwd; go.
    + cbn [data set_openfor].
      destruct (data e) as [|blk|d] eqn:Hdata; cbn [dir_of_data]; go;
        try (left; reflexivity).
      destruct (dirs s !! d) as [first|] eqn:Hdd; go; [|left; reflexivity].
      cbn [usage set_openfor]. rewrite ?insert_insert_eq.
      split; [|right; split; reflexivity].
      eapply inv_core_opened; [exact Hinv|exact He|reflexivity..| | | |].
      * intros Hfl. eapply block_ok_fields; [..|apply Hblk, Hfl]; reflexivity.
      * reflexivity.
      * cbn. apply wrap32_range.
      * apply lock_ok_read; [exact Hcnt|apply Hlk].
    + cbn [usage set_openfor]. rewrite ?insert_insert_eq.
      split; [|right; split; reflexivity].
      eapply inv_core_opened; [exact Hinv|exact He|reflexivity..| | | |].
      * intros Hfl. eapply block_ok_fields; [..|apply Hblk, Hfl]; reflexivity.
      * reflexivity.
      * cbn. lia.
      * apply lock_ok_read; [exact Hcnt|apply Hlk].
  - (* some write mode: not a directory request, so not a directory *)
    cbn [negb andb] in Hmode. rewrite andb_true_r in Hmode.
    rewrite Hmode in Hd |- *. cbn [negb] in Hd. rewrite andb_true_r in Hd.
    specialize (Hblk Hd). specialize (Hsz Hd).
    destruct (nonzero (Z.land (Z.land mode O_MODE_MASK) O_RDWR)
              || nonzero (Z.land (Z.land mode O_MODE_MASK) O_WRONLY));
      go; [|right; split; reflexivity].
    destruct (openfor e =? OPENFOR_READ) eqn:Hr; go.
    { split; [apply inv_core_leak, Hinv|auto]. }
    apply Z.eqb_neq in Hr, Hw.
    destruct (nonzero (Z.land mode O_APPEND)) eqn:Hap; go;
      [|destruct (nonzero (Z.land mode O_TRUNC)) eqn:Htr; go].
    + cbn [usage set_openfor]. rewrite ?insert_insert_eq.
      split; [|right; split; reflexivity].
      eapply inv_core_opened; [exact Hinv|exact He|reflexivity..| | | |].
      * intros _. eapply block_ok_fields; [..|exact Hblk]; reflexivity.
      * reflexivity.
      * cbn. exact Hsz.
      * apply (lock_ok_write e (set_openfor OPENFOR_WRITE e)
                 _ Hlk Hr Hw); reflexivity.
    + cbn [usage set_openfor set_datasize set_data set_size].
      rewrite ?insert_insert_eq.
      split; [|right; split; reflexivity].
      eapply inv_core_opened; [exact Hinv|exact He|reflexivity| | | | | | |].
      * reflexivity.
      * reflexivity.
      * intros Hc. congruence.
      * intros _. unfold block_ok. cbn.
        destruct (next_alloc (after_alloc s)); cbn;
          [rewrite repeat_length; unfold rd_blksize; lia|reflexivity].
      * reflexivity.
      * cbn. lia.
      * apply (lock_ok_write e
                 (set_size 0
                    (set_data (if next_alloc (after_alloc s)
                               then fresh_block rd_blksize else DataNull)
                       (set_datasize rd_blksize
                          (set_openfor OPENFOR_WRITE e))))
                 _ Hlk Hr Hw); reflexivity.
    + cbn [usage set_openfor]. rewrite ?insert_insert_eq.
      split; [|right; split; reflexivity].
      eapply inv_core_opened; [exact Hinv|exact He|reflexivity..| | | |].
      * intros _. eapply block_ok_fields; [..|exact Hblk]; reflexivity.
      * reflexivity.
      * cbn. lia.
      * apply (lock_ok_write e (set_openfor OPENFOR_WRITE e)
                 _ Hlk Hr Hw); reflexivity.
Qed.

Lemma open_handle_inv' s l f mode r s' :
  inv_at s l -> f = NULL \/ is_Some (files s !! f) ->
  mode_dir mode && negb (mode_rdonly mode) = false ->
  open_handle f mode s = Ok (r, s') ->
  inv_at s' l
  /\ (r = NULL \/ (r = brk s /\ rd_fd_queue s' = rd_fd_queue s ++ [r])).
Proof.
  intros Hinv Hf Hmode Hopen.
  pose proof (open_handle_inv s l f mode Hinv Hf Hmode) as Hpost.
  rewrite Hopen in Hpost. exact Hpost.
Qed.
End OpenInv.

(** ** Creating a file keeps the invariant *)

Lemma live_count_zero fdm q a :
  (forall h, h ∈ q -> file <$> fdm !! h <> Some a) ->
  live_count_of fdm q a = 0.
Proof.
  intros Hq. unfold live_count_of.
  induction q as [|x q IH]; [reflexivity|].
  rewrite filter_cons.
  destruct (decide (file <$> fdm !! x = Some a)) as [Hx|_].
  - exfalso. eapply Hq; [left|exact Hx].
  - apply IH. intros h Hh. apply Hq. right. exact Hh.
Qed.

Lemma chain_inv m prev a l :
  chain m prev a l ->
  (a = NULL /\ l = [])
  \/ (a <> NULL /\ exists e l', l = a :: l' /\ m !! a = Some e
         /\ le_prev e = prev /\ chain m (LinkNext a) (le_next e) l').
Proof.
  intros Hc. destruct Hc as [|prev a e l Ha He Hp Hc]; [left; auto|].
  right. split; [exact Ha|]. exists e, l. auto.
Qed.

Lemma inv_core_create fm dm fdm q rt rd bk l first fm' n :
  inv_core fm dm fdm q rt rd bk l ->
  dm !! rd = Some first ->
  fm' !! bk = Some n ->
  isdir n = false -> block_ok n ->
  usage n = 0 -> openfor n = OPENFOR_NOTHING ->
  le_next n = first -> le_prev n = LinkHead rd ->
  (forall a, a <> bk ->
     match fm !! a with
     | Some e =>
         exists e', fm' !! a = Some e'
           /\ isdir e' = isdir e /\ data e' = data e /\ size e' = size e
           /\ datasize e' = datasize e /\ usage e' = usage e
           /\ openfor e' = openfor e /\ le_next e' = le_next e
           /\ le_prev e' = (if decide (a = first) then LinkNext bk
                            else le_prev e)
     | None => fm' !! a = None
     end) ->
  inv_core fm' (<[rd := bk]> dm) fdm q rt rd (bk + 1) (bk :: l).
Proof.
  intros Hinv Hfirst Hn Hnd Hnb Hnu Hno Hnn Hnp Hrel.
  pose proof Hinv as
    [Hbk Hfl Hdl Hfdl Hroot Hch Hndp Hnodes Hflat Hlocks Hqnd Hq].
  assert (Hold : forall a, is_Some (fm !! a) -> a <> bk).
  { intros a Ha. specialize (Hfl a Ha). lia. }
  assert (Hsome : forall a, is_Some (fm' !! a) -> a = bk \/ is_Some (fm !! a)).
  { intros a Ha. destruct (decide (a = bk)) as [|Hne]; [auto|right].
    specialize (Hrel a Hne). destruct (fm !! a); [eauto|].
    rewrite Hrel in Ha. destruct Ha; discriminate. }
  assert (Hkeep : forall a e, fm !! a = Some e ->
            exists e', fm' !! a = Some e'
              /\ isdir e' = isdir e /\ data e' = data e /\ size e' = size e
              /\ datasize e' = datasize e /\ usage e' = usage e
              /\ openfor e' = openfor e /\ le_next e' = le_next e
              /\ le_prev e' = (if decide (a = first) then LinkNext bk
                               else le_prev e)).
  { intros a e He. specialize (Hrel a (Hold a ltac:(rewrite He; eauto))).
    rewrite He in Hrel. exact Hrel. }
  assert (Hback : forall a e', a <> bk -> fm' !! a = Some e' ->
            exists e, fm !! a = Some e
              /\ isdir e' = isdir e /\ data e' = data e /\ size e' = size e
              /\ datasize e' = datasize e /\ usage e' = usage e
              /\ openfor e' = openfor e).
  { intros a e' Hne He'. specialize (Hrel a Hne).
    destruct (fm !! a) as [e|]; [|congruence].
    destruct Hrel as (e2 & He2 & Hrest). exists e.
    replace e2 with e' in * by congruence. split; [reflexivity|]. tauto. }
  destruct Hch as (first' & Hfirst' & Hchain).
  replace first' with first in * by congruence.
  assert (Hbkl : bk ∉ rt :: l).
  { intros Hin. apply elem_of_cons in Hin as [->|Hin].
    - destruct Hroot as (r & Hr & _). eapply (Hold rt); [rewrite Hr; eauto|reflexivity].
    - destruct (chain_elem _ _ _ _ _ Hchain Hin) as [_ Hs].
      eapply Hold; eauto. }
  constructor.
  - lia.
  - intros a Ha. destruct (Hsome a Ha) as [->|Ha']; [lia|].
    specialize (Hfl a Ha'). lia.
  - intros a Ha. apply lookup_insert_is_Some in Ha as [<-|[_ Ha]].
    + specialize (Hdl rd ltac:(rewrite Hfirst; eauto)). lia.
    + specialize (Hdl a Ha). lia.
  - intros a Ha. specialize (Hfdl a Ha). lia.
  - destruct Hroot as (r & Hr & Hrd & Hrdata).
    destruct (Hkeep rt r Hr) as (r' & Hr' & Hi & Hda & _).
    exists r'. split; [exact Hr'|]. split; congruence.
  - exists bk. rewrite lookup_insert_eq. split; [reflexivity|].
    econstructor; [unfold NULL; lia|exact Hn|exact Hnp|].
    rewrite Hnn. apply NoDup_cons in Hndp as [_ Hndl].
    destruct (chain_inv _ _ _ _ Hchain)
      as [[-> ->]|(Ha & e & l' & -> & He & Hp & Hc)].
    + constructor.
    + destruct (Hkeep first e He) as (e' & He' & _ & _ & _ & _ & _ & _ & Hnx & Hpv).
      destruct (decide (first = first)); [|congruence].
      econstructor; [exact Ha|exact He'|exact Hpv|].
      rewrite Hnx. eapply chain_ext; [exact Hc|].
      intros x ex Hx Hex.
      destruct (Hkeep x ex Hex) as (ex' & Hex' & _ & _ & _ & _ & _ & _ & Hnx' & Hpv').
      exists ex'. split; [exact Hex'|]. split; [exact Hnx'|].
      apply NoDup_cons in Hndl as [Hnotin _].
      destruct (decide (x = first)); [subst; contradiction|exact Hpv'].
  - apply NoDup_cons in Hndp as [Hrt Hndl].
    apply NoDup_cons. split.
    + intros Hin. apply elem_of_cons in Hin as [->|Hin]; [|contradiction].
      apply Hbkl. left.
    + apply NoDup_cons. split; [|exact Hndl].
      intros Hin. apply Hbkl. right. exact Hin.
  - intros a Ha. destruct (Hsome a Ha) as [->|Ha'].
    + right. left.
    + specialize (Hnodes a Ha'). apply elem_of_cons in Hnodes as [->|Hin].
      * left.
      * right. right. exact Hin.
  - intros a x Ha Hx. apply elem_of_cons in Ha as [->|Ha].
    + replace x with n by congruence. auto.
    + assert (Hne : a <> bk) by (intros ->; apply Hbkl; right; exact Ha).
      destruct (Hback a x Hne Hx) as (e & He & Hi & Hda & Hs & Hds & _).
      destruct (Hflat a e Ha He) as [Hfd Hfb].
      split; [congruence|]. eapply block_ok_fields; eauto.
  - intros a x Hx. destruct (decide (a = bk)) as [->|Hne].
    + replace x with n by congruence.
      rewrite live_count_zero.
      * split; [exact Hnu|]. left. auto.
      * intros h Hh Hc. destruct (Hq h Hh) as (fd & Hfd & Hs & _).
        rewrite Hfd in Hc. injection Hc as Hc. rewrite Hc in Hs.
        eapply Hold; eauto.
    + destruct (Hback a x Hne Hx) as (e & He & _ & _ & _ & _ & Hu & Ho).
      eapply lock_ok_fields; eauto.
  - exact Hqnd.
  - intros h Hh. destruct (Hq h Hh) as (fd & Hfd & [e He] & Hp).
    exists fd. split; [exact Hfd|]. split; [|exact Hp].
    destruct (Hkeep _ _ He) as (e' & He' & _). rewrite He'. eauto.
Qed.

(** ** Open: the lookup *)

(** A file that has just been put at the head of the root list is found
    under its name. *)
Lemma resolve_created (fm : gmap Z rd_file) (dm : gmap Z Z) rd a n fn :
  a <> NULL -> fm !! a = Some n -> name n = fn -> isdir n = false ->
  dm !! rd = Some a -> strrchr fn slash = None -> fn <> EmptyString ->
  ramdisk_find_path fm dm rd fn false = Ok a.
Proof.
  intros Ha Hn Hname Hd Hrd Hp Hne.
  apply strrchr_none_strchr in Hp.
  unfold ramdisk_find_path.
  assert (Hwalk : forall fuel, find_path_walk fuel fm dm rd fn false NULL = Ok a).
  { intros fuel.
    assert (Hfind : ramdisk_find fm dm rd fn (String.length fn) = Ok a).
    { unfold ramdisk_find, bindo, deref_dir. rewrite Hrd.
      destruct (base.size fm) as [|k] eqn:Hsz.
      - apply map_size_empty_iff in Hsz. subst fm.
        rewrite lookup_empty in Hn. discriminate.
      - eapply list_find_head; eauto. }
    destruct fuel; cbn [find_path_walk]; rewrite Hp;
      (destruct fn as [|c fn']; [congruence|]);
      rewrite Hfind; cbn [bindo]; rewrite (eqb_null _ Ha);
      unfold deref_file; rewrite Hn; cbn [bindo]; rewrite Hd; reflexivity. }
  apply Hwalk.
Qed.

Ltac lookup_leaf Hinv :=
  split; [exact Hinv|]; split; [reflexivity|]; split; [reflexivity|];
  split; [let Ho := fresh in
          intros Ho;
          cbn [oracle with_files with_dirs with_fds with_queue with_errno
               with_brk with_oracle after_alloc];
          rewrite ?Ho; reflexivity|];
  split; [let Hm := fresh in let Hn := fresh in
          intros Hm Hn; first [reflexivity | congruence]|].

Section OpenLookup.
Context `{FcntlFlags}.

Lemma open_lookup_inv s l fn mode :
  inv_at s l ->
  mode_dir mode && negb (mode_rdonly mode) = false ->
  match open_lookup fn mode s with
  | Ok (f, s') =>
      exists l', inv_at s' l'
        /\ fds s' = fds s /\ rd_fd_queue s' = rd_fd_queue s
        /\ (oracle s = [] -> oracle s' = [])
        /\ (mode_rdonly mode = true -> f <> NULL -> s' = s)
        /\ (f = NULL
            \/ (fn = EmptyString /\ f = root s')
            \/ (fn <> EmptyString /\ mode_dir mode = false
                /\ resolves s' fn f /\ f ∈ l'))
  | Crash _ => False
  end.
Proof.
  intros Hinv Hmode. unfold inv_at in *.
  pose proof (inv_brk _ _ _ _ _ _ _ _ Hinv) as Hbk.
  unfold mode_dir, mode_rdonly in *.
  assert (Hrt : (root s =? NULL) = false).
  { destruct (inv_root _ _ _ _ _ _ _ _ Hinv) as (r & Hr & _).
    pose proof (inv_files_lt _ _ _ _ _ _ _ _ Hinv _ ltac:(rewrite Hr; eauto)).
    apply Z.eqb_neq. unfold NULL. lia. }
  unfold open_lookup. go.
  destruct fn as [|c fn'].
  { go. exists l. lookup_leaf Hinv. auto. }
  set (fn := String c fn') in *.
  unfold find_path. go.
  destruct (inv_core_find_path _ _ _ _ _ _ _ _ fn
              (nonzero (Z.land mode O_DIR)) Hinv) as (r & Hr & Hcase).
  rewrite Hr. go.
  destruct (r =? NULL) eqn:Hr0.
  2:{ (* found *)
    go. exists l. lookup_leaf Hinv.
    destruct (nonzero (Z.land mode O_DIR)) eqn:Hwd.
    - subst r. discriminate.
    - destruct Hcase as [->|Hin]; [discriminate|].
      right. right. split; [discriminate|]. split; [reflexivity|].
      split; [|exact Hin]. split; [|exact Hr].
      apply Z.eqb_neq in Hr0. exact Hr0. }
  destruct (negb (Z.land mode O_MODE_MASK =? O_RDONLY)
            && negb (nonzero (Z.land mode O_DIR))) eqn:Hcreate; go.
  2:{ exists l. lookup_leaf Hinv. auto. }
  apply andb_prop in Hcreate as [Hro Hwd].
  apply negb_true_iff in Hwd, Hro.
  unfold ramdisk_create_file, ramdisk_get_parent.
  destruct (strrchr fn slash) as [p|] eqn:Hp.
  { (* a path with a directory part: no such directory *)
    go. destruct (next_alloc s) eqn:Ha; go.
    - unfold find_path. go.
      destruct (inv_core_find_path _ _ _ _ _ _ _ _ (strncpy fn p) true Hinv)
        as (r' & Hr' & ->).
      rewrite Hr'. go. change (NULL =? NULL) with true. go.
      exists l. lookup_leaf Hinv. auto.
    - exists l. lookup_leaf Hinv. auto. }
  go. change (0 <? 0) with false. go.
  assert (Hb : (brk s =? NULL) = false)
    by (apply Z.eqb_neq; unfold NULL; lia).
  pose proof (inv_core_brk _ _ _ _ _ _ (brk s) (brk s + 1) _
                ltac:(lia) Hinv) as Hinv1.
  destruct (next_alloc s) eqn:Ha; go.
  2:{ change (NULL =? NULL) with true. go.
      exists l. lookup_leaf Hinv. auto. }
  destruct (next_alloc (after_alloc s)) eqn:Ha2; go.
  2:{ exists l. lookup_leaf Hinv1. auto. }
  destruct (next_alloc (after_alloc (after_alloc s))) eqn:Ha3;
    unfold fresh_block; go.
  2:{ exists l. lookup_leaf Hinv1. auto. }
  destruct (inv_chain _ _ _ _ _ _ _ _ Hinv) as (first & Hfirst & Hchain).
  assert (Hfresh : files s !! brk s = None).
  { destruct (files s !! brk s) eqn:E; [|reflexivity].
    pose proof (inv_files_lt _ _ _ _ _ _ _ _ Hinv _ ltac:(rewrite E; eauto)).
    lia. }
  unfold LIST_INSERT_HEAD. go. cbn [set_le_next].
  destruct (chain_inv _ _ _ _ Hchain)
    as [[-> ->]|(Hf0 & ef & l' & Hl & Hef & Hpv & Hc)].
  - (* the directory was empty *)
    change (NULL =? NULL) with true. go. cbn [set_le_prev].
    rewrite ?insert_insert_eq.
    exists [brk s]. split.
    { eapply inv_core_create;
        [exact Hinv|exact Hfirst|apply lookup_insert_eq|reflexivity|
         |reflexivity..|].
      - unfold block_ok. cbn. rewrite repeat_length. unfold rd_blksize. lia.
      - intros a Ha'. rewrite lookup_insert_ne by congruence.
        destruct (files s !! a) as [e|] eqn:Hea; [|reflexivity].
        exists e. repeat split.
        destruct (decide (a = NULL)) as [->|]; [|reflexivity].
        pose proof (inv_files_lt _ _ _ _ _ _ _ _ Hinv _
                      ltac:(rewrite Hea; eauto)). unfold NULL in *. lia. }
    split; [reflexivity|]. split; [reflexivity|].
    split; [intros Ho; cbn; rewrite Ho; reflexivity|].
    split; [intros Hm _; congruence|].
    right. right. split; [discriminate|]. split; [reflexivity|].
    split; [|left].
    split; [unfold NULL; lia|].
    cbn [files dirs rootdir with_files with_dirs with_brk after_alloc
         with_oracle].
    eapply resolve_created;
      [unfold NULL; lia|apply lookup_insert_eq|reflexivity|reflexivity
      |apply lookup_insert_eq|exact Hp|discriminate].
  - (* the new file goes in front of [first] *)
    assert (Hne : brk s <> first).
    { pose proof (inv_files_lt _ _ _ _ _ _ _ _ Hinv _
                    ltac:(rewrite Hef; eauto)). lia. }
    rewrite (eqb_null _ Hf0). go. cbn [set_le_prev].
    exists (brk s :: l). split.
    { eapply inv_core_create;
        [exact Hinv|exact Hfirst|apply lookup_insert_eq|reflexivity|
         |reflexivity..|].
      - unfold block_ok. cbn. rewrite repeat_length. unfold rd_blksize. lia.
      - intros a Ha'. rewrite lookup_insert_ne by congruence.
        destruct (decide (a = first)) as [->|Hna].
        + rewrite lookup_insert_eq, Hef. eexists. split; [reflexivity|].
          repeat split.
        + rewrite !lookup_insert_ne by congruence.
          destruct (files s !! a) as [e|] eqn:Hea; [|reflexivity].
          exists e. repeat split. }
    split; [reflexivity|]. split; [reflexivity|].
    split; [intros Ho; cbn; rewrite Ho; reflexivity|].
    split; [intros Hm _; congruence|].
    right. right. split; [discriminate|]. split; [reflexivity|].
    split; [|left].
    split; [unfold NULL; lia|].
    cbn [files dirs rootdir with_files with_dirs with_brk after_alloc
         with_oracle].
    eapply resolve_created;
      [unfold NULL; lia|apply lookup_insert_eq|reflexivity|reflexivity
      |apply lookup_insert_eq|exact Hp|discriminate].
Qed.
End OpenLookup.

(** ** Open as a whole *)

Lemma next_alloc_nil s : oracle s = [] -> next_alloc s = true.
Proof. intros Ho. unfold next_alloc. rewrite Ho. reflexivity. Qed.

Section Open.
Context `{FcntlFlags}.

(** [ramdisk_open] keeps the invariant, and what it returns is null or a
    handle that is registered from then on. *)
Lemma ramdisk_open_inv s fn mode r s' :
  inv s -> ramdisk_open fn mode s = Ok (r, s') ->
  inv s' /\ (r = NULL \/ (live s' r /\ ~ live s r)).
Proof.
  intros [l Hinv] Hopen. rewrite ramdisk_open_phases in Hopen.
  destruct (mode_dir mode && negb (mode_rdonly mode)) eqn:Hmode.
  { unfold bind, set_errno, modify, ret in Hopen. injection Hopen as <- <-.
    split; [exists l; exact Hinv|auto]. }
  unfold bind in Hopen.
  pose proof (open_lookup_inv s l (strip_slash fn) mode Hinv Hmode) as Hlk.
  destruct (open_lookup (strip_slash fn) mode s) as [[f s0]|]; [|contradiction].
  destruct Hlk as (l0 & Hinv0 & Hfds & Hq & _ & _ & Hcase).
  assert (Hf : f = NULL \/ is_Some (files s0 !! f)).
  { destruct Hcase as [->|[[_ ->]|(_ & _ & _ & Hin)]]; [auto| |].
    - right. destruct (inv_root _ _ _ _ _ _ _ _ Hinv0) as (r0 & -> & _). eauto.
    - right. destruct (inv_core_elem _ _ _ _ _ _ _ _ _ Hinv0 Hin)
        as (_ & e & -> & _). eauto. }
  destruct (open_handle_inv' s0 l0 f mode r s' Hinv0 Hf Hmode Hopen)
    as [Hinv' Hr].
  split; [exists l0; exact Hinv'|].
  destruct Hr as [->|[-> Hq']]; [auto|right].
  unfold live. rewrite Hq', Hq. split.
  - apply elem_of_app. right. apply list_elem_of_singleton. reflexivity.
  - rewrite <- Hq. apply (inv_core_fresh_handle _ _ _ _ _ _ _ _ Hinv0).
Qed.

(** The lookup of a name that resolves. *)
Lemma open_lookup_found s fn mode f :
  root s <> NULL -> fn <> EmptyString -> f <> NULL ->
  ramdisk_find_path (files s) (dirs s) (rootdir s) fn (mode_dir mode) = Ok f ->
  open_lookup fn mode s = Ok (f, s).
Proof.
  intros Hrt Hfn Hf Hres. apply eqb_null in Hrt, Hf.
  unfold mode_dir in Hres.
  unfold open_lookup, find_path. go.
  destruct fn as [|c fn']; [congruence|].
  go. rewrite Hres. go. reflexivity.
Qed.
End Open.

(** ** A truncating open that succeeds *)

Section OpenTruncate.
Context `{FcntlFlags}.

Lemma open_truncate_success s fn mode h s1 :
  inv s -> opens_truncate mode -> oracle s = [] ->
  ramdisk_open fn mode s = Ok (h, s1) -> h <> NULL ->
  exists s0 f e0,
    strip_slash fn <> EmptyString
    /\ resolves s0 (strip_slash fn) f
    /\ files s0 !! f = Some e0
    /\ isdir e0 = false /\ usage e0 = 0
    /\ inv s0 /\ oracle s0 = [] /\ 0 < brk s0 /\ root s0 <> NULL
    /\ h = brk s0
    /\ s1 = opened (after_alloc (after_alloc s0)) f
              (set_usage (usage e0 + 1)
                 (set_size 0
                    (set_data (fresh_block rd_blksize)
                       (set_datasize rd_blksize
                          (set_openfor OPENFOR_WRITE e0)))))
              (mk_rd_fd f false 0 dirent0 mode).
Proof.
  intros [l Hinv] Htr Ho Hopen Hh.
  pose proof Htr as [[Hwr Hnd] _].
  rewrite ramdisk_open_phases in Hopen.
  rewrite Hnd in Hopen. cbn [andb] in Hopen. unfold bind in Hopen.
  assert (Hmode : mode_dir mode && negb (mode_rdonly mode) = false)
    by (rewrite Hnd; reflexivity).
  pose proof (open_lookup_inv s l (strip_slash fn) mode Hinv Hmode) as Hlk.
  destruct (open_lookup (strip_slash fn) mode s) as [[f s0]|]; [|contradiction].
  destruct Hlk as (l0 & Hinv0 & Hfds & Hq & Ho0 & _ & Hcase).
  specialize (Ho0 Ho).
  pose proof (inv_brk _ _ _ _ _ _ _ _ Hinv0) as Hbk.
  destruct (inv_root _ _ _ _ _ _ _ _ Hinv0) as (r0 & Hr0 & Hr0d & _).
  assert (Hroot : root s0 <> NULL).
  { pose proof (inv_files_lt _ _ _ _ _ _ _ _ Hinv0 _
                  ltac:(rewrite Hr0; eauto)). unfold NULL. lia. }
  destruct Hcase as [->|[[_ ->]|(Hfn & _ & Hres & Hin)]].
  - (* nothing found, nothing created *)
    unfold open_handle in Hopen. change (NULL =? NULL) with true in Hopen.
    injection Hopen as <- _. congruence.
  - (* the root directory *)
    unfold open_handle, bind, get_file, lift, deref_file in Hopen.
    rewrite (eqb_null _ Hroot), Hr0, Hr0d in Hopen.
    unfold mode_dir in Hnd. rewrite Hnd in Hopen. cbn in Hopen.
    injection Hopen as <- _. congruence.
  - destruct (inv_core_elem _ _ _ _ _ _ _ _ _ Hinv0 Hin)
      as (Hf & e0 & He0 & Hd0 & Hb0).
    pose proof (inv_locks _ _ _ _ _ _ _ _ Hinv0 _ _ He0) as [Hu Hl].
    destruct Hl as [[Hn H0]|[[Hr _]|[Hw _]]].
    + rewrite (open_handle_truncate s0 f e0 mode Hf Hbk He0 Hd0 Hn Htr)
        in Hopen;
        [|apply next_alloc_nil, Ho0
         |apply next_alloc_nil; cbn; rewrite Ho0; reflexivity].
      injection Hopen as <- <-.
      exists s0, f, e0.
      split; [exact Hfn|]. split; [exact Hres|]. split; [exact He0|].
      split; [exact Hd0|]. split; [lia|].
      split; [exists l0; exact Hinv0|].
      split; [exact Ho0|]. split; [exact Hbk|]. split; [exact Hroot|].
      split; reflexivity.
    + rewrite (open_handle_busy s0 f e0 mode Hf Hbk He0 Hd0 Hr (conj Hwr Hnd))
        in Hopen by (apply next_alloc_nil, Ho0).
      injection Hopen as <- _. congruence.
    + rewrite (open_handle_locked s0 f e0 mode Hf He0) in Hopen;
        [|rewrite Hd0; reflexivity|exact Hw].
      injection Hopen as <- _. congruence.
Qed.
End OpenTruncate.

Lemma shape_closed_file e : shape (closed_file e) = shape e.
Proof. unfold closed_file. destruct (usage e - 1 =? 0); reflexivity. Qed.

Lemma oracle_after_alloc_nil s : oracle s = [] -> oracle (after_alloc s) = [].
Proof. intros Ho. cbn. rewrite Ho. reflexivity. Qed.

(** * Properties of the file system *)

Section Roundtrip.
Context `{FcntlFlags}.

(** C1.  Round trip: when a path is opened for writing with truncation
    (and no allocation fails), writing [bytes], closing, and opening the
    path again read-only all succeed; [total] on the new handle is the
    length of [bytes], and a read of at least that many bytes returns
    exactly [bytes]. *)
Theorem C1_write_close_read_roundtrip s fn mw mr bytes h s1 :
  inv s -> oracle s = [] ->
  opens_truncate mw -> opens_read mr ->
  Z.of_nat (length bytes) < 2 ^ 31 ->
  ramdisk_open fn mw s = Ok (h, s1) -> h <> NULL ->
  exists s2 s3 h' s4,
    ramdisk_write h bytes s1 = Ok (Z.of_nat (length bytes), s2)
    /\ ramdisk_close h s2 = Ok (0, s3)
    /\ ramdisk_open fn mr s3 = Ok (h', s4) /\ h' <> NULL
    /\ ramdisk_total h' s4 = Ok (Z.of_nat (length bytes), s4)
    /\ forall n, Z.of_nat (length bytes) <= n < 2 ^ 31 ->
         exists s5,
           ramdisk_read h' n s4
           = Ok ((Z.of_nat (length bytes), bytes), s5).
Proof.
  intros Hinv Ho Htr Hrd Hlen Hopen Hh.
  destruct (open_truncate_success s fn mw h s1 Hinv Htr Ho Hopen Hh)
    as (s0 & f & e0 & Hfn & [Hf Hres] & He0 & Hd0 & Hu0 & _ & Ho0 & Hbk
        & Hroot & -> & ->).
  set (len := Z.of_nat (length bytes)) in *.
  set (e1 := set_usage (usage e0 + 1)
               (set_size 0
                  (set_data (fresh_block rd_blksize)
                     (set_datasize rd_blksize
                        (set_openfor OPENFOR_WRITE e0))))).
  set (d1 := mk_rd_fd f false 0 dirent0 mw).
  set (s1 := opened (after_alloc (after_alloc s0)) f e1 d1).
  assert (Hfd1 : fds s1 !! brk s0 = Some d1) by apply lookup_insert_eq.
  assert (He1 : files s1 !! f = Some e1) by apply lookup_insert_eq.
  assert (Ho1 : oracle s1 = []) by (cbn; rewrite Ho0; reflexivity).
  (* write *)
  assert (Hcap1 : datasize e1
                  = Z.of_nat (length (repeat Byte.x00 (Z.to_nat rd_blksize))))
    by (cbn; rewrite repeat_length; unfold rd_blksize; lia).
  assert (Hfit1 : ptr d1 + Z.of_nat (length bytes) + rd_blksize * 4 < 2 ^ 32)
    by (cbn; unfold rd_blksize; fold len; lia).
  destruct (write_ok s1 (brk s0) bytes d1 e1
              (repeat Byte.x00 (Z.to_nat rd_blksize))
              Hh Hfd1 Hf eq_refl He1 eq_refl eq_refl Hcap1
              ltac:(cbn; lia) Hfit1
              ltac:(intros _; apply next_alloc_nil, Ho1))
    as (s2 & e2 & b2 & Hwrite & Hfiles2 & Hfds2 & Hq2 & Hdirs2 & Hroot2
        & Hrootdir2 & _ & Hbrk2 & Ho2 & Hshape2 & Hisd2 & _ & Hof2 & Hus2
        & Hdata2 & Hcap2 & Hcap2' & Hread2 & _ & Hsize2).
  cbn [ptr d1] in *. fold len in Hwrite, Hfds2, Ho2, Hcap2', Hsize2.
  rewrite Z.add_0_l in *.
  assert (Ho2' : oracle s2 = []).
  { rewrite Ho2. destruct (datasize e1 <? len); [|exact Ho1].
    apply oracle_after_alloc_nil, Ho1. }
  assert (Hsz2 : size e2 = len) by (rewrite Hsize2; cbn; lia).
  assert (Hfit2 : len <= datasize e2).
  { rewrite Hcap2'. destruct (datasize e1 <? len) eqn:E.
    - unfold rd_blksize. lia.
    - apply Z.ltb_ge in E. exact E. }
  (* close *)
  assert (Hfd2 : fds s2 !! brk s0 = Some (set_ptr len d1))
    by (rewrite Hfds2; apply lookup_insert_eq).
  assert (He2 : files s2 !! f = Some e2)
    by (rewrite Hfiles2; apply lookup_insert_eq).
  pose proof (close_ok s2 (brk s0) (set_ptr len d1) e2 Hh Hfd2 Hf He2
                ltac:(rewrite Hus2; cbn; lia)) as Hclose.
  cbn [file set_ptr d1] in Hclose.
  set (e3 := closed_file e2) in *.
  set (s3 := with_queue (filter (fun x => x <> brk s0) (rd_fd_queue s2))
               (with_files (<[f := e3]> (files s2))
                  (with_fds (delete (brk s0) (fds s2)) s2))) in *.
  assert (He3 : files s3 !! f = Some e3) by apply lookup_insert_eq.
  assert (Hopen3 : openfor e3 = OPENFOR_NOTHING).
  { subst e3. unfold closed_file. rewrite Hus2. cbn [usage e1 set_usage].
    rewrite Hu0. reflexivity. }
  destruct (closed_file_fields e2)
    as (Hi3 & _ & _ & Hda3 & Hs3 & Hds3 & _ & _). fold e3 in Hi3, Hda3, Hs3, Hds3.
  (* open for reading *)
  assert (Hres3 : ramdisk_find_path (files s3) (dirs s3) (rootdir s3)
                    (strip_slash fn) false = Ok f).
  { cbn [files dirs rootdir s3 with_queue with_files with_fds].
    rewrite Hdirs2, Hrootdir2, Hfiles2. cbn [files dirs rootdir s1 opened
      with_queue with_files with_fds with_brk after_alloc with_oracle].
    rewrite !insert_insert_eq. rewrite <- Hres.
    symmetry. apply ramdisk_find_path_shape.
    eapply same_shape_insert; [exact He0|].
    subst e3. rewrite shape_closed_file, Hshape2 by exact Hd0.
    unfold shape. cbn. rewrite Hd0. reflexivity. }
  destruct Hrd as [Hrdo Hrdd].
  assert (Hlookup3 : open_lookup (strip_slash fn) mr s3 = Ok (f, s3)).
  { apply open_lookup_found; try assumption.
    - cbn. rewrite Hroot2. exact Hroot.
    - rewrite Hrdd. exact Hres3. }
  assert (Hbk3 : 0 < brk s3) by (cbn; rewrite Hbrk2; cbn; lia).
  assert (Hopen_r : ramdisk_open fn mr s3
            = Ok (brk s3,
                  opened (after_alloc s3) f
                    (set_usage (usage e3 + 1) (set_openfor OPENFOR_READ e3))
                    (mk_rd_fd f false 0 dirent0 mr))).
  { rewrite ramdisk_open_phases, Hrdd. cbn [andb].
    unfold bind. rewrite Hlookup3.
    apply open_handle_read; try assumption.
    - rewrite Hi3, Hisd2. exact Hd0.
    - rewrite Hopen3. discriminate.
    - split; assumption.
    - apply next_alloc_nil. cbn. exact Ho2'. }
  set (e4 := set_usage (usage e3 + 1) (set_openfor OPENFOR_READ e3)) in *.
  set (d4 := mk_rd_fd f false 0 dirent0 mr) in *.
  set (s4 := opened (after_alloc s3) f e4 d4) in *.
  assert (Hh4 : brk s3 <> NULL) by (unfold NULL; lia).
  assert (Hfd4 : fds s4 !! brk s3 = Some d4) by apply lookup_insert_eq.
  assert (He4 : files s4 !! f = Some e4) by apply lookup_insert_eq.
  exists s2, s3, (brk s3), s4.
  split; [rewrite Hwrite, signed32_small by lia; reflexivity|].
  split; [exact Hclose|]. split; [exact Hopen_r|]. split; [exact Hh4|].
  split.
  { rewrite (total_ok s4 (brk s3) d4 e4 Hh4 Hfd4 Hf He4 eq_refl).
    cbn [size e4 set_usage set_openfor]. rewrite Hs3, Hsz2. reflexivity. }
  intros n Hn. eexists.
  rewrite (read_ok s4 (brk s3) d4 e4 Hh4 Hfd4 Hf He4 n eq_refl).
  - cbn [size data ptr e4 d4 set_usage set_openfor].
    rewrite Hs3, Hsz2, Hda3, Hdata2. cbn [block_bytes].
    rewrite Z.sub_0_r, Z.min_r by lia.
    rewrite signed32_small by lia.
    change (Z.to_nat 0) with O. rewrite drop_0.
    subst len. rewrite Nat2Z.id.
    change (Z.to_nat 0) with O in Hread2. rewrite drop_0 in Hread2.
    rewrite Hread2. reflexivity.
  - unfold block_ok. cbn [size data datasize e4 set_usage set_openfor].
    rewrite Hda3, Hdata2, Hs3, Hds3, Hsz2. split; [lia|exact Hcap2].
  - cbn [size ptr e4 d4 set_usage set_openfor]. rewrite Hs3, Hsz2. lia.
  - lia.
  - cbn [size e4 set_usage set_openfor]. rewrite Hs3, Hsz2. lia.
Qed.
End Roundtrip.

(** ** Write and initialisation keep the invariant *)

Lemma live_count_same_file fdm q h d d' a :
  fdm !! h = Some d -> file d' = file d ->
  live_count_of (<[h := d']> fdm) q a = live_count_of fdm q a.
Proof.
  intros Hd Hf. unfold live_count_of. f_equal. f_equal.
  apply filter_ext_elem. intros x _.
  destruct (decide (h = x)) as [<-|Hne].
  - rewrite lookup_insert_eq, Hd. cbn. rewrite Hf. reflexivity.
  - rewrite lookup_insert_ne by exact Hne. reflexivity.
Qed.

Lemma ramdisk_write_inv s h buf r s' :
  inv s -> live s h ->
  (forall fd e, fds s !! h = Some fd -> files s !! file fd = Some e ->
     isdir e = false /\ data e <> DataNull
     /\ ptr fd + Z.of_nat (length buf) + rd_blksize * 4 < 2 ^ 32) ->
  ramdisk_write h buf s = Ok (r, s') -> inv s'.
Proof.
  intros [l Hinv] Hlive Hpre Hwrite. exists l. unfold inv_at in *.
  destruct (inv_core_handle _ _ _ _ _ _ _ _ _ Hinv Hlive)
    as (Hh & fd & e & Hfd & Hf & He & Hp & Hu).
  destruct (Hpre fd e Hfd He) as (Hfile & Hnn & Hfit).
  destruct (dir fd) eqn:Hdir.
  { unfold ramdisk_write in Hwrite. revert Hwrite.
    apply eqb_null in Hh, Hf. go. intros [= <- <-]. exact Hinv. }
  destruct (openfor e =? OPENFOR_WRITE) eqn:Hw.
  2:{ unfold ramdisk_write in Hwrite. revert Hwrite.
      apply eqb_null in Hh, Hf. go. intros [= <- <-]. exact Hinv. }
  apply Z.eqb_eq in Hw.
  destruct (inv_core_node_block _ _ _ _ _ _ _ _ _ _ Hinv He Hfile) as [_ Hblk].
  pose proof Hblk as Hblk'. unfold block_ok in Hblk'.
  destruct (data e) as [|b|d] eqn:Hdata; [congruence| |contradiction].
  destruct Hblk' as [Hsz Hcap].
  assert (Hdone : forall s2 e2 b2,
    files s2 = <[file fd := e2]> (files s) ->
    fds s2 = <[h := set_ptr (ptr fd + Z.of_nat (length buf)) fd]> (fds s) ->
    rd_fd_queue s2 = rd_fd_queue s -> dirs s2 = dirs s ->
    root s2 = root s -> rootdir s2 = rootdir s -> brk s2 = brk s ->
    shape e2 = shape e -> le_prev e2 = le_prev e ->
    openfor e2 = openfor e -> usage e2 = usage e ->
    data e2 = DataBlock b2 -> datasize e2 = Z.of_nat (length b2) ->
    0 <= size e2 <= datasize e2 ->
    inv_core (files s2) (dirs s2) (fds s2) (rd_fd_queue s2)
             (root s2) (rootdir s2) (brk s2) l).
  { intros s2 e2 b2 -> -> -> -> -> -> -> Hsh Hpv Hof Hus Hda Hca Hsi.
    unfold shape in Hsh. injection Hsh as _ Hisd Hnx _.
    eapply (inv_core_update _ _ _ _ _ _ _ _ (file fd) e e2 _ _
              Hinv He Hisd Hnx Hpv).
    - congruence.
    - intros _. unfold block_ok. rewrite Hda. auto.
    - intros a Ha'. apply lookup_insert_is_Some in Ha' as [<-|[_ Ha']];
        apply (inv_fds_lt _ _ _ _ _ _ _ _ Hinv); [rewrite Hfd; eauto|exact Ha'].
    - apply (inv_queue_nodup _ _ _ _ _ _ _ _ Hinv).
    - intros x Hx. destruct (decide (h = x)) as [<-|Hne].
      + rewrite lookup_insert_eq. eexists. split; [reflexivity|].
        cbn. rewrite He. split; [eauto|lia].
      + rewrite lookup_insert_ne by exact Hne.
        apply (inv_queue _ _ _ _ _ _ _ _ Hinv), Hx.
    - intros a _. eapply live_count_same_file; eauto.
    - rewrite (live_count_same_file _ _ _ fd) by eauto.
      eapply lock_ok_fields; [exact Hus|exact Hof|].
      apply (inv_locks _ _ _ _ _ _ _ _ Hinv _ _ He). }
  destruct (datasize e <? ptr fd + Z.of_nat (length buf)) eqn:Hgrow;
    [destruct (next_alloc s) eqn:Ha|].
  - destruct (write_ok s h buf fd e b Hh Hfd Hf Hdir He Hw Hdata Hcap Hp Hfit
                ltac:(intros _; exact Ha))
      as (s2 & e2 & b2 & Hwr & Hfiles2 & Hfds2 & Hq2 & Hdirs2 & Hroot2
          & Hrootdir2 & _ & Hbrk2 & _ & Hsh2 & _ & Hpv2 & Hof2 & Hus2
          & Hdata2 & Hcap2 & Hcap2' & _ & _ & Hsize2).
    rewrite Hwr in Hwrite. injection Hwrite as _ Hs'. subst s'.
    rewrite Hgrow in Hcap2'. apply Z.ltb_lt in Hgrow.
    eapply Hdone; eauto. unfold rd_blksize in *. lia.
  - apply Z.ltb_lt in Hgrow.
    rewrite (write_no_space s h buf fd e Hh Hfd Hf Hdir He Hw Hp Hfit Hgrow Ha)
      in Hwrite.
    injection Hwrite as _ <-. exact Hinv.
  - destruct (write_ok s h buf fd e b Hh Hfd Hf Hdir He Hw Hdata Hcap Hp Hfit)
      as (s2 & e2 & b2 & Hwr & Hfiles2 & Hfds2 & Hq2 & Hdirs2 & Hroot2
          & Hrootdir2 & _ & Hbrk2 & _ & Hsh2 & _ & Hpv2 & Hof2 & Hus2
          & Hdata2 & Hcap2 & Hcap2' & _ & _ & Hsize2).
    { intros Hc. apply Z.ltb_ge in Hgrow. lia. }
    rewrite Hwr in Hwrite. injection Hwrite as _ Hs'. subst s'.
    rewrite Hgrow in Hcap2'. apply Z.ltb_ge in Hgrow.
    eapply Hdone; eauto. lia.
Qed.

Lemma ramdisk_close_inv s h r s' :
  inv s -> live s h -> ramdisk_close h s = Ok (r, s') -> inv s'.
Proof.
  intros [l Hinv] Hlive Hclose.
  destruct (close_live s l h Hinv Hlive) as (fd & e & _ & _ & Hc & Hinv').
  rewrite Hc in Hclose. injection Hclose as _ <-. exists l. exact Hinv'.
Qed.

(** [fs_ramdisk_init] on a fresh system, when no allocation fails. *)
Lemma fs_ramdisk_init_boot : fs_ramdisk_init (boot []) = Ok (tt, st_init).
Proof. reflexivity. Qed.

Lemma st_init_inv : inv st_init.
Proof.
  exists []. unfold inv_at, st_init.
  cbn [files dirs fds rd_fd_queue root rootdir brk].
  constructor.
  - lia.
  - intros a Ha. apply lookup_insert_is_Some in Ha as [<-|[_ Ha]]; [lia|].
    rewrite lookup_empty in Ha. destruct Ha; discriminate.
  - intros a Ha. apply lookup_insert_is_Some in Ha as [<-|[_ Ha]]; [lia|].
    rewrite lookup_empty in Ha. destruct Ha; discriminate.
  - intros a Ha. rewrite lookup_empty in Ha. destruct Ha; discriminate.
  - eexists. rewrite lookup_insert_eq. repeat split.
  - exists NULL. rewrite lookup_insert_eq. split; [reflexivity|constructor].
  - apply NoDup_singleton.
  - intros a Ha. apply lookup_insert_is_Some in Ha as [<-|[_ Ha]]; [left|].
    rewrite lookup_empty in Ha. destruct Ha; discriminate.
  - intros a e Ha. inversion Ha.
  - intros a e He. destruct (decide (2 = a)) as [<-|Hne].
    + rewrite lookup_insert_eq in He. injection He as <-.
      split; [reflexivity|]. left. split; reflexivity.
    + rewrite lookup_insert_ne, lookup_empty in He by exact Hne. discriminate.
  - constructor.
  - intros h Hh. inversion Hh.
Qed.

(** ** Opening a path that resolves *)

Section OpenResolved.
Context `{FcntlFlags}.

Lemma open_handle_nomem s f e mode :
  f <> NULL -> files s !! f = Some e ->
  isdir e && negb (mode_dir mode) = false ->
  openfor e <> OPENFOR_WRITE -> next_alloc s = false ->
  open_handle f mode s
  = Ok (NULL, with_errno (Some ENOMEM) (after_alloc s)).
Proof.
  intros Hf He Hd Hw Ha. unfold mode_dir in Hd.
  apply eqb_null in Hf. apply Z.eqb_neq in Hw.
  unfold open_handle. go. rewrite Hd. go.
  change (NULL =? NULL) with true. go. reflexivity.
Qed.

Variables (s : state) (fn : string) (f : Z) (e : rd_file).
Hypothesis Hroot : root s <> NULL.
Hypothesis Hbrk : 0 < brk s.
Hypothesis Hfn : strip_slash fn <> EmptyString.
Hypothesis Hres : resolves s (strip_slash fn) f.
Hypothesis He : files s !! f = Some e.
Hypothesis Hfile : isdir e = false.

Lemma ramdisk_open_file mode :
  mode_dir mode = false ->
  ramdisk_open fn mode s = open_handle f mode s.
Proof.
  intros Hnd. destruct Hres as [Hf Hr].
  rewrite ramdisk_open_phases, Hnd. cbn [andb]. unfold bind.
  rewrite (open_lookup_found s (strip_slash fn) mode f); auto.
  rewrite Hnd. exact Hr.
Qed.

Lemma ramdisk_open_read mode :
  openfor e <> OPENFOR_WRITE -> opens_read mode -> next_alloc s = true ->
  ramdisk_open fn mode s
  = Ok (brk s,
        opened (after_alloc s) f
          (set_usage (usage e + 1) (set_openfor OPENFOR_READ e))
          (mk_rd_fd f false 0 dirent0 mode)).
Proof.
  intros Hw Hrd Ha. rewrite ramdisk_open_file by apply Hrd.
  apply (open_handle_read s f e mode (proj1 Hres) Hbrk He Hfile Hw Hrd Ha).
Qed.

Lemma ramdisk_open_busy mode :
  openfor e = OPENFOR_READ -> opens_write mode -> next_alloc s = true ->
  ramdisk_open fn mode s
  = Ok (NULL,
        with_fds (<[brk s := mk_rd_fd f false 0 dirent0 mode]> (fds s))
          (with_brk (brk s + 1) (after_alloc s))).
Proof.
  intros Hr Hwr Ha. rewrite ramdisk_open_file by apply Hwr.
  apply (open_handle_busy s f e mode (proj1 Hres) Hbrk He Hfile Hr Hwr Ha).
Qed.

Lemma ramdisk_open_locked mode :
  openfor e = OPENFOR_WRITE -> mode_dir mode = false ->
  ramdisk_open fn mode s = Ok (NULL, s).
Proof.
  intros Hw Hnd. rewrite ramdisk_open_file by exact Hnd.
  apply (open_handle_locked s f e mode (proj1 Hres) He);
    [rewrite Hfile; reflexivity|exact Hw].
Qed.
End OpenResolved.

Section OpenRead.
Context `{FcntlFlags}.

(** A read-only open that succeeds found an existing file and changed
    nothing but its lock and the handle table. *)
Lemma ramdisk_open_read_success s fn mode h s1 :
  inv s -> opens_read mode ->
  ramdisk_open fn mode s = Ok (h, s1) -> h <> NULL ->
  exists f e,
    strip_slash fn <> EmptyString
    /\ resolves s (strip_slash fn) f
    /\ files s !! f = Some e /\ isdir e = false
    /\ openfor e <> OPENFOR_WRITE
    /\ h = brk s
    /\ s1 = opened (after_alloc s) f
              (set_usage (usage e + 1) (set_openfor OPENFOR_READ e))
              (mk_rd_fd f false 0 dirent0 mode).
Proof.
  intros [l Hinv] Hrd Hopen Hh. pose proof Hrd as [Hro Hnd].
  rewrite ramdisk_open_phases in Hopen.
  rewrite Hnd in Hopen. cbn [andb] in Hopen. unfold bind in Hopen.
  assert (Hmode : mode_dir mode && negb (mode_rdonly mode) = false)
    by (rewrite Hnd; reflexivity).
  pose proof (open_lookup_inv s l (strip_slash fn) mode Hinv Hmode) as Hlk.
  destruct (open_lookup (strip_slash fn) mode s) as [[f s0]|]; [|contradiction].
  destruct Hlk as (l0 & Hinv0 & _ & _ & _ & Hsame & Hcase).
  pose proof (inv_brk _ _ _ _ _ _ _ _ Hinv0) as Hbk.
  destruct (inv_root _ _ _ _ _ _ _ _ Hinv0) as (r0 & Hr0 & Hr0d & _).
  assert (Hroot : root s0 <> NULL).
  { pose proof (inv_files_lt _ _ _ _ _ _ _ _ Hinv0 _
                  ltac:(rewrite Hr0; eauto)). unfold NULL. lia. }
  destruct Hcase as [->|[[_ ->]|(Hfn & _ & Hres & Hin)]].
  - unfold open_handle in Hopen. change (NULL =? NULL) with true in Hopen.
    injection Hopen as <- _. congruence.
  - unfold open_handle, bind, get_file, lift, deref_file in Hopen.
    rewrite (eqb_null _ Hroot), Hr0, Hr0d in Hopen.
    unfold mode_dir in Hnd. rewrite Hnd in Hopen. cbn in Hopen.
    injection Hopen as <- _. congruence.
  - pose proof (Hsame Hro (proj1 Hres)) as Hs0. subst s0. clear Hsame.
    destruct (inv_core_elem _ _ _ _ _ _ _ _ _ Hinv0 Hin)
      as (Hf & e & He & Hd & Hb).
    destruct (Z.eq_dec (openfor e) OPENFOR_WRITE) as [Hw|Hw].
    { rewrite (open_handle_locked s f e mode Hf He) in Hopen;
        [|rewrite Hd; reflexivity|exact Hw].
      injection Hopen as <- _. congruence. }
    destruct (next_alloc s) eqn:Ha.
    + rewrite (open_handle_read s f e mode Hf Hbk He Hd Hw Hrd Ha) in Hopen.
      injection Hopen as <- <-. exists f, e.
      split; [exact Hfn|]. split; [exact Hres|]. split; [exact He|].
      split; [exact Hd|]. split; [exact Hw|]. split; reflexivity.
    + rewrite (open_handle_nomem s f e mode Hf He) in Hopen;
        [|rewrite Hd; reflexivity|exact Hw|exact Ha].
      injection Hopen as <- _. congruence.
Qed.
End OpenRead.

(** ** Unlink never crashes on a well-formed state *)

Lemma chain_links m prev a l x e :
  chain m prev a l -> x ∈ l -> m !! x = Some e ->
  (le_next e = NULL \/ is_Some (m !! le_next e))
  /\ (le_prev e = prev
      \/ exists p, le_prev e = LinkNext p /\ is_Some (m !! p)).
Proof.
  induction 1 as [|prev a e0 l Ha He0 Hp Hc IH]; intros Hx He.
  - inversion Hx.
  - apply elem_of_cons in Hx as [->|Hx].
    + replace e0 with e in * by congruence. split; [|left; exact Hp].
      destruct (chain_inv _ _ _ _ Hc) as [[-> _]|(_ & e1 & l1 & _ & -> & _)];
        eauto.
    + destruct (IH Hx He) as [Hn Hpv]. split; [exact Hn|]. right.
      destruct Hpv as [Hpv|Hpv]; [|exact Hpv].
      exists a. split; [exact Hpv|]. rewrite He0. eauto.
Qed.

Lemma ramdisk_unlink_total s fn :
  inv s -> exists r s', ramdisk_unlink fn s = Ok (r, s').
Proof.
  intros [l Hinv]. unfold inv_at in Hinv.
  destruct (inv_core_find_path _ _ _ _ _ _ _ _ fn false Hinv)
    as (r & Hr & Hcase).
  destruct (inv_chain _ _ _ _ _ _ _ _ Hinv) as (first & Hfirst & Hchain).
  unfold ramdisk_unlink, find_path. go. rewrite Hr. go.
  destruct Hcase as [->|Hin].
  { change (NULL =? NULL) with true. go. eauto. }
  destruct (inv_core_elem _ _ _ _ _ _ _ _ _ Hinv Hin) as (Hr0 & e & He & _).
  rewrite (eqb_null _ Hr0). go.
  destruct (nonzero (usage e)); go; [eauto|].
  destruct (chain_links _ _ _ _ _ _ Hchain Hin He) as [Hnext Hprev].
  unfold LIST_REMOVE. go.
  destruct (le_next e =? NULL) eqn:Hn; go.
  - destruct Hprev as [->|(p & -> & [ep Hep])]; go; eauto.
  - destruct Hnext as [Hnext|[en Hen]];
      [rewrite Hnext in Hn; discriminate|].
    go.
    destruct Hprev as [->|(p & -> & [ep Hep])]; go; [eauto|].
    destruct (decide (le_next e = p)) as [Heq|Hne].
    + rewrite Heq. go. eauto.
    + go. eauto.
Qed.

(** ** Attach and detach *)

Lemma inv_set_block s l f e e' :
  inv_at s l -> files s !! f = Some e -> isdir e = false ->
  isdir e' = isdir e -> le_next e' = le_next e -> le_prev e' = le_prev e ->
  usage e' = usage e -> openfor e' = openfor e -> block_ok e' ->
  inv_at (with_files (<[f := e']> (files s)) s) l.
Proof.
  intros Hinv He Hd Hi Hn Hp Hu Ho Hb. unfold inv_at in *.
  cbn [files dirs fds rd_fd_queue root rootdir brk with_files].
  eapply inv_core_update; eauto.
  - congruence.
  - apply (inv_fds_lt _ _ _ _ _ _ _ _ Hinv).
  - apply (inv_queue_nodup _ _ _ _ _ _ _ _ Hinv).
  - apply (inv_queue _ _ _ _ _ _ _ _ Hinv).
  - eapply lock_ok_fields; eauto.
    apply (inv_locks _ _ _ _ _ _ _ _ Hinv _ _ He).
Qed.

Section Bridge.
Context `{FcntlFlags}.

Lemma detach_open_fails s fn s1 :
  ramdisk_open fn O_RDONLY s = Ok (NULL, s1) ->
  fs_ramdisk_detach fn s = Ok ((-1, None), s1).
Proof.
  intros Hopen. unfold fs_ramdisk_detach. unfold bind at 1.
  rewrite Hopen. reflexivity.
Qed.

Lemma attach_open_fails s fn obj sz s1 :
  ramdisk_open fn (Z.lor O_WRONLY O_TRUNC) s = Ok (NULL, s1) ->
  fs_ramdisk_attach fn obj sz s = Ok (-1, s1).
Proof.
  intros Hopen. unfold fs_ramdisk_attach. unfold bind at 1.
  rewrite Hopen. reflexivity.
Qed.

Lemma attach_after_open s fn obj sz h s1 :
  inv s ->
  ramdisk_open fn (Z.lor O_WRONLY O_TRUNC) s = Ok (h, s1) -> h <> NULL ->
  exists s', fs_ramdisk_attach fn obj sz s = Ok (0, s').
Proof.
  intros Hinv Hopen Hh.
  destruct (ramdisk_open_inv _ _ _ _ _ Hinv Hopen) as [[l Hinv1] Hlive].
  destruct Hlive as [->|[Hlive _]]; [congruence|].
  destruct (inv_core_handle _ _ _ _ _ _ _ _ _ Hinv1 Hlive)
    as (_ & fd & e & Hfd & Hf & He & Hp & Hu).
  unfold fs_ramdisk_attach. unfold bind at 1. rewrite Hopen.
  rewrite (eqb_null _ Hh). go. rewrite !insert_insert_eq.
  match goal with
  | |- context [ramdisk_close h ?st] =>
      rewrite (close_ok st h fd
                 (set_size (wrap32 sz)
                    (set_datasize (wrap32 sz) (set_data (DataBlock obj) e))))
  end; try assumption.
  - eauto.
  - apply lookup_insert_eq.
Qed.

Lemma detach_after_open s fn h s1 :
  inv s -> opens_read O_RDONLY ->
  ramdisk_open fn O_RDONLY s = Ok (h, s1) -> h <> NULL ->
  exists out s', fs_ramdisk_detach fn s = Ok ((0, Some out), s').
Proof.
  intros Hinv Hrd Hopen Hh.
  destruct (ramdisk_open_inv _ _ _ _ _ Hinv Hopen) as [[l Hinv1] Hlive].
  destruct Hlive as [->|[Hlive _]]; [congruence|].
  destruct (ramdisk_open_read_success _ _ _ _ _ Hinv Hrd Hopen Hh)
    as (f & e & Hfn & Hres & He & Hd & Hw & Hhb & Hs1).
  set (e1 := set_usage (usage e + 1) (set_openfor OPENFOR_READ e)) in *.
  set (d1 := mk_rd_fd f false 0 dirent0 O_RDONLY) in *.
  assert (Hfd1 : fds s1 !! h = Some d1)
    by (rewrite Hs1, Hhb; apply lookup_insert_eq).
  assert (He1 : files s1 !! f = Some e1)
    by (rewrite Hs1; apply lookup_insert_eq).
  set (e2 := set_size 0 (set_datasize 0 (set_data DataNull e1))).
  assert (Hinv2 : inv_at (with_files (<[f := e2]> (files s1)) s1) l).
  { eapply inv_set_block; eauto; reflexivity. }
  destruct (close_live _ l h Hinv2 Hlive)
    as (fd' & e' & _ & _ & Hclose & Hinv3).
  destruct (ramdisk_unlink_total _ fn (ex_intro _ l Hinv3))
    as (r & s' & Hunlink).
  unfold fs_ramdisk_detach. unfold bind at 1. rewrite Hopen.
  rewrite (eqb_null _ Hh). go. cbn [file d1]. go.
  rewrite !insert_insert_eq. fold e2.
  match goal with
  | |- context [ramdisk_close h ?st] =>
      change st with (with_files (<[f:=e2]> (files s1)) s1)
  end.
  rewrite Hclose. rewrite Hunlink. eauto.
Qed.

Lemma detach_not_found s fn :
  inv s -> opens_read O_RDONLY ->
  strip_slash fn <> EmptyString ->
  ramdisk_find_path (files s) (dirs s) (rootdir s) (strip_slash fn) false
  = Ok NULL ->
  fs_ramdisk_detach fn s = Ok ((-1, None), with_errno (Some ENOENT) s).
Proof.
  intros [l Hinv] [Hro Hnd] Hfn Hnone.
  apply detach_open_fails.
  destruct (inv_root _ _ _ _ _ _ _ _ Hinv) as (r0 & Hr0 & _).
  assert (Hroot : (root s =? NULL) = false).
  { pose proof (inv_files_lt _ _ _ _ _ _ _ _ Hinv _
                  ltac:(rewrite Hr0; eauto)).
    apply Z.eqb_neq. unfold NULL. lia. }
  rewrite ramdisk_open_phases, Hnd. cbn [andb].
  unfold mode_rdonly, mode_dir in *.
  unfold open_lookup, find_path. go.
  destruct (strip_slash fn) as [|c fn'] eqn:Hstrip; [congruence|].
  go. rewrite Hnone. go. change (NULL =? NULL) with true. go.
  unfold open_handle. change (NULL =? NULL) with true. reflexivity.
Qed.
End Bridge.

(** ** The example states are well-formed *)

Lemma kos_opens_read : opens_read (H := kos_fcntl) O_RDONLY.
Proof. split; reflexivity. Qed.

Lemma kos_opens_truncate :
  opens_truncate (H := kos_fcntl) (Z.lor O_WRONLY O_TRUNC).
Proof. repeat split. Qed.

Lemma kos_opens_write : opens_write (H := kos_fcntl) O_WRONLY.
Proof. split; reflexivity. Qed.

Lemma kos_flags_sane : flags_sane (H := kos_fcntl).
Proof. split; [exact kos_opens_read|exact kos_opens_truncate]. Qed.

Lemma st_writing_run :
  ramdisk_open (H := kos_fcntl) "/a" (Z.lor O_WRONLY O_TRUNC) st_init
  = Ok (4, st_writing).
Proof. vm_compute. reflexivity. Qed.

Lemma st_written_run :
  ramdisk_write 4 ex_bytes st_writing = Ok (3, st_written).
Proof. vm_compute. reflexivity. Qed.

Lemma st_file_run : ramdisk_close 4 st_written = Ok (0, st_file).
Proof. vm_compute. reflexivity. Qed.

Lemma st_reading_run :
  ramdisk_open (H := kos_fcntl) "/a" O_RDONLY st_file = Ok (5, st_reading).
Proof. vm_compute. reflexivity. Qed.

Lemma st_wronly_run :
  ramdisk_open (H := kos_fcntl) "/a" O_WRONLY st_file = Ok (5, st_wronly).
Proof. vm_compute. reflexivity. Qed.

Lemma st_writing_inv : inv st_writing.
Proof.
  exact (proj1 (ramdisk_open_inv _ _ _ _ _ st_init_inv st_writing_run)).
Qed.

Lemma st_writing_live : live st_writing 4.
Proof.
  destruct (proj2 (ramdisk_open_inv _ _ _ _ _ st_init_inv st_writing_run))
    as [Hc|[Hl _]]; [discriminate|exact Hl].
Qed.

Lemma st_written_inv : inv st_written.
Proof.
  eapply ramdisk_write_inv;
    [exact st_writing_inv|exact st_writing_live| |exact st_written_run].
  intros fd e Hfd He. vm_compute in Hfd. injection Hfd as <-.
  vm_compute in He. injection He as <-.
  split; [reflexivity|]. split; [discriminate|reflexivity].
Qed.

Lemma st_written_live : live st_written 4.
Proof.
  unfold live. replace (rd_fd_queue st_written) with [4]; [left|].
  vm_compute. reflexivity.
Qed.

Lemma st_file_inv : inv st_file.
Proof.
  exact (ramdisk_close_inv _ _ _ _ st_written_inv st_written_live st_file_run).
Qed.

Lemma st_reading_inv : inv st_reading.
Proof.
  exact (proj1 (ramdisk_open_inv _ _ _ _ _ st_file_inv st_reading_run)).
Qed.

Lemma st_file_resolves : resolves st_file (strip_slash "/a") 3.
Proof. split; [discriminate|]. vm_compute. reflexivity. Qed.

Lemma st_reading_resolves : resolves st_reading (strip_slash "/a") 3.
Proof. split; [discriminate|]. vm_compute. reflexivity. Qed.

(** ** Opening a file never crashes on a well-formed state *)

Section OpenTotal.
Context `{FcntlFlags}.

Lemma ramdisk_open_total s fn mode :
  inv s -> mode_dir mode = false ->
  mode_rdonly mode = true \/ mode_write mode = true ->
  exists h s1, ramdisk_open fn mode s = Ok (h, s1).
Proof.
  intros [l Hinv] Hnd Hknown.
  assert (Hmode : mode_dir mode && negb (mode_rdonly mode) = false)
    by (rewrite Hnd; reflexivity).
  rewrite ramdisk_open_phases, Hmode. unfold bind.
  pose proof (open_lookup_inv s l (strip_slash fn) mode Hinv Hmode) as Hlk.
  destruct (open_lookup (strip_slash fn) mode s) as [[f s0]|]; [|contradiction].
  destruct Hlk as (l0 & Hinv0 & _ & _ & _ & _ & Hcase).
  assert (Hf : f = NULL \/ is_Some (files s0 !! f)).
  { destruct Hcase as [->|[[_ ->]|(_ & _ & _ & Hin)]]; [auto| |].
    - right. destruct (inv_root _ _ _ _ _ _ _ _ Hinv0) as (r0 & -> & _). eauto.
    - right. destruct (inv_core_elem _ _ _ _ _ _ _ _ _ Hinv0 Hin)
        as (_ & e & -> & _). eauto. }
  pose proof (open_handle_inv s0 l0 f mode Hinv0 Hf Hmode) as Hpost.
  destruct (open_handle f mode s0) as [[h s1]|]; [eauto|].
  exfalso. destruct Hpost as [Hc|[Hc1 Hc2]]; [congruence|].
  destruct Hknown; congruence.
Qed.
End OpenTotal.

(** C1, at a concrete input: ["/a"] on the freshly initialised file
    system, with three bytes. *)
Lemma C1_roundtrip_witness :
  exists s2 s3 h' s4,
    ramdisk_write 4 ex_bytes st_writing = Ok (3, s2)
    /\ ramdisk_close 4 s2 = Ok (0, s3)
    /\ ramdisk_open (H := kos_fcntl) "/a" O_RDONLY s3 = Ok (h', s4)
    /\ h' <> NULL
    /\ ramdisk_total h' s4 = Ok (3, s4)
    /\ forall n, 3 <= n < 2 ^ 31 ->
         exists s5, ramdisk_read h' n s4 = Ok ((3, ex_bytes), s5).
Proof.
  apply (C1_write_close_read_roundtrip (H := kos_fcntl) st_init "/a"
           (Z.lor O_WRONLY O_TRUNC) O_RDONLY ex_bytes 4 st_writing).
  - exact st_init_inv.
  - reflexivity.
  - exact kos_opens_truncate.
  - exact kos_opens_read.
  - reflexivity.
  - exact st_writing_run.
  - discriminate.
Defined.

(** C2.  [ramdisk_readdir] at the end of a directory does not report "no
    more entries": it follows the null cursor.  On the empty root
    directory the first call crashes; on a directory with one file the
    first call returns the file and the second crashes. *)
Theorem C2_readdir_end_of_directory_crashes :
  ramdisk_readdir (H := kos_fcntl) 3 st_listing_empty
  = Crash (BadPointer NULL)
  /\ exists ent s',
       ramdisk_readdir (H := kos_fcntl) 5 st_listing = Ok (Some ent, s')
       /\ d_name ent = "a"%string
       /\ ramdisk_readdir (H := kos_fcntl) 5 s' = Crash (BadPointer NULL).
Proof.
  split; [vm_compute; reflexivity|].
  eexists _, _. split; [vm_compute; reflexivity|].
  split; vm_compute; reflexivity.
Qed.

(** C3.  [ramdisk_stat] and [ramdisk_fstat] report the capacity of the
    data block, not the size of the contents: for the three-byte file
    ["/a"], whose [total] is 3, both give [st_size] 1024. *)
Theorem C3_stat_reports_capacity :
  ramdisk_total 5 st_reading = Ok (3, st_reading)
  /\ (exists st s',
        ramdisk_stat (H := posix_stat) "/a" st_file = Ok ((0, Some st), s')
        /\ st_size st = 1024)
  /\ (exists st s',
        ramdisk_fstat (H := posix_stat) 5 st_reading = Ok ((0, Some st), s')
        /\ st_size st = 1024).
Proof.
  split; [vm_compute; reflexivity|].
  split; eexists _, _; (split; [vm_compute; reflexivity|reflexivity]).
Qed.

(** C4.  An open that fails because the file is held returns null and
    leaves [errno] as it was: no [EBUSY] is stored.  Here [errno] is clear
    before and after a read-open and a write-open against a writer, and a
    write-open against a reader. *)
Theorem C4_busy_open_sets_no_errno :
  errno st_writing = None
  /\ ramdisk_open (H := kos_fcntl) "/a" O_RDONLY st_writing
     = Ok (NULL, st_writing)
  /\ ramdisk_open (H := kos_fcntl) "/a" O_WRONLY st_writing
     = Ok (NULL, st_writing)
  /\ errno st_reading = None
  /\ exists s',
       ramdisk_open (H := kos_fcntl) "/a" O_WRONLY st_reading = Ok (NULL, s')
       /\ errno s' = None.
Proof.
  split; [reflexivity|].
  split; [vm_compute; reflexivity|].
  split; [vm_compute; reflexivity|].
  split; [reflexivity|].
  eexists. split; [vm_compute; reflexivity|reflexivity].
Qed.

(** C5.  [ramdisk_close] on the null handle stores [EBADF] but returns 0,
    the success value, in every state. *)
Theorem C5_close_null_returns_zero :
  forall s, ramdisk_close NULL s = Ok (0, with_errno (Some EBADF) s).
Proof. intros s. reflexivity. Qed.

(** C6.  Detaching ["/a"] while a reader holds it returns 0, the success
    value, although the unlink step inside it has failed with [EBUSY]:
    the block and the size have been handed out, the file is still in the
    directory with a null block and size and capacity 0, and the reader's
    handle is still registered, its cursor where it was.  So a detach of
    a file that other handles hold does not report failure. *)
Theorem C6_detach_of_held_file_returns_success :
  usage (the_file st_reading 3) = 1
  /\ (exists s',
        fs_ramdisk_detach (H := kos_fcntl) "/a" st_reading
        = Ok ((0, Some (data (the_file st_reading 3), 3)), s')
        /\ errno s' = Some EBUSY
        /\ resolves s' (strip_slash "/a") 3
        /\ data (the_file s' 3) = DataNull
        /\ size (the_file s' 3) = 0 /\ datasize (the_file s' 3) = 0
        /\ usage (the_file s' 3) = 1
        /\ rd_fd_queue s' = [5]
        /\ fds s' !! 5 = fds st_reading !! 5)
  /\ ~ detach_fails_when_held (H := kos_fcntl).
Proof.
  split; [reflexivity|].
  split.
  { eexists. split; [vm_compute; reflexivity|].
    split; [reflexivity|].
    split; [split; [discriminate|vm_compute; reflexivity]|].
    repeat split; vm_compute; reflexivity. }
  intros Hclaim.
  destruct (Hclaim st_reading "/a"%string 3 (the_file st_reading 3)
              st_reading_inv st_reading_resolves
              ltac:(vm_compute; reflexivity) ltac:(reflexivity))
    as (out & s' & Hd).
  vm_compute in Hd. discriminate.
Qed.

Section BridgeClaim.
Context `{FcntlFlags}.

(** X29.  Attach and detach return -1 exactly when the open they start
    with returns null, and then leave the state as that open left it; a
    detach of a path that does not exist fails with [ENOENT].  Once the
    open has returned a handle they return 0. *)
Theorem X29_bridge_fails_with_its_open s fn obj sz :
  inv s -> flags_sane ->
  (exists h s1,
     ramdisk_open fn O_RDONLY s = Ok (h, s1)
     /\ if h =? NULL
        then fs_ramdisk_detach fn s = Ok ((-1, None), s1)
        else exists out s',
               fs_ramdisk_detach fn s = Ok ((0, Some out), s'))
  /\ (exists h s1,
        ramdisk_open fn (Z.lor O_WRONLY O_TRUNC) s = Ok (h, s1)
        /\ if h =? NULL
           then fs_ramdisk_attach fn obj sz s = Ok (-1, s1)
           else exists s', fs_ramdisk_attach fn obj sz s = Ok (0, s'))
  /\ (strip_slash fn <> EmptyString ->
      ramdisk_find_path (files s) (dirs s) (rootdir s)
                        (strip_slash fn) false = Ok NULL ->
      fs_ramdisk_detach fn s
      = Ok ((-1, None), with_errno (Some ENOENT) s)).
Proof.
  intros Hinv [Hrd Htr]. split; [|split].
  - destruct (ramdisk_open_total s fn O_RDONLY Hinv (proj2 Hrd)
                (or_introl (proj1 Hrd))) as (h & s1 & Hopen).
    exists h, s1. split; [exact Hopen|].
    destruct (h =? NULL) eqn:Hh.
    + apply Z.eqb_eq in Hh. subst h. apply detach_open_fails, Hopen.
    + apply Z.eqb_neq in Hh. eapply detach_after_open; eauto.
  - destruct Htr as [Hwr _].
    destruct (ramdisk_open_total s fn (Z.lor O_WRONLY O_TRUNC) Hinv
                (proj2 Hwr) (or_intror (proj1 Hwr))) as (h & s1 & Hopen).
    exists h, s1. split; [exact Hopen|].
    destruct (h =? NULL) eqn:Hh.
    + apply Z.eqb_eq in Hh. subst h. apply attach_open_fails, Hopen.
    + apply Z.eqb_neq in Hh. eapply attach_after_open; eauto.
  - intros Hfn Hnone. apply detach_not_found; assumption.
Qed.
End BridgeClaim.

(** X29, at a concrete input: ["/a"] while a reader holds it. *)
Lemma X29_bridge_witness :
  (exists h s1,
     ramdisk_open (H := kos_fcntl) "/a" O_RDONLY st_reading = Ok (h, s1)
     /\ if h =? NULL
        then fs_ramdisk_detach "/a" st_reading = Ok ((-1, None), s1)
        else exists out s',
               fs_ramdisk_detach "/a" st_reading = Ok ((0, Some out), s'))
  /\ (exists h s1,
        ramdisk_open (H := kos_fcntl) "/a" (Z.lor O_WRONLY O_TRUNC)
                     st_reading = Ok (h, s1)
        /\ if h =? NULL
           then fs_ramdisk_attach "/a" ex_bytes 3 st_reading = Ok (-1, s1)
           else exists s',
                  fs_ramdisk_attach "/a" ex_bytes 3 st_reading = Ok (0, s'))
  /\ (strip_slash "/a" <> EmptyString ->
      ramdisk_find_path (files st_reading) (dirs st_reading)
                        (rootdir st_reading) (strip_slash "/a") false
      = Ok NULL ->
      fs_ramdisk_detach (H := kos_fcntl) "/a" st_reading
      = Ok ((-1, None), with_errno (Some ENOENT) st_reading)).
Proof.
  apply (X29_bridge_fails_with_its_open (H := kos_fcntl) st_reading "/a"
           ex_bytes 3).
  - exact st_reading_inv.
  - exact kos_flags_sane.
Defined.

(** C7.  A write through a valid handle of a write-locked file can follow
    a null pointer.  When memory runs out while ["/a"] is opened with
    [O_WRONLY | O_TRUNC], the open still returns a handle, of a file whose
    block is null and whose capacity reads 1024; a write of one byte
    through it neither grows the block nor fails with [ENOSPC], it copies
    to the null pointer. *)
Theorem C7_write_after_failed_truncate_crashes :
  ramdisk_open (H := kos_fcntl) "/a" (Z.lor O_WRONLY O_TRUNC)
               (with_oracle [true; false] st_file)
  = Ok (5, st_trunc_nomem)
  /\ valid_handle st_trunc_nomem 5 (the_fd st_trunc_nomem 5)
  /\ dir (the_fd st_trunc_nomem 5) = false
  /\ file (the_fd st_trunc_nomem 5) = 3
  /\ ptr (the_fd st_trunc_nomem 5) = 0
  /\ openfor (the_file st_trunc_nomem 3) = OPENFOR_WRITE
  /\ data (the_file st_trunc_nomem 3) = DataNull
  /\ datasize (the_file st_trunc_nomem 3) = 1024
  /\ ramdisk_write 5 [Byte.x48] st_trunc_nomem = Crash (BadPointer NULL).
Proof.
  split; [vm_compute; reflexivity|].
  split.
  { split; [discriminate|]. split; vm_compute; [reflexivity|discriminate]. }
  repeat split; vm_compute; reflexivity.
Qed.

(** X30.  A write through a valid handle of a write-locked file whose block
    is [b]: when [cursor + length] exceeds the capacity and the
    allocation fails, the write returns -1 with [ENOSPC] and leaves files
    and handles untouched; otherwise it succeeds, the capacity is
    [cursor + length + 4 * 1024] if the block had to grow and unchanged if
    not, the bytes are at the cursor, the bytes before the cursor are
    kept, the cursor has advanced by the length, and the size is the
    larger of the old size and the new cursor. *)
Theorem X30_write_grows_or_fails_cleanly s h buf fd e b :
  h <> NULL -> fds s !! h = Some fd -> file fd <> NULL -> dir fd = false ->
  files s !! file fd = Some e -> openfor e = OPENFOR_WRITE ->
  data e = DataBlock b -> datasize e = Z.of_nat (length b) ->
  0 <= ptr fd ->
  ptr fd + Z.of_nat (length buf) + rd_blksize * 4 < 2 ^ 32 ->
  let need := ptr fd + Z.of_nat (length buf) in
  (datasize e < need -> next_alloc s = false ->
   exists s',
     ramdisk_write h buf s = Ok (-1, s')
     /\ errno s' = Some ENOSPC
     /\ files s' = files s /\ fds s' = fds s)
  /\ ((datasize e < need -> next_alloc s = true) ->
      exists s' e' b',
        ramdisk_write h buf s = Ok (signed32 (Z.of_nat (length buf)), s')
        /\ files s' = <[file fd := e']> (files s)
        /\ fds s' = <[h := set_ptr need fd]> (fds s)
        /\ data e' = DataBlock b'
        /\ datasize e' = Z.of_nat (length b')
        /\ datasize e' = (if datasize e <? need
                          then need + 4 * 1024 else datasize e)
        /\ take (length buf) (drop (Z.to_nat (ptr fd)) b') = buf
        /\ (ptr fd <= datasize e ->
            take (Z.to_nat (ptr fd)) b' = take (Z.to_nat (ptr fd)) b)
        /\ size e' = Z.max (size e) need).
Proof.
  intros Hh Hfd Hf Hd He Hw Hdata Hcap Hp Hfit need. split.
  - intros Hgrow Ha. eexists. split.
    + apply (write_no_space s h buf fd e Hh Hfd Hf Hd He Hw Hp Hfit Hgrow Ha).
    + repeat split.
  - intros Ha.
    destruct (write_ok s h buf fd e b Hh Hfd Hf Hd He Hw Hdata Hcap Hp Hfit Ha)
      as (s' & e' & b' & Hwr & Hfiles & Hfds & _ & _ & _ & _ & _ & _ & _ & _
          & _ & _ & _ & _ & Hda & Hca & Hca' & Hrd & Hpre & Hsz).
    exists s', e', b'. unfold rd_blksize in Hca'.
    replace (need + 4 * 1024) with (need + 1024 * 4) by lia.
    auto 12.
Qed.

(** X30, at a concrete input: 2000 bytes written to the freshly truncated
    ["/a"], whose block has 1024 bytes. *)
Lemma X30_write_witness :
  let buf := repeat Byte.xff 2000 in
  let fd := the_fd st_writing 4 in
  let e := the_file st_writing 3 in
  (datasize e < 2000 -> next_alloc st_writing = false ->
   exists s',
     ramdisk_write 4 buf st_writing = Ok (-1, s')
     /\ errno s' = Some ENOSPC
     /\ files s' = files st_writing /\ fds s' = fds st_writing)
  /\ ((datasize e < 2000 -> next_alloc st_writing = true) ->
      exists s' e' b',
        ramdisk_write 4 buf st_writing = Ok (signed32 2000, s')
        /\ files s' = <[3 := e']> (files st_writing)
        /\ fds s' = <[4 := set_ptr 2000 fd]> (fds st_writing)
        /\ data e' = DataBlock b'
        /\ datasize e' = Z.of_nat (length b')
        /\ datasize e' = 2000 + 4 * 1024
        /\ take 2000 (drop 0 b') = buf
        /\ (0 <= datasize e -> take 0 b' = take 0 (repeat Byte.x00 1024))
        /\ size e' = 2000).
Proof.
  apply (X30_write_grows_or_fails_cleanly st_writing 4 (repeat Byte.xff 2000)
           (the_fd st_writing 4) (the_file st_writing 3)
           (repeat Byte.x00 1024)).
  - discriminate.
  - vm_compute. reflexivity.
  - discriminate.
  - reflexivity.
  - vm_compute. reflexivity.
  - reflexivity.
  - vm_compute. reflexivity.
  - vm_compute. reflexivity.
  - vm_compute. discriminate.
  - vm_compute. reflexivity.
Defined.

(** C8.  A seek through a valid handle of a file (sizes and offsets within
    the range of [off_t]) fails with [EINVAL], leaving the cursor, exactly
    when the requested position is negative; otherwise the cursor becomes
    the requested position clamped to the size.  In particular
    [SEEK_SET] with offset -1 fails, [SEEK_END] with offset 0 lands on the
    size, and a position past the end lands on the size. *)
Theorem C8_seek_negative_fails_else_clamps s h fd e offset whence :
  h <> NULL -> fds s !! h = Some fd -> file fd <> NULL -> dir fd = false ->
  files s !! file fd = Some e ->
  whence <> SEEK_OTHER ->
  0 <= ptr fd <= size e -> size e < 2 ^ 31 ->
  - 2 ^ 31 <= offset < 2 ^ 31 ->
  let t := seek_target fd e offset whence in
  (t < 0 -> ramdisk_seek h offset whence s
            = Ok (-1, with_errno (Some EINVAL) s))
  /\ (0 <= t ->
      ramdisk_seek h offset whence s
      = Ok (Z.min t (size e),
            with_fds (<[h := set_ptr (Z.min t (size e)) fd]> (fds s)) s))
  /\ ramdisk_seek h (-1) SEEK_SET s = Ok (-1, with_errno (Some EINVAL) s)
  /\ ramdisk_seek h 0 SEEK_END s
     = Ok (size e, with_fds (<[h := set_ptr (size e) fd]> (fds s)) s)
  /\ (forall past, size e <= past < 2 ^ 31 ->
      ramdisk_seek h past SEEK_SET s
      = Ok (size e, with_fds (<[h := set_ptr (size e) fd]> (fds s)) s)).
Proof.
  intros Hh Hfd Hf Hd He Hw Hp Hs Ho t.
  pose proof (seek_ok s h fd e Hh Hfd Hf He) as Hseek.
  split; [|split; [|split; [|split]]].
  - intros Ht. rewrite (Hseek offset whence Hd Hw Hp Hs Ho). fold t.
    destruct (t <? 0) eqn:E; [reflexivity|]. apply Z.ltb_ge in E. lia.
  - intros Ht. rewrite (Hseek offset whence Hd Hw Hp Hs Ho). fold t.
    destruct (t <? 0) eqn:E; [|reflexivity]. apply Z.ltb_lt in E. lia.
  - rewrite (Hseek (-1) SEEK_SET Hd ltac:(discriminate) Hp Hs ltac:(lia)).
    reflexivity.
  - rewrite (Hseek 0 SEEK_END Hd ltac:(discriminate) Hp Hs ltac:(lia)).
    cbn [seek_target]. rewrite Z.add_0_r.
    destruct (size e <? 0) eqn:E; [apply Z.ltb_lt in E; lia|].
    rewrite Z.min_id. reflexivity.
  - intros past Hpast.
    rewrite (Hseek past SEEK_SET Hd ltac:(discriminate) Hp Hs ltac:(lia)).
    cbn [seek_target].
    destruct (past <? 0) eqn:E; [apply Z.ltb_lt in E; lia|].
    rewrite Z.min_r by lia. reflexivity.
Qed.

(** C8, at a concrete input: the reader of the three-byte ["/a"] seeks two
    bytes back from the end. *)
Lemma C8_seek_witness :
  let fd := the_fd st_reading 5 in
  let e := the_file st_reading 3 in
  (seek_target fd e (-2) SEEK_END < 0 ->
   ramdisk_seek 5 (-2) SEEK_END st_reading
   = Ok (-1, with_errno (Some EINVAL) st_reading))
  /\ (0 <= seek_target fd e (-2) SEEK_END ->
      ramdisk_seek 5 (-2) SEEK_END st_reading
      = Ok (Z.min (seek_target fd e (-2) SEEK_END) (size e),
            with_fds (<[5 := set_ptr (Z.min (seek_target fd e (-2) SEEK_END)
                                            (size e)) fd]>
                        (fds st_reading)) st_reading))
  /\ ramdisk_seek 5 (-1) SEEK_SET st_reading
     = Ok (-1, with_errno (Some EINVAL) st_reading)
  /\ ramdisk_seek 5 0 SEEK_END st_reading
     = Ok (size e,
           with_fds (<[5 := set_ptr (size e) fd]> (fds st_reading)) st_reading)
  /\ (forall past, size e <= past < 2 ^ 31 ->
      ramdisk_seek 5 past SEEK_SET st_reading
      = Ok (size e,
            with_fds (<[5 := set_ptr (size e) fd]> (fds st_reading))
                     st_reading)).
Proof.
  apply (C8_seek_negative_fails_else_clamps st_reading 5
           (the_fd st_reading 5) (the_file st_reading 3) (-2) SEEK_END).
  - discriminate.
  - vm_compute. reflexivity.
  - discriminate.
  - reflexivity.
  - vm_compute. reflexivity.
  - discriminate.
  - vm_compute. split; discriminate.
  - reflexivity.
  - split; [discriminate|reflexivity].
Defined.

(** C10.  A read through a valid handle of a file does not always
    succeed.  The reader of ["/a"] has moved its cursor to the end of the
    three bytes, and ["/a"] has been detached under it: the handle is
    still valid and registered, it is no directory handle, its cursor is 3
    and its file now has size 0 and a null block.  A read through it, of
    one byte or of none, takes [size - cursor] in unsigned arithmetic for
    the count and copies from the null block. *)
Theorem C10_read_past_the_size_crashes :
  valid_handle st_held_detached 5 (the_fd st_held_detached 5)
  /\ live st_held_detached 5
  /\ dir (the_fd st_held_detached 5) = false
  /\ file (the_fd st_held_detached 5) = 3
  /\ ptr (the_fd st_held_detached 5) = 3
  /\ size (the_file st_held_detached 3) = 0
  /\ data (the_file st_held_detached 3) = DataNull
  /\ ramdisk_read 5 1 st_held_detached = Crash (BadPointer 3)
  /\ ramdisk_read 5 0 st_held_detached = Crash (BadPointer 3).
Proof.
  split.
  { split; [discriminate|]. split; vm_compute; [reflexivity|discriminate]. }
  split.
  { unfold live. replace (rd_fd_queue st_held_detached) with [5]
      by (vm_compute; reflexivity).
    apply list_elem_of_here. }
  repeat split; vm_compute; reflexivity.
Qed.

Lemma resolves_insert s s' fn f a e e' :
  resolves s fn f -> files s !! a = Some e -> shape e' = shape e ->
  files s' = <[a := e']> (files s) -> dirs s' = dirs s ->
  rootdir s' = rootdir s ->
  resolves s' fn f.
Proof.
  intros [Hf Hr] He Hsh Hfiles Hdirs Hrd. split; [exact Hf|].
  rewrite Hfiles, Hdirs, Hrd, <- Hr. symmetry.
  apply ramdisk_find_path_shape. eapply same_shape_insert; eauto.
Qed.

Lemma inv_resolved s fn f :
  inv s -> resolves s fn f ->
  root s <> NULL /\ 0 < brk s
  /\ exists e, files s !! f = Some e /\ isdir e = false
       /\ lock_ok e (live_count s f).
Proof.
  intros [l Hinv] [Hf Hres]. unfold inv_at in Hinv.
  destruct (inv_root _ _ _ _ _ _ _ _ Hinv) as (r0 & Hr0 & _).
  pose proof (inv_files_lt _ _ _ _ _ _ _ _ Hinv _ ltac:(rewrite Hr0; eauto)).
  split; [unfold NULL; lia|]. split; [apply (inv_brk _ _ _ _ _ _ _ _ Hinv)|].
  destruct (inv_core_find_path _ _ _ _ _ _ _ _ fn false Hinv)
    as (r & Hr & Hcase).
  replace r with f in * by congruence.
  destruct Hcase as [?|Hin]; [congruence|].
  destruct (inv_core_elem _ _ _ _ _ _ _ _ _ Hinv Hin) as (_ & e & He & Hd & _).
  exists e. split; [exact He|]. split; [exact Hd|].
  apply (inv_locks _ _ _ _ _ _ _ _ Hinv _ _ He).
Qed.

Section Sharing.
Context `{FcntlFlags}.

(** C9.  Readers share a file.  On a file that nobody has open, two
    read-only opens succeed with different handles and leave the usage
    count at 2; closing the first leaves the count at 1 and the file
    read-locked; a further read-only open then succeeds and an open for
    writing returns null.  Moreover [ramdisk_open] and [ramdisk_close]
    keep the invariant under which every file's usage count is the number
    of registered handles that refer to it and its lock is
    [OPENFOR_NOTHING] exactly when that count is zero. *)
Theorem C9_readers_share_and_counts_hold s fn mr mw f e :
  inv s -> oracle s = [] ->
  opens_read mr -> opens_write mw ->
  strip_slash fn <> EmptyString ->
  resolves s (strip_slash fn) f -> files s !! f = Some e -> usage e = 0 ->
  (exists h1 s1 h2 s2 s3 h3 s4 s5,
     ramdisk_open fn mr s = Ok (h1, s1) /\ h1 <> NULL
     /\ ramdisk_open fn mr s1 = Ok (h2, s2) /\ h2 <> NULL /\ h2 <> h1
     /\ usage <$> files s2 !! f = Some 2
     /\ ramdisk_close h1 s2 = Ok (0, s3)
     /\ usage <$> files s3 !! f = Some 1
     /\ openfor <$> files s3 !! f = Some OPENFOR_READ
     /\ ramdisk_open fn mr s3 = Ok (h3, s4) /\ h3 <> NULL
     /\ ramdisk_open fn mw s3 = Ok (NULL, s5))
  /\ (forall s0 fn0 mode r s',
        inv s0 -> ramdisk_open fn0 mode s0 = Ok (r, s') ->
        inv s' /\ (r = NULL \/ (live s' r /\ ~ live s0 r)))
  /\ (forall s0 h r s',
        inv s0 -> live s0 h -> ramdisk_close h s0 = Ok (r, s') ->
        inv s' /\ ~ live s' h)
  /\ (forall s0 a e0,
        inv s0 -> files s0 !! a = Some e0 ->
        usage e0 = live_count s0 a
        /\ (openfor e0 = OPENFOR_NOTHING <-> usage e0 = 0)).
Proof.
  intros Hinv Ho Hrd Hwr Hfn Hres He Hu.
  split; [|split; [|split]].
  - destruct (inv_resolved s _ f Hinv Hres)
      as (Hroot & Hbk & e' & He' & Hd & Hlock).
    replace e' with e in * by congruence. clear He'.
    assert (Hof : openfor e = OPENFOR_NOTHING).
    { destruct Hlock as [Hc [[? _]|[[_ ?]|[_ ?]]]]; [assumption|lia|lia]. }
    (* first reader *)
    pose proof (ramdisk_open_read s fn f e Hroot Hbk Hfn Hres He Hd mr
                  ltac:(rewrite Hof; discriminate) Hrd
                  (next_alloc_nil s Ho)) as Hopen1.
    set (e1 := set_usage (usage e + 1) (set_openfor OPENFOR_READ e)) in *.
    set (d1 := mk_rd_fd f false 0 dirent0 mr) in *.
    set (s1 := opened (after_alloc s) f e1 d1) in *.
    assert (Hres1 : resolves s1 (strip_slash fn) f)
      by (apply (resolves_insert s s1 _ f f e e1 Hres He); reflexivity).
    assert (He1 : files s1 !! f = Some e1) by apply lookup_insert_eq.
    assert (Ho1 : oracle s1 = []) by (cbn; rewrite Ho; reflexivity).
    (* second reader *)
    pose proof (ramdisk_open_read s1 fn f e1 Hroot ltac:(cbn; lia) Hfn
                  Hres1 He1 Hd mr ltac:(discriminate) Hrd
                  (next_alloc_nil s1 Ho1)) as Hopen2.
    set (e2 := set_usage (usage e1 + 1) (set_openfor OPENFOR_READ e1)) in *.
    set (d2 := mk_rd_fd f false 0 dirent0 mr) in *.
    set (s2 := opened (after_alloc s1) f e2 d2) in *.
    assert (He2 : files s2 !! f = Some e2) by apply lookup_insert_eq.
    assert (Hfd2 : fds s2 !! brk s = Some d1).
    { cbn. rewrite lookup_insert_ne by lia. apply lookup_insert_eq. }
    assert (Hh1 : brk s <> NULL) by (unfold NULL; lia).
    (* the first reader closes *)
    pose proof (close_ok s2 (brk s) d1 e2 Hh1 Hfd2 (proj1 Hres) He2
                  ltac:(cbn; lia)) as Hclose.
    cbn [file d1] in Hclose.
    set (e3 := closed_file e2) in *.
    set (s3 := with_queue (filter (fun x => x <> brk s) (rd_fd_queue s2))
                 (with_files (<[f := e3]> (files s2))
                    (with_fds (delete (brk s) (fds s2)) s2)))
      in *.
    assert (He3 : files s3 !! f = Some e3) by apply lookup_insert_eq.
    assert (Hres2 : resolves s2 (strip_slash fn) f)
      by (apply (resolves_insert s1 s2 _ f f e1 e2 Hres1 He1); reflexivity).
    assert (Hres3 : resolves s3 (strip_slash fn) f).
    { apply (resolves_insert s2 s3 _ f f e2 e3 Hres2 He2);
        try reflexivity.
      apply shape_closed_file. }
    assert (Ho3 : oracle s3 = []) by (cbn; rewrite Ho; reflexivity).
    assert (He3v : e3 = set_usage (usage e + 1) e2).
    { subst e3. unfold closed_file. cbn [usage e2 e1 set_usage set_openfor].
      rewrite Hu. reflexivity. }
    assert (Hd3 : isdir e3 = false) by (rewrite He3v; exact Hd).
    assert (Hof3 : openfor e3 = OPENFOR_READ) by (rewrite He3v; reflexivity).
    (* a third reader, and a writer *)
    pose proof (ramdisk_open_read s3 fn f e3 Hroot ltac:(cbn; lia) Hfn
                  Hres3 He3 Hd3 mr ltac:(rewrite Hof3; discriminate) Hrd
                  (next_alloc_nil s3 Ho3)) as Hopen3.
    pose proof (ramdisk_open_busy s3 fn f e3 Hroot ltac:(cbn; lia) Hfn
                  Hres3 He3 Hd3 mw Hof3 Hwr
                  (next_alloc_nil s3 Ho3)) as Hopen4.
    eexists (brk s), s1, (brk s1), s2, s3, (brk s3), _, _.
    split; [exact Hopen1|]. split; [exact Hh1|].
    split; [exact Hopen2|]. split; [cbn; unfold NULL; lia|].
    split; [cbn; lia|].
    split; [rewrite He2; cbn; rewrite Hu; reflexivity|].
    split; [exact Hclose|].
    split; [rewrite He3, He3v; cbn; rewrite Hu; reflexivity|].
    split; [rewrite He3; cbn [fmap option_fmap option_map]; f_equal; exact Hof3|].
    split; [exact Hopen3|]. split; [cbn; unfold NULL; lia|].
    exact Hopen4.
  - intros s0 fn0 mode r s' Hinv0 Hopen.
    exact (ramdisk_open_inv s0 fn0 mode r s' Hinv0 Hopen).
  - intros s0 h r s' [l0 Hinv0] Hlive Hclose.
    destruct (close_live s0 l0 h Hinv0 Hlive)
      as (fd & e0 & _ & _ & Hc & Hinv').
    rewrite Hc in Hclose. injection Hclose as _ <-.
    split; [exists l0; exact Hinv'|].
    unfold live. cbn. intros Hin.
    apply list_elem_of_filter in Hin as [Hne _]. congruence.
  - intros s0 a e0 [l0 Hinv0] He0.
    destruct (inv_locks _ _ _ _ _ _ _ _ Hinv0 _ _ He0) as [Hc Hl].
    split; [exact Hc|].
    unfold OPENFOR_NOTHING, OPENFOR_READ, OPENFOR_WRITE in *.
    destruct Hl as [[? ?]|[[? ?]|[? ?]]]; split; intros; lia.
Qed.
End Sharing.

(** C9, at a concrete input: the closed three-byte file ["/a"]. *)
Lemma C9_sharing_witness :
  exists h1 s1 h2 s2 s3 h3 s4 s5,
    ramdisk_open (H := kos_fcntl) "/a" O_RDONLY st_file = Ok (h1, s1)
    /\ h1 <> NULL
    /\ ramdisk_open (H := kos_fcntl) "/a" O_RDONLY s1 = Ok (h2, s2)
    /\ h2 <> NULL /\ h2 <> h1
    /\ usage <$> files s2 !! 3 = Some 2
    /\ ramdisk_close h1 s2 = Ok (0, s3)
    /\ usage <$> files s3 !! 3 = Some 1
    /\ openfor <$> files s3 !! 3 = Some OPENFOR_READ
    /\ ramdisk_open (H := kos_fcntl) "/a" O_RDONLY s3 = Ok (h3, s4)
    /\ h3 <> NULL
    /\ ramdisk_open (H := kos_fcntl) "/a" O_WRONLY s3 = Ok (NULL, s5).
Proof.
  apply (C9_readers_share_and_counts_hold (H := kos_fcntl) st_file "/a"
           O_RDONLY O_WRONLY 3 (the_file st_file 3)).
  - exact st_file_inv.
  - reflexivity.
  - exact kos_opens_read.
  - exact kos_opens_write.
  - discriminate.
  - exact st_file_resolves.
  - vm_compute. reflexivity.
  - reflexivity.
Defined.

(** * Further properties of the entry points *)

(** ** Handles that are refused *)

Lemma fd_invalid_true s h :
  invalid_handle s h -> ramdisk_fd_invalid h s = Ok (true, s).
Proof.
  intros [->|(fd & Hfd & Hf)]; [reflexivity|].
  unfold ramdisk_fd_invalid. destruct (h =? NULL); [reflexivity|].
  go. rewrite Hf. reflexivity.
Qed.

Lemma fd_invalid_false s h fd :
  valid_handle s h fd -> ramdisk_fd_invalid h s = Ok (false, s).
Proof.
  intros (Hh & Hfd & Hf). apply eqb_null in Hh, Hf.
  unfold ramdisk_fd_invalid. go. reflexivity.
Qed.

Ltac refuse Hbad :=
  unfold bind; rewrite Hbad; reflexivity.

(** X1.  Every entry point that takes a handle, [ramdisk_close] apart,
    refuses an invalid one (null, or with a null [file]): it returns its
    failure value and stores [EBADF], and nothing else changes.  The
    failure value of [ramdisk_total] is [(size_t)-1]; [ramdisk_mmap]
    returns null and stores no [errno]. *)
Theorem X1_invalid_handle_refused `{FcntlFlags} `{StatBits} `{DirentLayout}
    s h n buf offset whence cmd :
  invalid_handle s h ->
  ramdisk_read h n s = Ok ((-1, []), with_errno (Some EBADF) s)
  /\ ramdisk_write h buf s = Ok (-1, with_errno (Some EBADF) s)
  /\ ramdisk_seek h offset whence s = Ok (-1, with_errno (Some EBADF) s)
  /\ ramdisk_tell h s = Ok (-1, with_errno (Some EBADF) s)
  /\ ramdisk_total h s = Ok (2 ^ 32 - 1, with_errno (Some EBADF) s)
  /\ ramdisk_readdir h s = Ok (None, with_errno (Some EBADF) s)
  /\ ramdisk_rewinddir h s = Ok (-1, with_errno (Some EBADF) s)
  /\ ramdisk_fstat h s = Ok ((-1, None), with_errno (Some EBADF) s)
  /\ ramdisk_fcntl h cmd s = Ok (-1, with_errno (Some EBADF) s)
  /\ ramdisk_mmap h s = Ok (DataNull, s).
Proof.
  intros Hbad. apply fd_invalid_true in Hbad.
  unfold ramdisk_read, ramdisk_write, ramdisk_seek, ramdisk_tell,
         ramdisk_total, ramdisk_readdir, ramdisk_rewinddir, ramdisk_fstat,
         ramdisk_fcntl, ramdisk_mmap.
  repeat split; refuse Hbad.
Qed.

(** X1, at a concrete input: the null handle, on the file system that
    holds ["/a"]. *)
Lemma X1_invalid_handle_witness :
  ramdisk_read NULL 10 st_file
  = Ok ((-1, []), with_errno (Some EBADF) st_file)
  /\ ramdisk_write NULL ex_bytes st_file
     = Ok (-1, with_errno (Some EBADF) st_file)
  /\ ramdisk_seek NULL 0 SEEK_SET st_file
     = Ok (-1, with_errno (Some EBADF) st_file)
  /\ ramdisk_tell NULL st_file = Ok (-1, with_errno (Some EBADF) st_file)
  /\ ramdisk_total NULL st_file
     = Ok (2 ^ 32 - 1, with_errno (Some EBADF) st_file)
  /\ ramdisk_readdir (H := kos_fcntl) (H0 := kos_dirent) NULL st_file
     = Ok (None, with_errno (Some EBADF) st_file)
  /\ ramdisk_rewinddir NULL st_file
     = Ok (-1, with_errno (Some EBADF) st_file)
  /\ ramdisk_fstat (H := posix_stat) NULL st_file
     = Ok ((-1, None), with_errno (Some EBADF) st_file)
  /\ ramdisk_fcntl NULL F_GETFL st_file
     = Ok (-1, with_errno (Some EBADF) st_file)
  /\ ramdisk_mmap NULL st_file = Ok (DataNull, st_file).
Proof.
  apply (X1_invalid_handle_refused (H := kos_fcntl) (H0 := posix_stat)
           (H1 := kos_dirent) st_file NULL 10 ex_bytes 0 SEEK_SET F_GETFL).
  left. reflexivity.
Defined.

(** X2.  A handle of the wrong kind is refused in the same way: the file
    operations refuse a directory handle, and [ramdisk_readdir] and
    [ramdisk_rewinddir] refuse a file handle. *)
Theorem X2_wrong_kind_of_handle_refused `{FcntlFlags} `{DirentLayout}
    s h fd n buf offset whence :
  valid_handle s h fd ->
  (dir fd = true ->
   ramdisk_read h n s = Ok ((-1, []), with_errno (Some EBADF) s)
   /\ ramdisk_write h buf s = Ok (-1, with_errno (Some EBADF) s)
   /\ ramdisk_seek h offset whence s = Ok (-1, with_errno (Some EBADF) s)
   /\ ramdisk_tell h s = Ok (-1, with_errno (Some EBADF) s)
   /\ ramdisk_total h s = Ok (2 ^ 32 - 1, with_errno (Some EBADF) s)
   /\ ramdisk_mmap h s = Ok (DataNull, s))
  /\ (dir fd = false ->
      ramdisk_readdir h s = Ok (None, with_errno (Some EBADF) s)
      /\ ramdisk_rewinddir h s = Ok (-1, with_errno (Some EBADF) s)).
Proof.
  intros Hv. pose proof (fd_invalid_false s h fd Hv) as Hok.
  destruct Hv as (_ & Hfd & _).
  unfold ramdisk_read, ramdisk_write, ramdisk_seek, ramdisk_tell,
         ramdisk_total, ramdisk_readdir, ramdisk_rewinddir, ramdisk_mmap.
  split; intros Hd; repeat split;
    unfold bind at 1; rewrite Hok; go; reflexivity.
Qed.

(** X2, at a concrete input: handle 5 of the root directory, opened for
    listing. *)
Lemma X2_wrong_kind_witness :
  let s := st_listing in
  (dir (the_fd s 5) = true ->
   ramdisk_read 5 10 s = Ok ((-1, []), with_errno (Some EBADF) s)
   /\ ramdisk_write 5 ex_bytes s = Ok (-1, with_errno (Some EBADF) s)
   /\ ramdisk_seek 5 0 SEEK_SET s = Ok (-1, with_errno (Some EBADF) s)
   /\ ramdisk_tell 5 s = Ok (-1, with_errno (Some EBADF) s)
   /\ ramdisk_total 5 s = Ok (2 ^ 32 - 1, with_errno (Some EBADF) s)
   /\ ramdisk_mmap 5 s = Ok (DataNull, s))
  /\ (dir (the_fd s 5) = false ->
      ramdisk_readdir (H := kos_fcntl) (H0 := kos_dirent) 5 s
      = Ok (None, with_errno (Some EBADF) s)
      /\ ramdisk_rewinddir 5 s = Ok (-1, with_errno (Some EBADF) s)).
Proof.
  apply (X2_wrong_kind_of_handle_refused (H := kos_fcntl)
           (H0 := kos_dirent) st_listing 5
           (the_fd st_listing 5) 10 ex_bytes 0 SEEK_SET).
  split; [discriminate|]. split; vm_compute; [reflexivity|discriminate].
Defined.

(** ** The cursor *)

Lemma tell_ok s h fd :
  valid_handle s h fd -> dir fd = false -> 0 <= ptr fd < 2 ^ 31 ->
  ramdisk_tell h s = Ok (ptr fd, s).
Proof.
  intros Hv Hd Hp. pose proof (fd_invalid_false s h fd Hv) as Hok.
  destruct Hv as (_ & Hfd & _).
  unfold ramdisk_tell. unfold bind at 1. rewrite Hok. go.
  rewrite signed32_small by lia. reflexivity.
Qed.

(** X3.  [ramdisk_tell] returns the cursor and changes nothing.  After a
    seek that succeeds it returns what the seek returned; after a seek
    that fails with [EINVAL] the cursor is where it was. *)
Theorem X3_tell_follows_seek s h fd e offset whence :
  valid_handle s h fd -> dir fd = false ->
  files s !! file fd = Some e ->
  whence <> SEEK_OTHER ->
  0 <= ptr fd <= size e -> size e < 2 ^ 31 ->
  - 2 ^ 31 <= offset < 2 ^ 31 ->
  ramdisk_tell h s = Ok (ptr fd, s)
  /\ exists p s',
       ramdisk_seek h offset whence s = Ok (p, s')
       /\ (p = -1 \/ 0 <= p <= size e)
       /\ ramdisk_tell h s' = Ok (if p =? -1 then ptr fd else p, s').
Proof.
  intros Hv Hd He Hw Hp Hs Ho.
  split; [apply tell_ok; auto; lia|].
  destruct Hv as (Hh & Hfd & Hf).
  rewrite (seek_ok s h fd e Hh Hfd Hf He offset whence Hd Hw Hp Hs Ho).
  cbv zeta. destruct (seek_target fd e offset whence <? 0) eqn:Ht.
  - eexists _, _. split; [reflexivity|]. split; [auto|].
    apply tell_ok; [|exact Hd|lia]. repeat split; assumption.
  - apply Z.ltb_ge in Ht.
    set (p := Z.min (seek_target fd e offset whence) (size e)).
    assert (0 <= p <= size e) by (unfold p; lia).
    eexists _, _. split; [reflexivity|]. split; [auto|].
    replace (p =? -1) with false by (symmetry; apply Z.eqb_neq; lia).
    apply (tell_ok _ h (set_ptr p fd)); [|exact Hd|cbn; lia].
    repeat split; [exact Hh| |exact Hf].
    apply lookup_insert_eq.
Qed.

(** X3, at a concrete input: the reader of the three-byte ["/a"] seeks
    one byte back from the end. *)
Lemma X3_tell_witness :
  ramdisk_tell 5 st_reading = Ok (0, st_reading)
  /\ exists p s',
       ramdisk_seek 5 (-1) SEEK_END st_reading = Ok (p, s')
       /\ (p = -1 \/ 0 <= p <= 3)
       /\ ramdisk_tell 5 s' = Ok (if p =? -1 then 0 else p, s').
Proof.
  apply (X3_tell_follows_seek st_reading 5 (the_fd st_reading 5)
           (the_file st_reading 3) (-1) SEEK_END).
  - split; [discriminate|]. split; vm_compute; [reflexivity|discriminate].
  - reflexivity.
  - vm_compute. reflexivity.
  - discriminate.
  - vm_compute. split; discriminate.
  - reflexivity.
  - split; [discriminate|reflexivity].
Defined.

(** ** Reading and writing at the cursor *)

Lemma with_fds_id s h fd :
  fds s !! h = Some fd -> with_fds (<[h := fd]> (fds s)) s = s.
Proof.
  intros Hfd. destruct s. unfold with_fds. cbn in *.
  rewrite insert_id by exact Hfd. reflexivity.
Qed.

Lemma set_ptr_id fd : set_ptr (ptr fd) fd = fd.
Proof. destruct fd. reflexivity. Qed.

(** X4.  Reads continue where the last one stopped: a read of [n1] bytes
    followed by a read of [n2] bytes returns, piece by piece, what one
    read of [n1 + n2] bytes returns, and leaves the same state.  At the
    end of the file a read returns 0 bytes and changes nothing. *)
Theorem X4_reads_compose s h fd e n1 n2 :
  valid_handle s h fd -> dir fd = false ->
  files s !! file fd = Some e -> block_ok e ->
  0 <= ptr fd <= size e -> size e < 2 ^ 31 ->
  0 <= n1 -> 0 <= n2 -> n1 + n2 < 2 ^ 31 ->
  (exists k1 b1 s1 k2 b2 s2,
     ramdisk_read h n1 s = Ok ((k1, b1), s1)
     /\ ramdisk_read h n2 s1 = Ok ((k2, b2), s2)
     /\ ramdisk_read h (n1 + n2) s = Ok ((k1 + k2, b1 ++ b2), s2)
     /\ k1 = Z.min n1 (size e - ptr fd)
     /\ Z.of_nat (length b1) = k1)
  /\ (ptr fd = size e -> ramdisk_read h n1 s = Ok ((0, []), s)).
Proof.
  intros (Hh & Hfd & Hf) Hd He Hb Hp Hs Hn1 Hn2 Hn.
  pose proof (read_ok s h fd e Hh Hfd Hf He) as Hread.
  assert (Hlen : size e <= Z.of_nat (length (block_bytes (data e)))).
  { unfold block_ok in Hb. destruct (data e); cbn; [lia|lia|contradiction]. }
  split.
  - set (k1 := Z.min n1 (size e - ptr fd)).
    set (fd1 := set_ptr (ptr fd + k1) fd).
    set (s1 := with_fds (<[h := fd1]> (fds s)) s).
    set (k2 := Z.min n2 (size e - ptr fd1)).
    assert (Hk1 : 0 <= k1 <= size e - ptr fd) by (unfold k1; lia).
    assert (Hk2 : 0 <= k2 <= size e - ptr fd - k1)
      by (unfold k2, fd1; cbn; lia).
    assert (Hfd1 : fds s1 !! h = Some fd1) by apply lookup_insert_eq.
    pose proof (read_ok s1 h fd1 e Hh Hfd1 Hf He n2 Hd Hb
                  ltac:(unfold fd1; cbn; lia) Hn2 ltac:(lia)) as Hread2.
    cbv zeta in Hread2. fold k2 in Hread2.
    eexists _, _, _, _, _, _.
    split; [apply (Hread n1 Hd Hb Hp Hn1); lia|].
    fold k1. fold fd1. fold s1.
    split; [exact Hread2|].
    split; [|split].
    + rewrite (Hread (n1 + n2) Hd Hb Hp) by lia. cbv zeta.
      assert (Hk : Z.min (n1 + n2) (size e - ptr fd) = k1 + k2)
        by (unfold k2, fd1, k1; cbn; lia).
      rewrite Hk.
      rewrite !signed32_small by lia.
      f_equal. f_equal.
      * f_equal.
        rewrite Z2Nat.inj_add by lia.
        rewrite <- take_take_drop. f_equal. f_equal.
        rewrite drop_drop. f_equal. unfold fd1. cbn.
        rewrite Z2Nat.inj_add by lia. reflexivity.
      * unfold s1. unfold with_fds at 2. cbn.
        rewrite insert_insert_eq. unfold fd1, set_ptr. cbn.
        rewrite Z.add_assoc. reflexivity.
    + rewrite signed32_small by lia. reflexivity.
    + rewrite signed32_small by lia.
      rewrite length_take, length_drop. lia.
  - intros Heof.
    rewrite (Hread n1 Hd Hb Hp Hn1) by lia. cbv zeta.
    replace (Z.min n1 (size e - ptr fd)) with 0 by lia.
    rewrite Z.add_0_r, set_ptr_id, with_fds_id by exact Hfd.
    reflexivity.
Qed.

(** X4, at a concrete input: the reader of the three-byte ["/a"] reads one
    byte and then ten. *)
Lemma X4_reads_witness :
  let fd := the_fd st_reading 5 in
  let e := the_file st_reading 3 in
  (exists k1 b1 s1 k2 b2 s2,
     ramdisk_read 5 1 st_reading = Ok ((k1, b1), s1)
     /\ ramdisk_read 5 10 s1 = Ok ((k2, b2), s2)
     /\ ramdisk_read 5 (1 + 10) st_reading = Ok ((k1 + k2, b1 ++ b2), s2)
     /\ k1 = Z.min 1 (size e - ptr fd)
     /\ Z.of_nat (length b1) = k1)
  /\ (ptr fd = size e -> ramdisk_read 5 1 st_reading = Ok ((0, []), st_reading)).
Proof.
  apply (X4_reads_compose st_reading 5 (the_fd st_reading 5)
           (the_file st_reading 3) 1 10).
  - split; [discriminate|]. split; vm_compute; [reflexivity|discriminate].
  - reflexivity.
  - vm_compute. reflexivity.
  - unfold block_ok. vm_compute. split; [split; discriminate|reflexivity].
  - vm_compute. split; discriminate.
  - reflexivity.
  - discriminate.
  - discriminate.
  - reflexivity.
Defined.

Lemma mem_write_block b off src :
  0 <= off -> off + Z.of_nat (length src) <= Z.of_nat (length b) ->
  mem_write (DataBlock b) off src
  = Ok (DataBlock (take (Z.to_nat off) b ++ src
                   ++ drop (Z.to_nat off + length src) b)).
Proof.
  intros Hoff Hfit. unfold mem_write. destruct src as [|c src].
  - cbn [length app]. rewrite Nat.add_0_r, take_drop. reflexivity.
  - apply Z.leb_le in Hfit. rewrite Hfit. reflexivity.
Qed.

(** X5.  A write that fits the block requests no allocation: it replaces
    exactly the bytes from the cursor to the cursor plus the length, keeps
    the bytes on both sides and the capacity, advances the cursor, and
    raises the size to the new cursor if that is larger. *)
Theorem X5_write_in_place s h buf fd e b :
  valid_handle s h fd -> dir fd = false ->
  files s !! file fd = Some e -> openfor e = OPENFOR_WRITE ->
  data e = DataBlock b -> datasize e = Z.of_nat (length b) ->
  0 <= ptr fd ->
  ptr fd + Z.of_nat (length buf) <= datasize e ->
  datasize e < 2 ^ 31 ->
  let p := Z.to_nat (ptr fd) in
  let b' := take p b ++ buf ++ drop (p + length buf) b in
  let e' := set_size (Z.max (size e) (ptr fd + Z.of_nat (length buf)))
              (set_data (DataBlock b') e) in
  ramdisk_write h buf s
  = Ok (Z.of_nat (length buf),
        with_files (<[file fd := e']> (files s))
          (with_fds (<[h := set_ptr (ptr fd + Z.of_nat (length buf)) fd]>
                       (fds s)) s))
  /\ length b' = length b.
Proof.
  intros Hv Hd He Hw Hdata Hcap Hp Hfit Hsmall p b' e'.
  pose proof (fd_invalid_false s h fd Hv) as Hok.
  destruct Hv as (Hh & Hfd & Hf).
  assert (Hwrap : wrap32 (ptr fd + Z.of_nat (length buf))
                  = ptr fd + Z.of_nat (length buf))
    by (apply wrap32_small; lia).
  assert (Hgt : (ptr fd + Z.of_nat (length buf) >? datasize e) = false)
    by (rewrite Z.gtb_ltb; apply Z.ltb_ge; lia).
  split.
  - unfold ramdisk_write. unfold bind at 1. rewrite Hok.
    go. rewrite Hw, Z.eqb_refl. go. rewrite Hwrap. go.
    rewrite Hdata, mem_write_block by lia. go.
    rewrite signed32_small by lia.
    fold p. fold b'.
    destruct (size e <? ptr fd + Z.of_nat (length buf)) eqn:Hsz; go.
    + apply Z.ltb_lt in Hsz. unfold e'. rewrite Z.max_r by lia.
      rewrite insert_insert_eq. reflexivity.
    + apply Z.ltb_ge in Hsz. unfold e'. rewrite Z.max_l by lia.
      reflexivity.
  - unfold b'. rewrite !length_app, length_take, length_drop. lia.
Qed.

(** X5, at a concrete input: two bytes written over the start of the
    three-byte ["/a"] through a handle opened with [O_WRONLY]. *)
Lemma X5_write_witness :
  let s := st_wronly in
  let fd := the_fd s 5 in
  let e := the_file s 3 in
  let b := block_bytes (data e) in
  let buf := [Byte.x4f; Byte.x4b] in
  let p := Z.to_nat (ptr fd) in
  let b' := take p b ++ buf ++ drop (p + length buf) b in
  let e' := set_size (Z.max (size e) (ptr fd + Z.of_nat (length buf)))
              (set_data (DataBlock b') e) in
  ramdisk_write 5 buf s
  = Ok (Z.of_nat (length buf),
        with_files (<[file fd := e']> (files s))
          (with_fds (<[5 := set_ptr (ptr fd + Z.of_nat (length buf)) fd]>
                       (fds s)) s))
  /\ length b' = length b.
Proof.
  apply (X5_write_in_place st_wronly 5 [Byte.x4f; Byte.x4b]
           (the_fd st_wronly 5) (the_file st_wronly 3)
           (block_bytes (data (the_file st_wronly 3)))).
  - split; [discriminate|]. split; vm_compute; [reflexivity|discriminate].
  - reflexivity.
  - vm_compute. reflexivity.
  - reflexivity.
  - vm_compute. reflexivity.
  - vm_compute. reflexivity.
  - vm_compute. discriminate.
  - vm_compute. discriminate.
  - vm_compute. reflexivity.
Defined.



(** ** Opening for writing *)

Section OpenWrite.
Context `{FcntlFlags}.

Lemma open_handle_write_keep s f e mode :
  f <> NULL -> 0 < brk s -> files s !! f = Some e ->
  isdir e = false -> openfor e = OPENFOR_NOTHING ->
  opens_write mode ->
  mode_append mode = true \/ mode_trunc mode = false ->
  next_alloc s = true ->
  open_handle f mode s
  = Ok (brk s,
        opened (after_alloc s) f
          (set_usage (usage e + 1) (set_openfor OPENFOR_WRITE e))
          (mk_rd_fd f false (if mode_append mode then size e else 0)
                    dirent0 mode)).
Proof.
  intros Hf Hbrk He Hd Hn [Hwr Hnd] Hkeep Ha.
  unfold mode_write, mode_rdonly, mode_dir, mode_append, mode_trunc in *.
  apply andb_prop in Hwr as [Hro Hwr]. apply negb_true_iff in Hro.
  apply eqb_null in Hf.
  assert (Hw : (openfor e =? OPENFOR_WRITE) = false)
    by (rewrite Hn; reflexivity).
  assert (Hr : (openfor e =? OPENFOR_READ) = false)
    by (rewrite Hn; reflexivity).
  assert (Hb : (brk s =? NULL) = false)
    by (apply Z.eqb_neq; unfold NULL; lia).
  unfold open_handle, open_lock, open_register, opened. go.
  rewrite Hwr. go.
  destruct (nonzero (Z.land mode O_APPEND)) eqn:Hap; go.
  - cbn [usage set_openfor]. rewrite ?insert_insert_eq. reflexivity.
  - destruct Hkeep as [?|Htr]; [discriminate|]. go.
    cbn [usage set_openfor]. rewrite ?insert_insert_eq. reflexivity.
Qed.

(** X7.  Opening an existing file for writing without [O_TRUNC], or with
    [O_APPEND] whether or not [O_TRUNC] is given too, keeps its contents:
    only the lock and the usage count of the file change.  The cursor of
    the new handle is at the size of the file with [O_APPEND] and at 0
    without. *)
Theorem X7_open_for_write_keeps_contents s fn f e mode :
  inv s -> strip_slash fn <> EmptyString ->
  resolves s (strip_slash fn) f -> files s !! f = Some e ->
  usage e = 0 ->
  opens_write mode ->
  mode_append mode = true \/ mode_trunc mode = false ->
  next_alloc s = true ->
  ramdisk_open fn mode s
  = Ok (brk s,
        opened (after_alloc s) f
          (set_usage 1 (set_openfor OPENFOR_WRITE e))
          (mk_rd_fd f false (if mode_append mode then size e else 0)
                    dirent0 mode)).
Proof.
  intros Hinv Hfn Hres He Hu Hwr Hkeep Ha.
  destruct (inv_resolved s _ f Hinv Hres)
    as (Hroot & Hbk & e' & He' & Hd & Hlock).
  replace e' with e in * by congruence.
  assert (Hof : openfor e = OPENFOR_NOTHING).
  { destruct Hlock as [Hc [[? _]|[[_ ?]|[_ ?]]]]; [assumption|lia|lia]. }
  rewrite (ramdisk_open_file s fn f Hroot Hfn Hres mode (proj2 Hwr)).
  rewrite (open_handle_write_keep s f e mode (proj1 Hres) Hbk He Hd Hof
             Hwr Hkeep Ha).
  rewrite Hu. reflexivity.
Qed.
End OpenWrite.

Lemma kos_opens_append :
  opens_write (H := kos_fcntl) (Z.lor (Z.lor O_WRONLY O_APPEND) O_TRUNC)
  /\ mode_append (H := kos_fcntl) (Z.lor (Z.lor O_WRONLY O_APPEND) O_TRUNC)
     = true.
Proof. repeat split. Qed.

(** X7, at a concrete input: ["/a"], which holds three bytes, opened with
    [O_WRONLY | O_APPEND | O_TRUNC]. *)
Lemma X7_open_for_write_witness :
  let mode := Z.lor (Z.lor O_WRONLY O_APPEND) O_TRUNC in
  let e := the_file st_file 3 in
  ramdisk_open (H := kos_fcntl) "/a" mode st_file
  = Ok (brk st_file,
        opened (after_alloc st_file) 3
          (set_usage 1 (set_openfor OPENFOR_WRITE e))
          (mk_rd_fd 3 false (if mode_append mode then size e else 0)
                    dirent0 mode)).
Proof.
  apply (X7_open_for_write_keeps_contents (H := kos_fcntl) st_file "/a" 3
           (the_file st_file 3)).
  - exact st_file_inv.
  - discriminate.
  - exact st_file_resolves.
  - vm_compute. reflexivity.
  - reflexivity.
  - exact (proj1 kos_opens_append).
  - left. exact (proj2 kos_opens_append).
  - reflexivity.
Defined.

(** ** Creating a file *)

Lemma strchr_none_strrchr fn c : strchr fn c = None -> strrchr fn c = None.
Proof.
  induction fn as [|x fn IH]; cbn; [reflexivity|].
  destruct (Ascii.eqb x c); [discriminate|].
  destruct (strchr fn c); [discriminate|].
  intros _. rewrite IH by reflexivity. reflexivity.
Qed.

Lemma create_file_ok s l fn first :
  inv_at s l -> strrchr fn slash = None ->
  dirs s !! rootdir s = Some first ->
  next_alloc s = true -> next_alloc (after_alloc s) = true ->
  next_alloc (after_alloc (after_alloc s)) = true ->
  exists s1,
    ramdisk_create_file (rootdir s) fn false s = Ok (brk s, s1)
    /\ inv_at s1 (brk s :: l)
    /\ files s1 !! brk s = Some (new_file fn first (rootdir s))
    /\ (forall a e, files s !! a = Some e ->
          exists e', files s1 !! a = Some e'
                     /\ set_le_prev (le_prev e) e' = e)
    /\ dirs s1 = <[rootdir s := brk s]> (dirs s)
    /\ fds s1 = fds s /\ rd_fd_queue s1 = rd_fd_queue s
    /\ root s1 = root s /\ rootdir s1 = rootdir s /\ errno s1 = errno s
    /\ brk s1 = brk s + 1
    /\ oracle s1 = oracle (after_alloc (after_alloc (after_alloc s))).
Proof.
  intros Hinv Hp Hfirst Ha Ha2 Ha3. unfold inv_at in *.
  pose proof (inv_brk _ _ _ _ _ _ _ _ Hinv) as Hbk.
  assert (Hb : (brk s =? NULL) = false)
    by (apply Z.eqb_neq; unfold NULL; lia).
  assert (Hfresh : files s !! brk s = None).
  { destruct (files s !! brk s) eqn:E; [|reflexivity].
    pose proof (inv_files_lt _ _ _ _ _ _ _ _ Hinv _ ltac:(rewrite E; eauto)).
    lia. }
  assert (Hold : forall a e, files s !! a = Some e -> a <> brk s)
    by (intros a e Hae ->; congruence).
  destruct (inv_chain _ _ _ _ _ _ _ _ Hinv) as (first' & Hfirst' & Hchain).
  replace first' with first in * by congruence. clear Hfirst'.
  unfold ramdisk_create_file, ramdisk_get_parent. rewrite Hp.
  go. change (0 <? 0) with false. go.
  unfold fresh_block. go.
  unfold LIST_INSERT_HEAD. go. cbn [set_le_next].
  destruct (chain_inv _ _ _ _ Hchain)
    as [[-> ->]|(Hf0 & ef & l' & Hl & Hef & Hpv & Hc)].
  - change (NULL =? NULL) with true. go. cbn [set_le_prev].
    rewrite ?insert_insert_eq.
    eexists. split; [reflexivity|]. run.
    split.
    { eapply inv_core_create;
        [exact Hinv|exact Hfirst|apply lookup_insert_eq|reflexivity|
         |reflexivity..|].
      - unfold block_ok. cbn. rewrite repeat_length. unfold rd_blksize. lia.
      - intros a Ha'. rewrite lookup_insert_ne by congruence.
        destruct (files s !! a) as [e|] eqn:Hea; [|reflexivity].
        exists e. repeat split.
        destruct (decide (a = NULL)) as [->|]; [|reflexivity].
        pose proof (inv_files_lt _ _ _ _ _ _ _ _ Hinv _
                      ltac:(rewrite Hea; eauto)). unfold NULL in *. lia. }
    split; [apply lookup_insert_eq|].
    split; [|repeat split].
    intros a e Hae. exists e. cbn.
    rewrite lookup_insert_ne by (apply not_eq_sym; eauto).
    split; [exact Hae|]. destruct e; reflexivity.
  - assert (Hne : brk s <> first) by (apply not_eq_sym; eauto).
    rewrite (eqb_null _ Hf0). go. cbn [set_le_prev].
    eexists. split; [reflexivity|]. run.
    split.
    { eapply inv_core_create;
        [exact Hinv|exact Hfirst|apply lookup_insert_eq|reflexivity|
         |reflexivity..|].
      - unfold block_ok. cbn. rewrite repeat_length. unfold rd_blksize. lia.
      - intros a Ha'. rewrite lookup_insert_ne by congruence.
        destruct (decide (a = first)) as [->|Hna].
        + rewrite lookup_insert_eq, Hef. eexists. split; [reflexivity|].
          repeat split.
        + rewrite !lookup_insert_ne by congruence.
          destruct (files s !! a) as [e|] eqn:Hea; [|reflexivity].
          exists e. repeat split. }
    split; [apply lookup_insert_eq|].
    split; [|repeat split].
    intros a e Hae. cbn.
    rewrite lookup_insert_ne by (apply not_eq_sym; eauto).
    destruct (decide (a = first)) as [->|Hna].
    + rewrite lookup_insert_eq. eexists. split; [reflexivity|].
      replace e with ef by congruence. destruct ef; reflexivity.
    + rewrite !lookup_insert_ne by congruence.
      exists e. split; [exact Hae|]. destruct e; reflexivity.
Qed.

Section OpenCreate.
Context `{FcntlFlags}.

Lemma open_handle_new s f fn first rd mode :
  f <> NULL -> 0 < brk s ->
  files s !! f = Some (new_file fn first rd) ->
  opens_write mode -> oracle s = [] ->
  exists n d,
    open_handle f mode s
    = Ok (brk s, opened (with_oracle [] s) f n d)
    /\ n = set_usage 1 (set_openfor OPENFOR_WRITE (new_file fn first rd))
    /\ d = mk_rd_fd f false 0 dirent0 mode.
Proof.
  intros Hf Hbk He Hwr Ho.
  assert (Ha : forall s0, oracle s0 = [] -> next_alloc s0 = true)
    by (intros s0 Hs0; apply next_alloc_nil, Hs0).
  assert (Hs : after_alloc s = with_oracle [] s)
    by (unfold after_alloc; rewrite Ho; reflexivity).
  destruct (mode_append mode) eqn:Hap; [|destruct (mode_trunc mode) eqn:Htr].
  - eexists _, _. split; [|split; reflexivity].
    rewrite (open_handle_write_keep s f _ mode Hf Hbk He eq_refl eq_refl
               Hwr (or_introl Hap) (Ha s Ho)).
    rewrite Hap, Hs. reflexivity.
  - eexists _, _. split; [|split; reflexivity].
    rewrite (open_handle_truncate s f _ mode Hf Hbk He eq_refl eq_refl
               (conj Hwr (conj Hap Htr)) (Ha s Ho)
               (Ha _ (oracle_after_alloc_nil s Ho))).
    rewrite Hs. reflexivity.
  - eexists _, _. split; [|split; reflexivity].
    rewrite (open_handle_write_keep s f _ mode Hf Hbk He eq_refl eq_refl
               Hwr (or_intror Htr) (Ha s Ho)).
    rewrite Hap, Hs. reflexivity.
Qed.

(** X8.  Opening a name that does not exist for writing creates the file:
    an empty file with a fresh block of 1024 bytes, entered at the front
    of the root directory, write-locked by the handle returned, whose
    cursor is 0.  The path resolves to the new file afterwards, and the
    files that were there keep everything but their back link. *)
Theorem X8_open_creates_missing_file s l fn mode :
  inv_at s l -> oracle s = [] -> opens_write mode ->
  strip_slash fn <> EmptyString ->
  strchr (strip_slash fn) slash = None ->
  ramdisk_find_path (files s) (dirs s) (rootdir s) (strip_slash fn) false
  = Ok NULL ->
  exists s' n first,
    ramdisk_open fn mode s = Ok (brk s + 1, s')
    /\ inv_at s' (brk s :: l)
    /\ resolves s' (strip_slash fn) (brk s)
    /\ files s' !! brk s = Some n
    /\ n = set_usage 1 (set_openfor OPENFOR_WRITE
                          (new_file (strip_slash fn) first (rootdir s)))
    /\ fds s' !! (brk s + 1)
       = Some (mk_rd_fd (brk s) false 0 dirent0 mode)
    /\ live s' (brk s + 1)
    /\ (forall a e, files s !! a = Some e ->
          exists e', files s' !! a = Some e'
                     /\ set_le_prev (le_prev e) e' = e).
Proof.
  intros Hinv Ho Hwr Hfn Hnos Hnone.
  pose proof Hinv as Hinv0. unfold inv_at in Hinv0.
  pose proof (inv_brk _ _ _ _ _ _ _ _ Hinv0) as Hbk.
  assert (Hrt : (root s =? NULL) = false).
  { destruct (inv_root _ _ _ _ _ _ _ _ Hinv0) as (r & Hr & _).
    pose proof (inv_files_lt _ _ _ _ _ _ _ _ Hinv0 _ ltac:(rewrite Hr; eauto)).
    apply Z.eqb_neq. unfold NULL. lia. }
  destruct (inv_chain _ _ _ _ _ _ _ _ Hinv0) as (first & Hfirst & _).
  assert (Ha : forall s0, oracle s0 = [] -> next_alloc s0 = true)
    by (intros s0 Hs0; apply next_alloc_nil, Hs0).
  destruct (create_file_ok s l (strip_slash fn) first Hinv
              (strchr_none_strrchr _ _ Hnos) Hfirst (Ha s Ho)
              (Ha _ (oracle_after_alloc_nil _ Ho))
              (Ha _ (oracle_after_alloc_nil _ (oracle_after_alloc_nil _ Ho))))
    as (s1 & Hcreate & Hinv1 & Hnew & Hold & Hdirs & Hfds & Hq & Hroot & Hrd
        & Herr & Hbrk1 & Hor1).
  assert (Ho1 : oracle s1 = []).
  { rewrite Hor1. repeat apply oracle_after_alloc_nil. exact Ho. }
  assert (Hf : brk s <> NULL) by (unfold NULL; lia).
  destruct (open_handle_new s1 (brk s) _ _ _ mode Hf ltac:(lia) Hnew Hwr Ho1)
    as (n & d & Hopen & Hn & Hd).
  destruct Hwr as [Hmw Hnd].
  assert (Hro : mode_rdonly mode = false).
  { unfold mode_write in Hmw. apply andb_prop in Hmw as [Hro _].
    apply negb_true_iff in Hro. exact Hro. }
  assert (Hrun : ramdisk_open fn mode s = Ok (brk s + 1, opened (with_oracle [] s1) (brk s) n d)).
  { rewrite ramdisk_open_phases, Hnd. cbn [andb]. unfold bind at 1.
    unfold open_lookup. fold (mode_dir mode). fold (mode_rdonly mode).
    rewrite Hnd, Hro. go.
    destruct (strip_slash fn) as [|c fn'] eqn:Hstrip; [congruence|].
    unfold find_path. go. rewrite Hnone. go.
    change (NULL =? NULL) with true. cbn [negb andb].
    rewrite Hcreate, Hopen, Hbrk1. reflexivity. }
  assert (Hinv' : inv_at (opened (with_oracle [] s1) (brk s) n d) (brk s :: l)).
  { assert (Hm : mode_dir mode && negb (mode_rdonly mode) = false)
      by (rewrite Hnd; reflexivity).
    assert (Hsome : is_Some (files s1 !! brk s)) by (rewrite Hnew; eauto).
    exact (proj1 (open_handle_inv' s1 (brk s :: l) (brk s) mode _ _ Hinv1
                    (or_intror Hsome) Hm Hopen)). }
  exists (opened (with_oracle [] s1) (brk s) n d), n, first.
  split; [exact Hrun|]. split; [exact Hinv'|].
  assert (Hn' : files (opened (with_oracle [] s1) (brk s) n d) !! brk s = Some n)
    by apply lookup_insert_eq.
  split.
  { split; [exact Hf|].
    eapply resolve_created;
      [exact Hf|exact Hn'|rewrite Hn; reflexivity|rewrite Hn; reflexivity
      | |apply strchr_none_strrchr, Hnos|exact Hfn].
    cbn. rewrite Hdirs, Hrd. apply lookup_insert_eq. }
  split; [exact Hn'|]. split; [exact Hn|].
  split; [cbn; rewrite Hbrk1, lookup_insert_eq, Hd; reflexivity|].
  split; [unfold live; cbn; rewrite Hbrk1; set_solver|].
  intros a e Hae. destruct (Hold a e Hae) as (e' & He' & Heq).
  exists e'. split; [|exact Heq].
  cbn. rewrite lookup_insert_ne; [exact He'|].
  intros <-. 
  pose proof (inv_files_lt _ _ _ _ _ _ _ _ Hinv0 _ ltac:(rewrite Hae; eauto)).
  lia.
Qed.
End OpenCreate.

Lemma inv_at_chain s l first :
  inv s -> dirs s !! rootdir s = Some first ->
  chain (files s) (LinkHead (rootdir s)) first l -> inv_at s l.
Proof.
  intros [l' Hinv] Hfirst Hchain.
  destruct (inv_chain _ _ _ _ _ _ _ _ Hinv) as (first' & Hfirst' & Hchain').
  replace first' with first in * by congruence.
  rewrite (chain_inj _ _ _ _ _ _ Hchain Hchain'). exact Hinv.
Qed.

Lemma st_file_inv_at : inv_at st_file [3].
Proof.
  apply (inv_at_chain st_file [3] 3 st_file_inv); [reflexivity|].
  eapply chain_cons;
    [discriminate|vm_compute; reflexivity|reflexivity|apply chain_nil].
Qed.

(** X8, at a concrete input: ["/b"] opened with [O_WRONLY] beside
    ["/a"]. *)
Lemma X8_open_creates_witness :
  exists s' n first,
    ramdisk_open (H := kos_fcntl) "/b" O_WRONLY st_file
    = Ok (brk st_file + 1, s')
    /\ inv_at s' [brk st_file; 3]
    /\ resolves s' (strip_slash "/b") (brk st_file)
    /\ files s' !! brk st_file = Some n
    /\ n = set_usage 1 (set_openfor OPENFOR_WRITE
                          (new_file (strip_slash "/b") first
                             (rootdir st_file)))
    /\ fds s' !! (brk st_file + 1)
       = Some (mk_rd_fd (brk st_file) false 0 dirent0 O_WRONLY)
    /\ live s' (brk st_file + 1)
    /\ (forall a e, files st_file !! a = Some e ->
          exists e', files s' !! a = Some e'
                     /\ set_le_prev (le_prev e) e' = e).
Proof.
  apply (X8_open_creates_missing_file (H := kos_fcntl) st_file [3] "/b"
           O_WRONLY).
  - exact st_file_inv_at.
  - reflexivity.
  - exact kos_opens_write.
  - discriminate.
  - reflexivity.
  - vm_compute. reflexivity.
Defined.

(** ** Opens that fail *)

Lemma inv_root_node s :
  inv s ->
  (root s =? NULL) = false
  /\ exists r, files s !! root s = Some r /\ isdir r = true
               /\ data r = DataDir (rootdir s).
Proof.
  intros [l Hinv]. unfold inv_at in Hinv.
  destruct (inv_root _ _ _ _ _ _ _ _ Hinv) as (r & Hr & Hd & Hdata).
  pose proof (inv_files_lt _ _ _ _ _ _ _ _ Hinv _ ltac:(rewrite Hr; eauto)).
  split; [apply Z.eqb_neq; unfold NULL; lia|eauto].
Qed.

Lemma inv_find_dir s fn :
  inv s ->
  ramdisk_find_path (files s) (dirs s) (rootdir s) fn true = Ok NULL.
Proof.
  intros [l Hinv].
  destruct (inv_core_find_path _ _ _ _ _ _ _ _ fn true Hinv) as (r & Hr & ->).
  exact Hr.
Qed.

Section OpenFails.
Context `{FcntlFlags}.

(** X9.  The ways [ramdisk_open] fails with an error code, each leaving
    the state as it was but for [errno] (and the allocation request
    consumed, where one was made): [O_DIR] with a mode other than
    [O_RDONLY] is [EISDIR]; a read-only open of a path that is not found
    is [ENOENT], and so is every [O_DIR] open of a path other than the
    root, there being no other directory; the root opened without [O_DIR]
    is [EINVAL]; and creating a file under a directory part is
    [ENOENT]. *)
Theorem X9_open_failures s :
  inv s ->
  (forall fn mode,
     mode_dir mode = true -> mode_rdonly mode = false ->
     ramdisk_open fn mode s = Ok (NULL, with_errno (Some EISDIR) s))
  /\ (forall fn mode,
        mode_rdonly mode = true -> strip_slash fn <> EmptyString ->
        ramdisk_find_path (files s) (dirs s) (rootdir s) (strip_slash fn)
                          (mode_dir mode) = Ok NULL ->
        ramdisk_open fn mode s = Ok (NULL, with_errno (Some ENOENT) s))
  /\ (forall fn mode,
        mode_rdonly mode = true -> mode_dir mode = true ->
        strip_slash fn <> EmptyString ->
        ramdisk_open fn mode s = Ok (NULL, with_errno (Some ENOENT) s))
  /\ (forall fn mode,
        mode_dir mode = false -> strip_slash fn = EmptyString ->
        ramdisk_open fn mode s = Ok (NULL, with_errno (Some EINVAL) s))
  /\ (forall fn mode p,
        opens_write mode ->
        strrchr (strip_slash fn) slash = Some p ->
        ramdisk_find_path (files s) (dirs s) (rootdir s) (strip_slash fn)
                          false = Ok NULL ->
        next_alloc s = true ->
        ramdisk_open fn mode s
        = Ok (NULL, with_errno (Some ENOENT) (after_alloc s))).
Proof.
  intros Hinv.
  destruct (inv_root_node s Hinv) as (Hrt & r & Hr & Hrd & Hdata).
  assert (Hlookup : forall fn mode,
            mode_rdonly mode = true -> strip_slash fn <> EmptyString ->
            ramdisk_find_path (files s) (dirs s) (rootdir s) (strip_slash fn)
                              (mode_dir mode) = Ok NULL ->
            ramdisk_open fn mode s = Ok (NULL, with_errno (Some ENOENT) s)).
  { intros fn mode Hro Hfn Hnone.
    rewrite ramdisk_open_phases, Hro. rewrite andb_false_r.
    unfold bind at 1. unfold open_lookup.
    fold (mode_dir mode). fold (mode_rdonly mode). rewrite Hro. go.
    destruct (strip_slash fn) as [|c fn'] eqn:Hstrip; [congruence|].
    unfold find_path. go. rewrite Hnone. go.
    change (NULL =? NULL) with true. cbn [negb andb]. go.
    reflexivity. }
  split; [|split; [exact Hlookup|split; [|split]]].
  - intros fn mode Hd Hro.
    rewrite ramdisk_open_phases, Hd, Hro. reflexivity.
  - intros fn mode Hro Hd Hfn. apply Hlookup; auto.
    rewrite Hd. apply inv_find_dir, Hinv.
  - intros fn mode Hd Hfn.
    rewrite ramdisk_open_phases, Hd. cbn [andb].
    unfold bind at 1. unfold open_lookup. rewrite Hfn. go.
    unfold open_handle. fold (mode_dir mode). rewrite Hd. go.
    reflexivity.
  - intros fn mode p [Hwr Hd] Hp Hnone Ha.
    assert (Hro : mode_rdonly mode = false).
    { unfold mode_write in Hwr. apply andb_prop in Hwr as [Hro _].
      apply negb_true_iff in Hro. exact Hro. }
    rewrite ramdisk_open_phases, Hd. cbn [andb].
    unfold bind at 1. unfold open_lookup.
    fold (mode_dir mode). fold (mode_rdonly mode). rewrite Hd, Hro. go.
    destruct (strip_slash fn) as [|c fn'] eqn:Hstrip; [discriminate|].
    unfold find_path. go. rewrite Hnone. go.
    change (NULL =? NULL) with true. cbn [negb andb].
    unfold ramdisk_create_file, ramdisk_get_parent. rewrite Hp. go.
    unfold find_path. go.
    pose proof (inv_find_dir (after_alloc s) (strncpy (String c fn') p))
      as Hparent.
    cbn [files dirs rootdir after_alloc with_oracle] in Hparent.
    rewrite Hparent by exact Hinv. go.
    change (NULL =? NULL) with true. go.
    change (-1 <? 0) with true. go. reflexivity.
Qed.
End OpenFails.

(** X9, at a concrete input: the file system that holds ["/a"]. *)
Lemma X9_open_failures_witness :
  let s := st_file in
  (forall fn mode,
     mode_dir mode = true -> mode_rdonly mode = false ->
     ramdisk_open (H := kos_fcntl) fn mode s
     = Ok (NULL, with_errno (Some EISDIR) s))
  /\ (forall fn mode,
        mode_rdonly mode = true -> strip_slash fn <> EmptyString ->
        ramdisk_find_path (files s) (dirs s) (rootdir s) (strip_slash fn)
                          (mode_dir mode) = Ok NULL ->
        ramdisk_open (H := kos_fcntl) fn mode s
        = Ok (NULL, with_errno (Some ENOENT) s))
  /\ (forall fn mode,
        mode_rdonly mode = true -> mode_dir mode = true ->
        strip_slash fn <> EmptyString ->
        ramdisk_open (H := kos_fcntl) fn mode s
        = Ok (NULL, with_errno (Some ENOENT) s))
  /\ (forall fn mode,
        mode_dir mode = false -> strip_slash fn = EmptyString ->
        ramdisk_open (H := kos_fcntl) fn mode s
        = Ok (NULL, with_errno (Some EINVAL) s))
  /\ (forall fn mode p,
        opens_write mode ->
        strrchr (strip_slash fn) slash = Some p ->
        ramdisk_find_path (files s) (dirs s) (rootdir s) (strip_slash fn)
                          false = Ok NULL ->
        next_alloc s = true ->
        ramdisk_open (H := kos_fcntl) fn mode s
        = Ok (NULL, with_errno (Some ENOENT) (after_alloc s))).
Proof.
  apply (X9_open_failures (H := kos_fcntl) st_file). exact st_file_inv.
Defined.

(** ** Taking an element out of a directory list *)

Ltac elem :=
  repeat first [assumption | apply list_elem_of_here
               | apply list_elem_of_further].

Lemma filter_ne_id (l : list Z) f :
  f ∉ l -> filter (fun x => x <> f) l = l.
Proof.
  induction l as [|a l IH]; intros Hf; [reflexivity|].
  apply not_elem_of_cons in Hf as [Hfa Hfl].
  rewrite filter_cons_True by congruence. rewrite IH by exact Hfl.
  reflexivity.
Qed.

(** The neighbours of an element of a list. *)
Lemma chain_neighbours m prev a l :
  chain m prev a l -> NoDup l ->
  forall x e, x ∈ l -> m !! x = Some e ->
    (le_next e = NULL
     \/ (le_next e ∈ l
         /\ exists en, m !! le_next e = Some en /\ le_prev en = LinkNext x))
    /\ ((x = a /\ le_prev e = prev)
        \/ (exists p ep, le_prev e = LinkNext p /\ p ∈ l /\ x <> a
              /\ m !! p = Some ep /\ le_next ep = x)).
Proof.
  induction 1 as [prev|prev a e l Ha He Hprev Hchain IH]; intros Hnd x ex Hx Hex.
  { apply elem_of_nil in Hx. contradiction. }
  apply NoDup_cons in Hnd as [Hal Hnd].
  apply elem_of_cons in Hx as [->|Hx].
  - replace ex with e in * by congruence. split; [|left; auto].
    destruct (chain_inv _ _ _ _ Hchain)
      as [[Hn _]|(Hn & en & l' & -> & Hen & Hpv & _)]; [left; exact Hn|].
    right. split; [elem|]. eauto.
  - assert (Hxa : x <> a) by (intros ->; contradiction).
    destruct (IH Hnd x ex Hx Hex) as [Hnext Hpv]. split.
    + destruct Hnext as [?|[Hin Hen]]; [left; assumption|].
      right. split; [elem|exact Hen].
    + right. destruct Hpv as [[-> Hp]|(p & ep & Hp & Hin & Hne & Hep & Hnx)].
      * exists a, e. repeat split; auto. elem.
      * exists p, ep. repeat split; auto. elem.
Qed.

(** A list whose head gets another back link. *)
Lemma chain_rehead m m' prev prev' a l :
  chain m prev a l -> NoDup l ->
  (forall x e, x ∈ l -> m !! x = Some e ->
     exists e', m' !! x = Some e' /\ le_next e' = le_next e
       /\ le_prev e' = (if decide (x = a) then prev' else le_prev e)) ->
  chain m' prev' a l.
Proof.
  intros Hchain Hnd Hm'.
  destruct Hchain as [prev|prev a e l Ha He Hprev Hchain]; [constructor|].
  apply NoDup_cons in Hnd as [Hal Hnd].
  destruct (Hm' a e ltac:(elem) He) as (e' & He' & Hn & Hp).
  rewrite decide_True in Hp by reflexivity.
  econstructor; [exact Ha|exact He'|exact Hp|].
  rewrite Hn. eapply chain_ext; [exact Hchain|].
  intros x ex Hx Hex.
  destruct (Hm' x ex ltac:(elem) Hex) as (ex' & Hex' & Hnx & Hpx).
  rewrite decide_False in Hpx by (intros ->; contradiction).
  eauto.
Qed.

(** The list without [f], once the links around [f] point past it. *)
Lemma chain_remove m m' prev a l f ef :
  chain m prev a l -> NoDup l -> f ∈ l -> prev <> LinkNext f ->
  m !! f = Some ef ->
  (forall x e, x ∈ l -> x <> f -> m !! x = Some e ->
     exists e', m' !! x = Some e'
       /\ le_next e' = (if decide (le_next e = f) then le_next ef
                        else le_next e)
       /\ le_prev e' = (if decide (le_prev e = LinkNext f) then le_prev ef
                        else le_prev e)) ->
  chain m' prev (if decide (a = f) then le_next ef else a)
        (filter (fun x => x <> f) l).
Proof.
  induction 1 as [prev|prev a e l Ha He Hprev Hchain IH];
    intros Hnd Hf Hpf Hef Hm'.
  { apply elem_of_nil in Hf. contradiction. }
  pose proof (chain_neighbours _ _ _ _ Hchain) as Hnb.
  apply NoDup_cons in Hnd as [Hal Hnd].
  destruct (decide (a = f)) as [->|Haf].
  - (* [f] is the head *)
    replace ef with e in * by congruence.
    rewrite filter_cons_False by (intros Hc; apply Hc; reflexivity).
    rewrite (filter_ne_id l f Hal).
    eapply chain_rehead; [exact Hchain|exact Hnd|].
    intros x ex Hx Hex.
    assert (Hxf : x <> f) by (intros ->; contradiction).
    destruct (Hm' x ex ltac:(elem) Hxf Hex) as (ex' & Hex' & Hnx & Hpx).
    destruct (Hnb Hnd x ex Hx Hex) as [Hnext Hpv].
    exists ex'. split; [exact Hex'|]. split.
    + rewrite Hnx. apply decide_False.
      destruct Hnext as [Hn|[Hin _]]; [congruence|].
      intros Heq. rewrite Heq in Hin. contradiction.
    + rewrite Hpx.
      destruct Hpv as [[-> Hp]|(p & ep & Hp & Hin & Hne & _)].
      * rewrite Hp, !decide_True by reflexivity. exact Hprev.
      * destruct (decide (x = le_next e)) as [?|_]; [contradiction|].
        apply decide_False. rewrite Hp. intros [= ->]. contradiction.
  - (* [f] is further down *)
    apply elem_of_cons in Hf as [?|Hf]; [congruence|].
    rewrite filter_cons_True by exact Haf.
    destruct (Hm' a e ltac:(elem) Haf He) as (e' & He' & Hn & Hp).
    rewrite decide_False in Hp by (rewrite Hprev; exact Hpf).
    econstructor; [exact Ha|exact He'|congruence|].
    rewrite Hn. apply IH; auto.
    + intros [= ->]. congruence.
    + intros x ex Hx. apply Hm'. elem.
Qed.

(** Where the neighbours of the element at position [i] stand. *)
Lemma chain_lookup m prev a l :
  chain m prev a l ->
  forall i x e, l !! i = Some x -> m !! x = Some e ->
    ((le_next e = NULL /\ l !! S i = None)
     \/ (le_next e <> NULL /\ l !! S i = Some (le_next e)))
    /\ ((i = O /\ le_prev e = prev)
        \/ (exists j p, i = S j /\ l !! j = Some p
              /\ le_prev e = LinkNext p)).
Proof.
  induction 1 as [prev|prev a e l Ha He Hprev Hchain IH]; intros i x ex Hi Hex.
  { rewrite lookup_nil in Hi. discriminate. }
  destruct i as [|i]; cbn in Hi.
  - injection Hi as <-. replace ex with e in * by congruence.
    split; [|left; auto].
    destruct (chain_inv _ _ _ _ Hchain)
      as [[Hn ->]|(Hn & en & l' & -> & _)]; [left; auto|right; auto].
  - destruct (IH i x ex Hi Hex) as [Hnext Hpv]. split; [exact Hnext|].
    right. destruct Hpv as [[-> Hp]|(j & p & -> & Hj & Hp)].
    + exists O, a. auto.
    + exists (S j), p. auto.
Qed.

(** What [LIST_REMOVE] does to the list of the root directory. *)
Lemma list_remove_chain s l f ef first :
  dirs s !! rootdir s = Some first ->
  chain (files s) (LinkHead (rootdir s)) first l -> NoDup l ->
  f ∈ l -> files s !! f = Some ef ->
  exists s',
    LIST_REMOVE f s = Ok (tt, s')
    /\ (forall x e, x ∈ l -> x <> f -> files s !! x = Some e ->
          exists e', files s' !! x = Some e'
            /\ le_next e' = (if decide (le_next e = f) then le_next ef
                             else le_next e)
            /\ le_prev e' = (if decide (le_prev e = LinkNext f)
                             then le_prev ef else le_prev e)
            /\ set_le_next (le_next e) (set_le_prev (le_prev e) e') = e)
    /\ files s' !! f = Some ef
    /\ (forall x, x ∉ l -> files s' !! x = files s !! x)
    /\ dirs s' = <[rootdir s := if decide (first = f) then le_next ef
                                else first]> (dirs s)
    /\ fds s' = fds s /\ rd_fd_queue s' = rd_fd_queue s
    /\ root s' = root s /\ rootdir s' = rootdir s /\ errno s' = errno s
    /\ brk s' = brk s /\ oracle s' = oracle s.
Proof.
  intros Hfirst Hchain Hnd Hf Hef.
  pose proof (chain_neighbours _ _ _ _ Hchain Hnd) as Hnb.
  pose proof (chain_lookup _ _ _ _ Hchain) as Hlk.
  apply list_elem_of_lookup in Hf as [i Hi].
  assert (Hfl : f ∈ l) by (eapply list_elem_of_lookup_2; eauto).
  assert (Hf0 : f <> NULL) by (eapply chain_elem; eauto).
  destruct (Hlk i f ef Hi Hef) as [Hnext Hpv].
  (* who points at [f] *)
  assert (U1 : forall x e, x ∈ l -> files s !! x = Some e ->
                 le_next e = f -> le_prev ef = LinkNext x).
  { intros x e Hx Hex Hn.
    destruct (Hnb x e Hx Hex) as [[Hz|(_ & en & Hen & Hp)] _]; [congruence|].
    rewrite Hn in Hen. congruence. }
  assert (U2 : forall x e, x ∈ l -> files s !! x = Some e ->
                 le_prev e = LinkNext f -> le_next ef = x).
  { intros x e Hx Hex Hp.
    destruct (Hnb x e Hx Hex) as [_ [[_ Hh]|(p & ep & Hp' & _ & _ & Hep & Hn)]];
      [congruence|].
    rewrite Hp in Hp'. injection Hp' as <-. congruence. }
  assert (Hnz : forall x, x ∈ l -> x <> NULL)
    by (intros x Hx; eapply chain_elem; eauto).
  exists (run_state (LIST_REMOVE f) s).
  unfold run_state, LIST_REMOVE. go.
  destruct Hnext as [[Hn Hlast]|[Hn Hsucc]].
  - (* no successor *)
    rewrite Hn. change (NULL =? NULL) with true. go.
    destruct Hpv as [[-> Hp]|(j & p & -> & Hj & Hp)]; rewrite Hp.
    + (* the only element *)
      assert (Hhd : first = f).
      { destruct (chain_inv _ _ _ _ Hchain)
          as [[_ ->]|(_ & e0 & l' & -> & _)]; [discriminate|].
        cbn in Hi. congruence. }
      go. split; [reflexivity|]. cbn.
      rewrite decide_True by exact Hhd.
      split; [|repeat split; auto].
      intros x e Hx Hxf Hex. exists e. split; [exact Hex|].
      split; [|split; [|destruct e; reflexivity]].
      * apply eq_sym, decide_False. intros Hc.
        pose proof (U1 x e Hx Hex Hc). congruence.
      * apply eq_sym, decide_False. intros Hc.
        pose proof (U2 x e Hx Hex Hc). pose proof (Hnz _ Hx). congruence.
    + (* the last element *)
      assert (Hpl : p ∈ l) by (eapply list_elem_of_lookup_2; eauto).
      destruct (chain_elem _ _ _ _ _ Hchain Hpl) as [_ [ep Hep]].
      assert (Hpf : p <> f).
      { intros ->. pose proof (NoDup_lookup _ _ _ _ Hnd Hj Hi). lia. }
      destruct (Hlk j p ep Hj Hep) as [[[_ Hnone]|[_ Hs]] _]; [congruence|].
      rewrite Hi in Hs. injection Hs as Hpn.
      go. split; [reflexivity|]. cbn.
      assert (Hhd : first <> f).
      { intros ->.
        destruct (chain_inv _ _ _ _ Hchain)
          as [[? _]|(_ & e0 & l' & -> & He0 & Hp0 & _)]; [congruence|].
        congruence. }
      rewrite decide_False by exact Hhd.
      split; [|split; [rewrite ?lookup_insert_ne by congruence; first [reflexivity|exact Hef]|]].
      2:{ split; [intros x Hx; apply lookup_insert_ne; intros ->;
                  contradiction|].
          split; [|repeat split].
          rewrite insert_id by exact Hfirst. reflexivity. }
      intros x e Hx Hxf Hex.
      destruct (decide (x = p)) as [->|Hxp].
      * replace e with ep in * by congruence.
        rewrite lookup_insert_eq. eexists. split; [reflexivity|].
        cbn. split; [rewrite decide_True by congruence; reflexivity|].
        split; [|destruct ep; reflexivity].
        apply eq_sym, decide_False. intros Hc.
        pose proof (U2 p ep Hx Hex Hc). pose proof (Hnz _ Hx). congruence.
      * rewrite lookup_insert_ne by congruence.
        exists e. split; [exact Hex|].
        split; [|split; [|destruct e; reflexivity]].
        -- apply eq_sym, decide_False. intros Hc.
           pose proof (U1 x e Hx Hex Hc). congruence.
        -- apply eq_sym, decide_False. intros Hc.
           pose proof (U2 x e Hx Hex Hc). pose proof (Hnz _ Hx). congruence.
  - (* a successor *)
    remember (le_next ef) as nx eqn:Hnx.
    assert (Hnl : nx ∈ l) by (eapply list_elem_of_lookup_2; eauto).
    destruct (chain_elem _ _ _ _ _ Hchain Hnl) as [_ [en Hen]].
    assert (Hnf : nx <> f).
    { intros Hc. rewrite Hc in Hsucc.
      pose proof (NoDup_lookup _ _ _ _ Hnd Hsucc Hi). lia. }
    assert (Hnp : le_prev en = LinkNext f).
    { destruct (Hlk (S i) nx en Hsucc Hen)
        as [_ [[? _]|(j & p & [= <-] & Hj & Hp)]]; [discriminate|].
      congruence. }
    rewrite (eqb_null _ Hn). go.
    destruct Hpv as [[-> Hp]|(j & p & -> & Hj & Hp)]; rewrite Hp.
    + (* the head *)
      assert (Hhd : first = f).
      { destruct (chain_inv _ _ _ _ Hchain)
          as [[_ ->]|(_ & e0 & l' & -> & _)]; [discriminate|].
        cbn in Hi. congruence. }
      go. split; [reflexivity|]. cbn.
      rewrite decide_True by exact Hhd.
      split; [|split; [rewrite ?lookup_insert_ne by congruence; first [reflexivity|exact Hef]|]].
      2:{ split; [intros x Hx; apply lookup_insert_ne; intros ->;
                  contradiction|].
          repeat split; auto. }
      intros x e Hx Hxf Hex.
      destruct (decide (x = nx)) as [->|Hxn].
      * replace e with en in * by congruence.
        rewrite lookup_insert_eq. eexists. split; [reflexivity|].
        cbn. split.
        -- apply eq_sym, decide_False. intros Hc.
           pose proof (U1 nx en Hx Hex Hc). congruence.
        -- split; [rewrite decide_True by exact Hnp; reflexivity|].
           destruct en; reflexivity.
      * rewrite lookup_insert_ne by congruence.
        exists e. split; [exact Hex|].
        split; [|split; [|destruct e; reflexivity]].
        -- apply eq_sym, decide_False. intros Hc.
           pose proof (U1 x e Hx Hex Hc). congruence.
        -- apply eq_sym, decide_False. intros Hc.
           pose proof (U2 x e Hx Hex Hc). pose proof (Hnz _ Hx). congruence.
    + (* in the middle *)
      assert (Hpl : p ∈ l) by (eapply list_elem_of_lookup_2; eauto).
      destruct (chain_elem _ _ _ _ _ Hchain Hpl) as [_ [ep Hep]].
      assert (Hpf : p <> f).
      { intros ->. pose proof (NoDup_lookup _ _ _ _ Hnd Hj Hi). lia. }
      assert (Hpn : p <> nx).
      { intros Hc. rewrite Hc in Hj.
        pose proof (NoDup_lookup _ _ _ _ Hnd Hj Hsucc). lia. }
      destruct (Hlk j p ep Hj Hep) as [[[_ Hnone]|[_ Hs]] _]; [congruence|].
      rewrite Hi in Hs. injection Hs as Hpnx.
      go. split; [reflexivity|]. cbn.
      assert (Hhd : first <> f).
      { intros ->.
        destruct (chain_inv _ _ _ _ Hchain)
          as [[? _]|(_ & e0 & l' & -> & He0 & Hp0 & _)]; [congruence|].
        congruence. }
      rewrite decide_False by exact Hhd.
      split; [|split; [rewrite ?lookup_insert_ne by congruence; first [reflexivity|exact Hef]|]].
      2:{ split; [intros x Hx; rewrite !lookup_insert_ne;
                  [reflexivity|intros ->; contradiction
                  |intros ->; contradiction]|].
          split; [|repeat split].
          rewrite insert_id by exact Hfirst. reflexivity. }
      intros x e Hx Hxf Hex.
      destruct (decide (x = p)) as [->|Hxp];
        [|destruct (decide (x = nx)) as [->|Hxn]].
      * replace e with ep in * by congruence.
        rewrite lookup_insert_eq. eexists. split; [reflexivity|].
        cbn. split; [rewrite decide_True by congruence; reflexivity|].
        split; [|destruct ep; reflexivity].
        apply eq_sym, decide_False. intros Hc.
        pose proof (U2 p ep Hx Hex Hc). pose proof (Hnz _ Hx). congruence.
      * replace e with en in * by congruence.
        rewrite lookup_insert_ne, lookup_insert_eq by congruence.
        eexists. split; [reflexivity|]. cbn. split.
        -- apply eq_sym, decide_False. intros Hc.
           pose proof (U1 nx en Hx Hex Hc). congruence.
        -- split; [rewrite decide_True by exact Hnp; reflexivity|].
           destruct en; reflexivity.
      * rewrite !lookup_insert_ne by congruence.
        exists e. split; [exact Hex|].
        split; [|split; [|destruct e; reflexivity]].
        -- apply eq_sym, decide_False. intros Hc.
           pose proof (U1 x e Hx Hex Hc). congruence.
        -- apply eq_sym, decide_False. intros Hc.
           pose proof (U2 x e Hx Hex Hc). pose proof (Hnz _ Hx). congruence.
Qed.

(** The same, of a well-formed state. *)
Lemma list_remove_ok s l f ef :
  inv_at s l -> f ∈ l -> files s !! f = Some ef ->
  exists s' first,
    LIST_REMOVE f s = Ok (tt, s')
    /\ (forall x e, x ∈ l -> x <> f -> files s !! x = Some e ->
          exists e', files s' !! x = Some e'
            /\ le_next e' = (if decide (le_next e = f) then le_next ef
                             else le_next e)
            /\ le_prev e' = (if decide (le_prev e = LinkNext f)
                             then le_prev ef else le_prev e)
            /\ set_le_next (le_next e) (set_le_prev (le_prev e) e') = e)
    /\ files s' !! f = Some ef
    /\ (forall x, x ∉ l -> files s' !! x = files s !! x)
    /\ dirs s !! rootdir s = Some first
    /\ dirs s' = <[rootdir s := if decide (first = f) then le_next ef
                                else first]> (dirs s)
    /\ fds s' = fds s /\ rd_fd_queue s' = rd_fd_queue s
    /\ root s' = root s /\ rootdir s' = rootdir s /\ errno s' = errno s
    /\ brk s' = brk s /\ oracle s' = oracle s.
Proof.
  intros Hinv Hf Hef. unfold inv_at in Hinv.
  destruct (inv_chain _ _ _ _ _ _ _ _ Hinv) as (first & Hfirst & Hchain).
  assert (Hnd : NoDup l).
  { pose proof (inv_nodup _ _ _ _ _ _ _ _ Hinv) as Hn.
    apply NoDup_cons in Hn as [_ Hn]. exact Hn. }
  destruct (list_remove_chain s l f ef first Hfirst Hchain Hnd Hf Hef)
    as (s' & Hrun & HA & HB & HC & Hrest).
  exists s', first. auto 10.
Qed.

Lemma same_but_links e e' :
  set_le_next (le_next e) (set_le_prev (le_prev e) e') = e ->
  name e' = name e /\ size e' = size e /\ isdir e' = isdir e
  /\ openfor e' = openfor e /\ usage e' = usage e /\ data e' = data e
  /\ datasize e' = datasize e.
Proof. intros <-. repeat split. Qed.

(** Taking a file that nobody has open out of the root directory. *)
Lemma remove_node_ok s l f ef :
  inv_at s l -> f ∈ l -> files s !! f = Some ef -> usage ef = 0 ->
  exists s',
    (LIST_REMOVE f ;;;
     modify (fun s => with_files (delete f (files s)) s)) s = Ok (tt, s')
    /\ inv_at s' (filter (fun x => x <> f) l)
    /\ files s' !! f = None
    /\ (forall x e, x <> f -> files s !! x = Some e ->
          exists e', files s' !! x = Some e'
            /\ set_le_next (le_next e) (set_le_prev (le_prev e) e') = e)
    /\ fds s' = fds s /\ rd_fd_queue s' = rd_fd_queue s
    /\ root s' = root s /\ rootdir s' = rootdir s /\ errno s' = errno s
    /\ brk s' = brk s /\ oracle s' = oracle s.
Proof.
  intros Hinv Hf Hef Hu.
  destruct (list_remove_ok s l f ef Hinv Hf Hef)
    as (s1 & first & Hrun & HA & HB & HC & Hfirst & Hdirs & Hfds & Hq & Hrt
        & Hrd & Herr & Hbrk & Hor).
  unfold inv_at in Hinv.
  destruct (inv_chain _ _ _ _ _ _ _ _ Hinv) as (first' & Hfirst' & Hchain).
  replace first' with first in * by congruence. clear Hfirst'.
  pose proof (inv_nodup _ _ _ _ _ _ _ _ Hinv) as Hnd0.
  apply NoDup_cons in Hnd0 as [Hrl Hnd].
  assert (HD : forall x e, x <> f -> files s !! x = Some e ->
             exists e', delete f (files s1) !! x = Some e'
               /\ set_le_next (le_next e) (set_le_prev (le_prev e) e') = e).
  { intros x e Hxf Hex. rewrite lookup_delete_ne by congruence.
    destruct (decide (x ∈ l)) as [Hx|Hx].
    - destruct (HA x e Hx Hxf Hex) as (e' & He' & _ & _ & Heq). eauto.
    - rewrite (HC x Hx). exists e. split; [exact Hex|].
      destruct e; reflexivity. }
  assert (HE : forall x, is_Some (delete f (files s1) !! x) ->
             x <> f /\ is_Some (files s !! x)).
  { intros x Hx. destruct (decide (x = f)) as [->|Hxf].
    - rewrite lookup_delete_eq in Hx. destruct Hx; discriminate.
    - split; [exact Hxf|]. rewrite lookup_delete_ne in Hx by congruence.
      destruct (decide (x ∈ l)) as [Hxl|Hxl].
      + eapply chain_elem; eauto.
      + rewrite (HC x Hxl) in Hx. exact Hx. }
  assert (Hnone : forall h fd, h ∈ rd_fd_queue s -> fds s !! h = Some fd ->
                    file fd <> f).
  { intros h fd Hh Hfd Hc.
    destruct (inv_locks _ _ _ _ _ _ _ _ Hinv _ _ Hef) as [Hcount _].
    unfold live_count_of in Hcount.
    assert (Hin : h ∈ filter (fun h => file <$> fds s !! h = Some f)
                             (rd_fd_queue s)).
    { apply list_elem_of_filter. split; [|exact Hh].
      rewrite Hfd. cbn. congruence. }
    destruct (filter _ (rd_fd_queue s)) eqn:E.
    - apply elem_of_nil in Hin. contradiction.
    - cbn in Hcount. lia. }
  exists (with_files (delete f (files s1)) s1).
  split; [unfold bind; rewrite Hrun; reflexivity|].
  split.
  { unfold inv_at. cbn. rewrite Hdirs, Hfds, Hq, Hrt, Hrd, Hbrk.
    split.
    - exact (inv_brk _ _ _ _ _ _ _ _ Hinv).
    - intros a Ha. apply (inv_files_lt _ _ _ _ _ _ _ _ Hinv), HE, Ha.
    - intros a Ha. apply (inv_dirs_lt _ _ _ _ _ _ _ _ Hinv).
      apply lookup_insert_is_Some in Ha as [<-|[_ Ha]]; [|exact Ha].
      rewrite Hfirst. eauto.
    - exact (inv_fds_lt _ _ _ _ _ _ _ _ Hinv).
    - destruct (inv_root _ _ _ _ _ _ _ _ Hinv) as (r & Hr & Hrd' & Hdata).
      assert (Hrf : root s <> f) by (intros Hc; rewrite Hc in Hrl; contradiction).
      exists r. split; [|auto].
      rewrite lookup_delete_ne by congruence. rewrite (HC _ Hrl). exact Hr.
    - eexists. split; [apply lookup_insert_eq|].
      eapply chain_remove; [exact Hchain|exact Hnd|exact Hf|discriminate
                           |exact Hef|].
      intros x e Hx Hxf Hex. rewrite lookup_delete_ne by congruence.
      destruct (HA x e Hx Hxf Hex) as (e' & He' & Hn & Hp & _). eauto.
    - apply NoDup_cons. split; [|apply NoDup_filter, Hnd].
      intros Hc. apply list_elem_of_filter in Hc as [_ Hc]. contradiction.
    - intros a Ha. destruct (HE a Ha) as [Haf Hsome].
      pose proof (inv_nodes _ _ _ _ _ _ _ _ Hinv a Hsome) as Hin.
      apply elem_of_cons in Hin as [->|Hin]; [apply list_elem_of_here|].
      apply list_elem_of_further, list_elem_of_filter. auto.
    - intros a e' Ha He'. apply list_elem_of_filter in Ha as [Haf Ha].
      destruct (chain_elem _ _ _ _ _ Hchain Ha) as [_ [e Hex]].
      destruct (HD a e Haf Hex) as (e'' & He'' & Heq).
      replace e'' with e' in * by congruence.
      destruct (same_but_links _ _ Heq) as (_ & Hsz & Hd & _ & _ & Hda & Hds).
      destruct (inv_flat _ _ _ _ _ _ _ _ Hinv a e Ha Hex) as [Hfile Hblock].
      split; [congruence|].
      eapply block_ok_fields; [| | |exact Hblock]; auto.
    - intros a e' He'. destruct (HE a ltac:(rewrite He'; eauto)) as [Haf [e Hex]].
      destruct (HD a e Haf Hex) as (e'' & He'' & Heq).
      replace e'' with e' in * by congruence.
      destruct (same_but_links _ _ Heq) as (_ & _ & _ & Hof & Hus & _).
      eapply lock_ok_fields; [| |exact (inv_locks _ _ _ _ _ _ _ _ Hinv _ _ Hex)];
        auto.
    - exact (inv_queue_nodup _ _ _ _ _ _ _ _ Hinv).
    - intros h Hh.
      destruct (inv_queue _ _ _ _ _ _ _ _ Hinv h Hh) as (fd & Hfd & [e He] & Hp).
      exists fd. split; [exact Hfd|]. split; [|exact Hp].
      destruct (HD (file fd) e (Hnone h fd Hh Hfd) He) as (e' & He' & _).
      rewrite He'. eauto. }
  split; [apply lookup_delete_eq|].
  split; [exact HD|]. auto 10.
Qed.

(** ** Unlink *)

Lemma unlink_ok s l fn f e :
  inv_at s l -> resolves s fn f -> files s !! f = Some e -> usage e = 0 ->
  exists s',
    ramdisk_unlink fn s = Ok (0, s')
    /\ inv_at s' (filter (fun x => x <> f) l)
    /\ files s' !! f = None
    /\ (forall fn',
          ramdisk_find_path (files s') (dirs s') (rootdir s') fn' false
          <> Ok f)
    /\ (forall x e0, x <> f -> files s !! x = Some e0 ->
          exists e', files s' !! x = Some e'
            /\ set_le_next (le_next e0) (set_le_prev (le_prev e0) e') = e0)
    /\ fds s' = fds s /\ rd_fd_queue s' = rd_fd_queue s
    /\ errno s' = errno s.
Proof.
  intros Hinv [Hf0 Hres] He Hu.
  assert (Hfl : f ∈ l).
  { destruct (inv_core_find_path _ _ _ _ _ _ _ _ fn false Hinv)
      as (r & Hr & Hcase).
    replace r with f in * by congruence.
    destruct Hcase; [contradiction|assumption]. }
  destruct (remove_node_ok s l f e Hinv Hfl He Hu)
    as (s' & Hrun & Hinv' & Hgone & Hrest & Hfds & Hq & _ & _ & Herr & _).
  exists s'. split.
  { unfold ramdisk_unlink. unfold find_path. go. rewrite Hres. go.
    rewrite (eqb_null _ Hf0). go. rewrite Hu. cbn [nonzero Z.eqb negb].
    unfold bind in Hrun.
    destruct (LIST_REMOVE f s) as [[[] s1]|]; [|discriminate].
    unfold modify in *. injection Hrun as <-. reflexivity. }
  split; [exact Hinv'|]. split; [exact Hgone|].
  split; [|auto].
  intros fn' Hc.
  destruct (inv_core_find_path _ _ _ _ _ _ _ _ fn' false Hinv')
    as (r & Hr & Hcase).
  replace r with f in * by congruence.
  destruct Hcase as [?|Hin]; [contradiction|].
  apply list_elem_of_filter in Hin as [Hne _]. contradiction.
Qed.

(** X10.  [ramdisk_unlink] of a path that names a file nobody has open
    returns 0 and takes the file out: the file is gone from the store and
    from the root directory, no path resolves to it any more, every other
    file keeps its name, contents and lock, the handles are untouched, and
    the state is well formed again. *)
Theorem X10_unlink_removes_the_file s l fn f e :
  inv_at s l -> resolves s fn f -> files s !! f = Some e -> usage e = 0 ->
  exists s',
    ramdisk_unlink fn s = Ok (0, s')
    /\ inv_at s' (filter (fun x => x <> f) l)
    /\ files s' !! f = None
    /\ (forall fn',
          ramdisk_find_path (files s') (dirs s') (rootdir s') fn' false
          <> Ok f)
    /\ (forall x e0, x <> f -> files s !! x = Some e0 ->
          exists e', files s' !! x = Some e'
            /\ set_le_next (le_next e0) (set_le_prev (le_prev e0) e') = e0)
    /\ fds s' = fds s /\ rd_fd_queue s' = rd_fd_queue s
    /\ errno s' = errno s.
Proof. exact (unlink_ok s l fn f e). Qed.

(** X10, at a concrete input: ["/a"] once it has been closed. *)
Lemma X10_unlink_witness :
  exists s',
    ramdisk_unlink "/a" st_file = Ok (0, s')
    /\ inv_at s' (filter (fun x => x <> 3) [3])
    /\ files s' !! 3 = None
    /\ (forall fn',
          ramdisk_find_path (files s') (dirs s') (rootdir s') fn' false
          <> Ok 3)
    /\ (forall x e0, x <> 3 -> files st_file !! x = Some e0 ->
          exists e', files s' !! x = Some e'
            /\ set_le_next (le_next e0) (set_le_prev (le_prev e0) e') = e0)
    /\ fds s' = fds st_file /\ rd_fd_queue s' = rd_fd_queue st_file
    /\ errno s' = errno st_file.
Proof.
  apply (X10_unlink_removes_the_file st_file [3] "/a" 3 (the_file st_file 3)).
  - exact st_file_inv_at.
  - split; [discriminate|vm_compute; reflexivity].
  - vm_compute. reflexivity.
  - reflexivity.
Defined.

(** X11.  [ramdisk_unlink] fails with [ENOENT] when the path names no
    file (the root directory, named by the empty path or by ["/"], is no
    file), and with [EBUSY] when a handle of the file is open; either way
    it returns -1 and only [errno] changes. *)
Theorem X11_unlink_failures s :
  (forall fn,
     ramdisk_find_path (files s) (dirs s) (rootdir s) fn false = Ok NULL ->
     ramdisk_unlink fn s = Ok (-1, with_errno (Some ENOENT) s))
  /\ ramdisk_unlink EmptyString s = Ok (-1, with_errno (Some ENOENT) s)
  /\ ramdisk_unlink (String slash EmptyString) s
     = Ok (-1, with_errno (Some ENOENT) s)
  /\ (forall fn f e,
        resolves s fn f -> files s !! f = Some e -> usage e <> 0 ->
        ramdisk_unlink fn s = Ok (-1, with_errno (Some EBUSY) s)).
Proof.
  assert (Hnone : forall fn,
            ramdisk_find_path (files s) (dirs s) (rootdir s) fn false
            = Ok NULL ->
            ramdisk_unlink fn s = Ok (-1, with_errno (Some ENOENT) s)).
  { intros fn Hfn. unfold ramdisk_unlink, find_path. go. rewrite Hfn. go.
    reflexivity. }
  split; [exact Hnone|]. split; [apply Hnone; reflexivity|].
  split; [apply Hnone; reflexivity|].
  intros fn f e [Hf0 Hres] He Hu.
  unfold ramdisk_unlink, find_path. go. rewrite Hres. go.
  rewrite (eqb_null _ Hf0). go.
  apply Z.eqb_neq in Hu. unfold nonzero. rewrite Hu. reflexivity.
Qed.

(** ** Attach and detach *)

(** A leading slash is skipped by the path walk itself. *)
Lemma find_path_strip fm dm parent fn dir :
  ramdisk_find_path fm dm parent fn dir
  = ramdisk_find_path fm dm parent (strip_slash fn) dir.
Proof.
  destruct fn as [|c fn']; [reflexivity|]. cbn [strip_slash].
  destruct (Ascii.eqb c slash) eqn:E; [|reflexivity].
  apply Ascii.eqb_eq in E. subst c. reflexivity.
Qed.

Section Detach.
Context `{FcntlFlags}.

Lemma detach_ok s l fn f e :
  inv_at s l -> opens_read O_RDONLY ->
  strip_slash fn <> EmptyString -> resolves s (strip_slash fn) f ->
  files s !! f = Some e -> usage e = 0 -> next_alloc s = true ->
  exists s',
    fs_ramdisk_detach fn s = Ok ((0, Some (data e, size e)), s')
    /\ inv_at s' (filter (fun x => x <> f) l)
    /\ files s' !! f = None
    /\ (forall fn',
          ramdisk_find_path (files s') (dirs s') (rootdir s') fn' false
          <> Ok f)
    /\ (forall x e0, x <> f -> files s !! x = Some e0 ->
          exists e', files s' !! x = Some e'
            /\ set_le_next (le_next e0) (set_le_prev (le_prev e0) e') = e0)
    /\ errno s' = errno s.
Proof.
  intros Hinv Hrd Hfn Hres He Hu Ha.
  destruct (inv_resolved s _ f (ex_intro _ l Hinv) Hres)
    as (Hroot & Hbk & e' & He' & Hd & Hlock).
  replace e' with e in * by congruence. clear He'.
  assert (Hof : openfor e = OPENFOR_NOTHING).
  { destruct Hlock as [Hc [[? _]|[[_ ?]|[_ ?]]]]; [assumption|lia|lia]. }
  assert (Hlive0 : live_count_of (fds s) (rd_fd_queue s) f = 0).
  { destruct Hlock as [Hc _]. unfold live_count in Hc. lia. }
  pose proof (ramdisk_open_read s fn f e Hroot Hbk Hfn Hres He Hd O_RDONLY
                ltac:(rewrite Hof; discriminate) Hrd Ha) as Hopen.
  set (h := brk s) in *.
  set (e1 := set_usage (usage e + 1) (set_openfor OPENFOR_READ e)) in *.
  set (d1 := mk_rd_fd f false 0 dirent0 O_RDONLY) in *.
  set (s1 := opened (after_alloc s) f e1 d1) in *.
  assert (Hh : h <> NULL) by (unfold h, NULL; lia).
  assert (Hinv1 : inv_at s1 l).
  { unfold inv_at, s1. cbn.
    apply inv_core_opened with (e := e); auto.
    - intros _.
      destruct (inv_core_node_block _ _ _ _ _ _ _ _ _ _ Hinv He Hd)
        as [_ Hb].
      eapply block_ok_fields; [| | |exact Hb]; reflexivity.
    - cbn. lia.
    - rewrite Hlive0. apply (lock_ok_read e 0); [lia|exact Hu]. }
  set (e2 := set_size 0 (set_datasize 0 (set_data DataNull e1))).
  assert (He1 : files s1 !! f = Some e1) by apply lookup_insert_eq.
  assert (Hinv2 : inv_at (with_files (<[f := e2]> (files s1)) s1) l).
  { eapply inv_set_block; eauto; reflexivity. }
  assert (Hlive : live (with_files (<[f := e2]> (files s1)) s1) h).
  { unfold live. cbn. apply elem_of_app. right. apply list_elem_of_here. }
  destruct (close_live _ l h Hinv2 Hlive)
    as (fd' & e'' & Hfd' & He'' & Hclose & Hinv3).
  assert (fd' = d1) as ->.
  { cbn in Hfd'. rewrite lookup_insert_eq in Hfd'. congruence. }
  cbn [file d1] in He'', Hclose, Hinv3.
  assert (e'' = e2) as ->.
  { cbn in He''. rewrite lookup_insert_eq in He''. congruence. }
  set (s3 := with_queue _ _) in Hclose, Hinv3.
  assert (He3 : files s3 !! f = Some (closed_file e2))
    by apply lookup_insert_eq.
  assert (Hres3 : resolves s3 fn f).
  { destruct Hres as [Hf0 Hres]. split; [exact Hf0|].
    rewrite find_path_strip, <- Hres. symmetry.
    apply ramdisk_find_path_shape. cbn.
    rewrite !insert_insert_eq.
    apply same_shape_insert with (e := e); [exact He|].
    rewrite shape_closed_file. unfold shape. cbn. rewrite Hd. reflexivity. }
  destruct (unlink_ok s3 l fn f (closed_file e2) Hinv3 Hres3 He3)
    as (s' & Hunlink & Hinv' & Hgone & Hnores & Hrest & _ & _ & Herr).
  { unfold closed_file. cbn. rewrite Hu. reflexivity. }
  assert (Hfd1 : fds s1 !! h = Some d1) by apply lookup_insert_eq.
  exists s'. split.
  { unfold fs_ramdisk_detach. unfold bind at 1. rewrite Hopen.
    rewrite (eqb_null _ Hh). go. cbn [file d1]. go.
    rewrite ?insert_insert_eq. fold e2.
    match goal with
    | |- context [ramdisk_close h ?st] =>
        change st with (with_files (<[f:=e2]> (files s1)) s1)
    end.
    rewrite Hclose. rewrite Hunlink. reflexivity. }
  split; [exact Hinv'|]. split; [exact Hgone|]. split; [exact Hnores|].
  split; [|exact Herr].
  intros x e0 Hx Hex.
  apply Hrest; [exact Hx|].
  cbn. rewrite !lookup_insert_ne by congruence. exact Hex.
Qed.
End Detach.

Section Attach.
Context `{FcntlFlags}.

Lemma attach_ok s fn obj sz s1 :
  inv s -> oracle s = [] -> opens_truncate (Z.lor O_WRONLY O_TRUNC) ->
  sz = Z.of_nat (length obj) -> sz < 2 ^ 32 ->
  fs_ramdisk_attach fn obj sz s = Ok (0, s1) ->
  exists f e,
    inv s1 /\ oracle s1 = []
    /\ strip_slash fn <> EmptyString
    /\ resolves s1 (strip_slash fn) f
    /\ files s1 !! f = Some e
    /\ isdir e = false /\ usage e = 0 /\ openfor e = OPENFOR_NOTHING
    /\ data e = DataBlock obj /\ size e = sz /\ datasize e = sz.
Proof.
  intros Hinv Ho Htr Hsz Hsmall Hattach.
  set (mode := Z.lor O_WRONLY O_TRUNC) in *.
  destruct (ramdisk_open fn mode s) as [[h so]|t] eqn:Hopen.
  2:{ unfold fs_ramdisk_attach in Hattach. unfold bind at 1 in Hattach.
      fold mode in Hattach. rewrite Hopen in Hattach. discriminate. }
  assert (Hh : h <> NULL).
  { intros ->. unfold fs_ramdisk_attach in Hattach.
    unfold bind at 1 in Hattach. fold mode in Hattach.
    rewrite Hopen in Hattach. discriminate. }
  destruct (open_truncate_success s fn mode h so Hinv Htr Ho Hopen Hh)
    as (s0 & f & e0 & Hfn & Hres & He0 & Hd & Hu & Hinv0 & Ho0 & Hbk0
        & Hroot0 & Hhb & Hso).
  destruct (ramdisk_open_inv _ _ _ _ _ Hinv Hopen) as [[l Hinvo] Hlive].
  destruct Hlive as [?|[Hlive _]]; [congruence|].
  set (e1 := set_usage (usage e0 + 1)
               (set_size 0
                  (set_data (fresh_block rd_blksize)
                     (set_datasize rd_blksize
                        (set_openfor OPENFOR_WRITE e0))))) in *.
  set (d1 := mk_rd_fd f false 0 dirent0 mode) in *.
  assert (Hfd1 : fds so !! h = Some d1)
    by (rewrite Hso, Hhb; apply lookup_insert_eq).
  assert (He1 : files so !! f = Some e1)
    by (rewrite Hso; apply lookup_insert_eq).
  assert (Hw : wrap32 sz = sz) by (apply wrap32_small; lia).
  set (e3 := set_size sz (set_datasize sz (set_data (DataBlock obj) e1))).
  assert (Hinv2 : inv_at (with_files (<[f := e3]> (files so)) so) l).
  { eapply inv_set_block; eauto; try reflexivity.
    unfold block_ok. cbn. lia. }
  assert (Hlive2 : live (with_files (<[f := e3]> (files so)) so) h)
    by exact Hlive.
  destruct (close_live _ l h Hinv2 Hlive2)
    as (fd' & e'' & Hfd' & He'' & Hclose & Hinv3).
  assert (fd' = d1) as -> by (cbn in Hfd'; congruence).
  cbn [file d1] in He'', Hclose, Hinv3.
  assert (e'' = e3) as ->.
  { cbn in He''. rewrite lookup_insert_eq in He''. congruence. }
  set (s3 := with_queue _ _) in Hclose, Hinv3.
  assert (Hrun : fs_ramdisk_attach fn obj sz s = Ok (0, s3)).
  { unfold fs_ramdisk_attach. unfold bind at 1. fold mode. rewrite Hopen.
    rewrite (eqb_null _ Hh). go. cbn [file d1]. go.
    rewrite ?insert_insert_eq. rewrite Hw. fold e3.
    match goal with
    | |- context [ramdisk_close h ?st] =>
        change st with (with_files (<[f:=e3]> (files so)) so)
    end.
    rewrite Hclose. reflexivity. }
  rewrite Hrun in Hattach. injection Hattach as <-.
  exists f, (closed_file e3).
  split; [exists l; exact Hinv3|].
  split; [cbn; rewrite Hso; cbn; rewrite Ho0; reflexivity|].
  split; [exact Hfn|].
  split.
  { destruct Hres as [Hf0 Hres]. split; [exact Hf0|].
    unfold s3. cbn. rewrite Hso. cbn. rewrite <- Hres. symmetry.
    apply ramdisk_find_path_shape.
    rewrite !insert_insert_eq.
    apply same_shape_insert with (e := e0); [exact He0|].
    rewrite shape_closed_file. unfold shape. cbn. rewrite Hd. reflexivity. }
  split; [apply lookup_insert_eq|].
  unfold closed_file. cbn. rewrite Hu. cbn. repeat split; exact Hd.
Qed.
End Attach.

Section AttachDetach.
Context `{FcntlFlags}.

(** X12.  When [fs_ramdisk_attach] returns 0 the path names a closed
    file whose block is the object attached and whose size and capacity
    are the size given, in a well-formed state; and [fs_ramdisk_detach]
    of the same path then hands back that object and that size, returns
    0, and removes the file. *)
Theorem X12_attach_then_detach s fn obj sz s1 :
  inv s -> oracle s = [] -> flags_sane ->
  sz = Z.of_nat (length obj) -> sz < 2 ^ 32 ->
  fs_ramdisk_attach fn obj sz s = Ok (0, s1) ->
  exists f e s2,
    inv s1
    /\ resolves s1 (strip_slash fn) f
    /\ files s1 !! f = Some e
    /\ usage e = 0 /\ openfor e = OPENFOR_NOTHING
    /\ data e = DataBlock obj /\ size e = sz /\ datasize e = sz
    /\ fs_ramdisk_detach fn s1 = Ok ((0, Some (DataBlock obj, sz)), s2)
    /\ inv s2
    /\ files s2 !! f = None.
Proof.
  intros Hinv Ho [Hrd Htr] Hsz Hsmall Hattach.
  destruct (attach_ok s fn obj sz s1 Hinv Ho Htr Hsz Hsmall Hattach)
    as (f & e & [l Hinv1] & Ho1 & Hfn & Hres & He & Hd & Hu & Hof & Hda
        & Hsize & Hds).
  destruct (detach_ok s1 l fn f e Hinv1 Hrd Hfn Hres He Hu
              (next_alloc_nil s1 Ho1))
    as (s2 & Hdetach & Hinv2 & Hgone & _).
  rewrite Hda, Hsize in Hdetach.
  exists f, e, s2.
  split; [exists l; exact Hinv1|]. split; [exact Hres|]. split; [exact He|].
  split; [exact Hu|]. split; [exact Hof|]. split; [exact Hda|].
  split; [exact Hsize|]. split; [exact Hds|]. split; [exact Hdetach|].
  split; [eexists; exact Hinv2|exact Hgone].
Qed.

(** X13.  [fs_ramdisk_detach] of a path that names a file nobody has
    open returns 0 with the file's block and size, and removes the file:
    it is gone from the store and from the root directory, no path
    resolves to it, and the other files keep their name, contents and
    lock. *)
Theorem X13_detach_hands_out_and_removes s l fn f e :
  inv_at s l -> opens_read O_RDONLY ->
  strip_slash fn <> EmptyString -> resolves s (strip_slash fn) f ->
  files s !! f = Some e -> usage e = 0 -> next_alloc s = true ->
  exists s',
    fs_ramdisk_detach fn s = Ok ((0, Some (data e, size e)), s')
    /\ inv_at s' (filter (fun x => x <> f) l)
    /\ files s' !! f = None
    /\ (forall fn',
          ramdisk_find_path (files s') (dirs s') (rootdir s') fn' false
          <> Ok f)
    /\ (forall x e0, x <> f -> files s !! x = Some e0 ->
          exists e', files s' !! x = Some e'
            /\ set_le_next (le_next e0) (set_le_prev (le_prev e0) e') = e0)
    /\ errno s' = errno s.
Proof. exact (detach_ok s l fn f e). Qed.
End AttachDetach.

(** X12, at a concrete input: three bytes attached as ["/a"] to the
    freshly initialised file system. *)
Lemma X12_attach_witness :
  exists f e s2,
    let s1 := run_state (fs_ramdisk_attach (H := kos_fcntl) "/a" ex_bytes 3)
                        st_init in
    inv s1
    /\ resolves s1 (strip_slash "/a") f
    /\ files s1 !! f = Some e
    /\ usage e = 0 /\ openfor e = OPENFOR_NOTHING
    /\ data e = DataBlock ex_bytes /\ size e = 3 /\ datasize e = 3
    /\ fs_ramdisk_detach (H := kos_fcntl) "/a" s1
       = Ok ((0, Some (DataBlock ex_bytes, 3)), s2)
    /\ inv s2
    /\ files s2 !! f = None.
Proof.
  apply (X12_attach_then_detach (H := kos_fcntl) st_init "/a" ex_bytes 3).
  - exact st_init_inv.
  - reflexivity.
  - exact kos_flags_sane.
  - reflexivity.
  - reflexivity.
  - vm_compute. reflexivity.
Defined.

(** X13, at a concrete input: ["/a"], which holds three bytes. *)
Lemma X13_detach_witness :
  let e := the_file st_file 3 in
  exists s',
    fs_ramdisk_detach (H := kos_fcntl) "/a" st_file
    = Ok ((0, Some (data e, size e)), s')
    /\ inv_at s' (filter (fun x => x <> 3) [3])
    /\ files s' !! 3 = None
    /\ (forall fn',
          ramdisk_find_path (files s') (dirs s') (rootdir s') fn' false
          <> Ok 3)
    /\ (forall x e0, x <> 3 -> files st_file !! x = Some e0 ->
          exists e', files s' !! x = Some e'
            /\ set_le_next (le_next e0) (set_le_prev (le_prev e0) e') = e0)
    /\ errno s' = errno st_file.
Proof.
  apply (X13_detach_hands_out_and_removes (H := kos_fcntl) st_file [3] "/a"
           3 (the_file st_file 3)).
  - exact st_file_inv_at.
  - exact kos_opens_read.
  - discriminate.
  - exact st_file_resolves.
  - vm_compute. reflexivity.
  - reflexivity.
  - reflexivity.
Defined.

(** ** Listing the root directory *)

Section Listing.
Context `{FcntlFlags} `{DirentLayout}.

Lemma readdir_step s h fd a e :
  valid_handle s h fd -> dir fd = true -> ptr fd = a ->
  files s !! a = Some e -> 0 <= le_next e < 2 ^ 32 ->
  strlen (name e) < DIRENT_NAME_LEN ->
  ramdisk_readdir h s
  = Ok (Some (entry_of e),
        with_fds (<[h := set_dirent (entry_of e)
                           (set_ptr (le_next e) fd)]> (fds s)) s).
Proof.
  intros Hv Hd Hp He Hn Hfit.
  pose proof (fd_invalid_false s h fd Hv) as Hok.
  destruct Hv as (Hh & Hfd & Hf).
  assert (Hlen : (DIRENT_NAME_LEN <? strlen (name e) + 1) = false)
    by (apply Z.ltb_ge; lia).
  unfold ramdisk_readdir. unfold bind at 1. rewrite Hok. go.
  rewrite Hp. go. rewrite wrap32_small by exact Hn.
  rewrite insert_insert_eq. unfold entry_of.
  destruct (isdir e); reflexivity.
Qed.

(** A name that does not fit [dirent.name] with its terminator runs over
    the array. *)
Lemma readdir_overrun s h fd e :
  valid_handle s h fd -> dir fd = true ->
  files s !! ptr fd = Some e ->
  DIRENT_NAME_LEN <= strlen (name e) ->
  ramdisk_readdir h s = Crash OutOfBounds.
Proof.
  intros Hv Hd He Hlong.
  pose proof (fd_invalid_false s h fd Hv) as Hok.
  destruct Hv as (Hh & Hfd & Hf).
  assert (Hlen : (DIRENT_NAME_LEN <? strlen (name e) + 1) = true)
    by (apply Z.ltb_lt; lia).
  unfold ramdisk_readdir. unfold bind at 1. rewrite Hok. go.
  reflexivity.
Qed.

Lemma readdir_walk m prev a l :
  chain m prev a l ->
  forall s h fd,
    files s = m -> (forall x, x ∈ l -> 0 < x < 2 ^ 32) ->
    (forall x, x ∈ l -> strlen (name (the_file s x)) < DIRENT_NAME_LEN) ->
    valid_handle s h fd -> dir fd = true -> ptr fd = a ->
    exists s' fd',
      readdir_n (length l) h s
      = Ok (map (fun x => entry_of (the_file s x)) l, s')
      /\ fds s' = <[h := fd']> (fds s)
      /\ ptr fd' = NULL /\ file fd' = file fd /\ dir fd' = dir fd
      /\ omode fd' = omode fd
      /\ with_fds (fds s) s' = s.
Proof.
  induction 1 as [prev|prev a e l Ha He Hprev Hchain IH];
    intros s h fd Hm Hlt Hfit Hv Hd Hp.
  - exists s, fd. cbn. split; [reflexivity|].
    destruct Hv as (_ & Hfd & _).
    rewrite insert_id by exact Hfd.
    split; [reflexivity|]. split; [exact Hp|].
    destruct s; auto.
  - subst m.
    assert (Hn : 0 <= le_next e < 2 ^ 32).
    { destruct (chain_inv _ _ _ _ Hchain)
        as [[-> _]|(Hn0 & en & l' & -> & Hen & _)]; [unfold NULL; lia|].
      pose proof (Hlt (le_next e)
                    ltac:(apply list_elem_of_further, list_elem_of_here)).
      lia. }
    assert (Hthe : the_file s a = e)
      by (unfold the_file; rewrite He; reflexivity).
    assert (Hfita : strlen (name e) < DIRENT_NAME_LEN)
      by (rewrite <- Hthe; apply Hfit, list_elem_of_here).
    pose proof (readdir_step s h fd a e Hv Hd Hp He Hn Hfita) as Hstep.
    set (fd1 := set_dirent (entry_of e) (set_ptr (le_next e) fd)) in *.
    set (s1 := with_fds (<[h := fd1]> (fds s)) s) in *.
    destruct Hv as (Hh & Hfd & Hf).
    destruct (IH s1 h fd1 eq_refl
                ltac:(intros x Hx; apply Hlt, list_elem_of_further, Hx)
                ltac:(intros x Hx; apply (Hfit x), list_elem_of_further, Hx)
                ltac:(repeat split; [exact Hh|apply lookup_insert_eq|exact Hf])
                Hd eq_refl)
      as (s' & fd' & Hrun & Hfds & Hptr & Hfile & Hdir & Hom & Hback).
    exists s', fd'. split.
    { cbn [length readdir_n map]. unfold bind at 1. rewrite Hstep.
      unfold bind at 1. rewrite Hrun. unfold ret.
      rewrite Hthe. reflexivity. }
    split; [rewrite Hfds; apply insert_insert_eq|].
    split; [exact Hptr|]. split; [exact Hfile|]. split; [exact Hdir|].
    split; [exact Hom|].
    apply (f_equal (with_fds (fds s))) in Hback.
    destruct s, s'. exact Hback.
Qed.

(** X14.  Listing the root directory through a directory handle of it,
    when the name of every child fits [dirent.name] with its terminator:
    [ramdisk_rewinddir] puts the cursor on the first child, and as many
    calls of [ramdisk_readdir] as there are children return the entry of
    every child exactly once, in list order (the file created last comes
    first), with the name and the size of each file; the cursor is null
    afterwards, and only the handle has changed. *)
Theorem X14_readdir_lists_every_child s l h fd :
  inv_at s l -> brk s <= 2 ^ 32 ->
  (forall x, x ∈ l -> strlen (name (the_file s x)) < DIRENT_NAME_LEN) ->
  valid_handle s h fd -> dir fd = true -> file fd = root s ->
  exists s1 s2 fd2,
    ramdisk_rewinddir h s = Ok (0, s1)
    /\ readdir_n (length l) h s1
       = Ok (map (fun x => entry_of (the_file s x)) l, s2)
    /\ NoDup l
    /\ fds s2 = <[h := fd2]> (fds s)
    /\ ptr fd2 = NULL /\ file fd2 = file fd /\ dir fd2 = true
    /\ with_fds (fds s) s2 = s.
Proof.
  intros Hinv Hbrk Hfit Hv Hd Hfile.
  pose proof Hinv as Hinv0. unfold inv_at in Hinv0.
  destruct (inv_root _ _ _ _ _ _ _ _ Hinv0) as (r & Hr & Hrd & Hdata).
  destruct (inv_chain _ _ _ _ _ _ _ _ Hinv0) as (first & Hfirst & Hchain).
  assert (Hlt : forall x, x ∈ l -> 0 < x < 2 ^ 32).
  { intros x Hx. destruct (chain_elem _ _ _ _ _ Hchain Hx) as [_ Hsome].
    pose proof (inv_files_lt _ _ _ _ _ _ _ _ Hinv0 x Hsome). lia. }
  assert (Hf32 : 0 <= first < 2 ^ 32).
  { destruct (chain_inv _ _ _ _ Hchain)
      as [[-> _]|(_ & e0 & l' & -> & _)]; [unfold NULL; lia|].
    pose proof (Hlt first ltac:(apply list_elem_of_here)). lia. }
  pose proof (fd_invalid_false s h fd Hv) as Hok.
  set (fd1 := set_ptr first fd).
  set (s1 := with_fds (<[h := fd1]> (fds s)) s).
  assert (Hrew : ramdisk_rewinddir h s = Ok (0, s1)).
  { destruct Hv as (Hh & Hfd & Hf).
    unfold ramdisk_rewinddir. unfold bind at 1. rewrite Hok. go.
    rewrite Hfile. go. rewrite Hdata. cbn [dir_of_data]. go.
    rewrite wrap32_small by exact Hf32. reflexivity. }
  destruct Hv as (Hh & Hfd & Hf).
  destruct (readdir_walk _ _ _ _ Hchain s1 h fd1 eq_refl Hlt Hfit
              ltac:(repeat split; [exact Hh|apply lookup_insert_eq|exact Hf])
              Hd eq_refl)
    as (s2 & fd2 & Hrun & Hfds & Hptr & Hfile2 & Hdir2 & _ & Hback).
  exists s1, s2, fd2.
  split; [exact Hrew|]. split; [exact Hrun|].
  split.
  { pose proof (inv_nodup _ _ _ _ _ _ _ _ Hinv0) as Hnd.
    apply NoDup_cons in Hnd as [_ Hnd]. exact Hnd. }
  split; [rewrite Hfds; apply insert_insert_eq|].
  split; [exact Hptr|]. split; [exact Hfile2|].
  split; [rewrite Hdir2; exact Hd|].
  apply (f_equal (with_fds (fds s))) in Hback.
  destruct s, s2. exact Hback.
Qed.
End Listing.

Lemma st_two_inv : inv st_two.
Proof.
  assert (Hopen : ramdisk_open (H := kos_fcntl) "/b" O_WRONLY st_file
                  = Ok (6, run_state (ramdisk_open (H := kos_fcntl) "/b"
                                        O_WRONLY) st_file))
    by (vm_compute; reflexivity).
  destruct (ramdisk_open_inv _ _ _ _ _ st_file_inv Hopen) as [Hinv Hlive].
  destruct Hlive as [?|[Hlive _]]; [discriminate|].
  apply (ramdisk_close_inv _ 6 0 st_two Hinv Hlive).
  vm_compute. reflexivity.
Qed.

Lemma st_listing_two_inv_at : inv_at st_listing_two [5; 3].
Proof.
  assert (Hopen : ramdisk_open (H := kos_fcntl) "/" (Z.lor O_RDONLY O_DIR)
                    st_two = Ok (7, st_listing_two))
    by (vm_compute; reflexivity).
  apply (inv_at_chain st_listing_two [5; 3] 5
           (proj1 (ramdisk_open_inv _ _ _ _ _ st_two_inv Hopen)));
    [reflexivity|].
  eapply chain_cons;
    [discriminate|vm_compute; reflexivity|reflexivity|].
  eapply chain_cons;
    [discriminate|vm_compute; reflexivity|reflexivity|apply chain_nil].
Qed.

(** X14, at a concrete input: the root directory that holds ["/a"] and
    ["/b"], listed through handle 7. *)
Lemma X14_readdir_witness :
  let s := st_listing_two in
  exists s1 s2 fd2,
    ramdisk_rewinddir 7 s = Ok (0, s1)
    /\ readdir_n (H := kos_fcntl) (H0 := kos_dirent) (length [5; 3]) 7 s1
       = Ok (map (fun x => entry_of (H := kos_fcntl) (the_file s x)) [5; 3],
             s2)
    /\ NoDup [5; 3]
    /\ fds s2 = <[7 := fd2]> (fds s)
    /\ ptr fd2 = NULL /\ file fd2 = file (the_fd s 7) /\ dir fd2 = true
    /\ with_fds (fds s) s2 = s.
Proof.
  apply (X14_readdir_lists_every_child (H := kos_fcntl) (H0 := kos_dirent)
           st_listing_two [5; 3] 7 (the_fd st_listing_two 7)).
  - exact st_listing_two_inv_at.
  - vm_compute. discriminate.
  - intros x Hx. apply elem_of_cons in Hx as [->|Hx];
      [vm_compute; reflexivity|].
    apply list_elem_of_singleton in Hx as ->. vm_compute. reflexivity.
  - split; [discriminate|]. split; vm_compute; [reflexivity|discriminate].
  - reflexivity.
  - reflexivity.
Defined.

(** ** Opening the root directory *)

Section OpenRoot.
Context `{FcntlFlags}.

(** X15.  Opening the root directory (the empty path or ["/"]) with
    [O_DIR] and [O_RDONLY] returns a directory handle whose cursor is the
    first child of the root (null when there is none); the root is
    read-locked and its usage count goes up by one. *)
Theorem X15_open_root_for_listing s l fn mode r first :
  inv_at s l ->
  mode_dir mode = true -> mode_rdonly mode = true ->
  strip_slash fn = EmptyString ->
  files s !! root s = Some r -> openfor r <> OPENFOR_WRITE ->
  dirs s !! rootdir s = Some first ->
  brk s <= 2 ^ 32 -> next_alloc s = true ->
  ramdisk_open fn mode s
  = Ok (brk s,
        opened (after_alloc s) (root s)
          (set_usage (usage r + 1) (set_openfor OPENFOR_READ r))
          (mk_rd_fd (root s) true first dirent0 mode)).
Proof.
  intros Hinv Hd Hro Hfn Hr Hw Hfirst Hbrk Ha.
  pose proof Hinv as Hinv0. unfold inv_at in Hinv0.
  destruct (inv_root_node s (ex_intro _ l Hinv)) as (Hrt & r' & Hr' & Hrd & Hdata).
  replace r' with r in * by congruence. clear Hr'.
  pose proof (inv_brk _ _ _ _ _ _ _ _ Hinv0) as Hbk.
  assert (Hb : (brk s =? NULL) = false)
    by (apply Z.eqb_neq; unfold NULL; lia).
  assert (Hf32 : 0 <= first < 2 ^ 32).
  { destruct (inv_chain _ _ _ _ _ _ _ _ Hinv0) as (first' & Hfirst' & Hchain).
    replace first' with first in * by congruence.
    destruct (chain_inv _ _ _ _ Hchain)
      as [[-> _]|(_ & e0 & l' & _ & He0 & _)]; [unfold NULL; lia|].
    pose proof (inv_files_lt _ _ _ _ _ _ _ _ Hinv0 first
                  ltac:(rewrite He0; eauto)). lia. }
  apply Z.eqb_neq in Hw.
  rewrite ramdisk_open_phases, Hd, Hro. cbn [negb andb].
  unfold bind at 1. unfold open_lookup. rewrite Hfn. go.
  unfold open_handle, open_lock, open_register, opened.
  fold (mode_dir mode). fold (mode_rdonly mode). rewrite Hd, Hro. go.
  cbn [data set_openfor]. rewrite Hdata. cbn [dir_of_data]. go.
  rewrite wrap32_small by exact Hf32.
  cbn [usage set_openfor set_ptr]. rewrite ?insert_insert_eq. reflexivity.
Qed.
End OpenRoot.

(** X15, at a concrete input: the root directory that holds ["/a"] and
    ["/b"]. *)
Lemma X15_open_root_witness :
  let s := st_two in
  let r := the_file s 2 in
  ramdisk_open (H := kos_fcntl) "/" (Z.lor O_RDONLY O_DIR) s
  = Ok (brk s,
        opened (after_alloc s) (root s)
          (set_usage (usage r + 1) (set_openfor OPENFOR_READ r))
          (mk_rd_fd (root s) true 5 dirent0 (Z.lor O_RDONLY O_DIR))).
Proof.
  apply (X15_open_root_for_listing (H := kos_fcntl) st_two [5; 3] "/"
           (Z.lor O_RDONLY O_DIR) (the_file st_two 2) 5).
  - apply (inv_at_chain st_two [5; 3] 5 st_two_inv); [reflexivity|].
    eapply chain_cons;
      [discriminate|vm_compute; reflexivity|reflexivity|].
    eapply chain_cons;
      [discriminate|vm_compute; reflexivity|reflexivity|apply chain_nil].
  - reflexivity.
  - reflexivity.
  - reflexivity.
  - vm_compute. reflexivity.
  - vm_compute. discriminate.
  - reflexivity.
  - vm_compute. discriminate.
  - reflexivity.
Defined.

(** ** [fcntl], [mmap] and the write lock *)

(** X16.  [ramdisk_fcntl] on a valid handle: [F_GETFL] returns the mode
    the handle was opened with; [F_SETFL], [F_GETFD] and [F_SETFD] return
    0 and change nothing, so that the mode read back after an [F_SETFL]
    is still the open mode; any other command fails with [EINVAL]. *)
Theorem X16_fcntl_reports_open_mode s h fd :
  valid_handle s h fd ->
  ramdisk_fcntl h F_GETFL s = Ok (omode fd, s)
  /\ ramdisk_fcntl h F_SETFL s = Ok (0, s)
  /\ ramdisk_fcntl h F_GETFD s = Ok (0, s)
  /\ ramdisk_fcntl h F_SETFD s = Ok (0, s)
  /\ (ramdisk_fcntl h F_SETFL ;;; ramdisk_fcntl h F_GETFL) s
     = Ok (omode fd, s)
  /\ ramdisk_fcntl h F_OTHER s = Ok (-1, with_errno (Some EINVAL) s).
Proof.
  intros Hv. pose proof (fd_invalid_false s h fd Hv) as Hok.
  destruct Hv as (Hh & Hfd & Hf).
  assert (Hget : ramdisk_fcntl h F_GETFL s = Ok (omode fd, s)).
  { unfold ramdisk_fcntl. unfold bind at 1. rewrite Hok. go. reflexivity. }
  assert (Hset : ramdisk_fcntl h F_SETFL s = Ok (0, s)).
  { unfold ramdisk_fcntl. unfold bind at 1. rewrite Hok. reflexivity. }
  split; [exact Hget|]. split; [exact Hset|].
  split; [unfold ramdisk_fcntl; unfold bind at 1; rewrite Hok; reflexivity|].
  split; [unfold ramdisk_fcntl; unfold bind at 1; rewrite Hok; reflexivity|].
  split; [unfold bind at 1; rewrite Hset; exact Hget|].
  unfold ramdisk_fcntl. unfold bind at 1. rewrite Hok. reflexivity.
Qed.

(** X16, at a concrete input: handle 5 of ["/a"], opened with
    [O_WRONLY]. *)
Lemma X16_fcntl_witness :
  let s := st_wronly in
  let fd := the_fd s 5 in
  ramdisk_fcntl 5 F_GETFL s = Ok (omode fd, s)
  /\ ramdisk_fcntl 5 F_SETFL s = Ok (0, s)
  /\ ramdisk_fcntl 5 F_GETFD s = Ok (0, s)
  /\ ramdisk_fcntl 5 F_SETFD s = Ok (0, s)
  /\ (ramdisk_fcntl 5 F_SETFL ;;; ramdisk_fcntl 5 F_GETFL) s
     = Ok (omode fd, s)
  /\ ramdisk_fcntl 5 F_OTHER s = Ok (-1, with_errno (Some EINVAL) s).
Proof.
  apply (X16_fcntl_reports_open_mode st_wronly 5 (the_fd st_wronly 5)).
  split; [discriminate|]. split; vm_compute; [reflexivity|discriminate].
Defined.




(** X18.  [ramdisk_write] looks at the lock of the file, not at the mode
    of the handle: through a valid handle of a file that is not
    write-locked (a handle from a read-only open, the file being
    read-locked) it fails with [EBADF] and writes nothing. *)
Theorem X18_write_needs_the_write_lock s h fd e buf :
  valid_handle s h fd -> dir fd = false ->
  files s !! file fd = Some e -> openfor e <> OPENFOR_WRITE ->
  ramdisk_write h buf s = Ok (-1, with_errno (Some EBADF) s).
Proof.
  intros Hv Hd He Hw. pose proof (fd_invalid_false s h fd Hv) as Hok.
  destruct Hv as (Hh & Hfd & Hf). apply Z.eqb_neq in Hw.
  unfold ramdisk_write. unfold bind at 1. rewrite Hok. go. reflexivity.
Qed.

(** X18, at a concrete input: the reader of ["/a"]. *)
Lemma X18_write_refused_witness :
  ramdisk_write 5 ex_bytes st_reading
  = Ok (-1, with_errno (Some EBADF) st_reading).
Proof.
  apply (X18_write_needs_the_write_lock st_reading 5 (the_fd st_reading 5)
           (the_file st_reading 3) ex_bytes).
  - split; [discriminate|]. split; vm_compute; [reflexivity|discriminate].
  - reflexivity.
  - vm_compute. reflexivity.
  - vm_compute. discriminate.
Defined.

(** ** Initialisation *)

Lemma init_again s : rootdir s <> NULL -> fs_ramdisk_init s = Ok (tt, s).
Proof.
  intros Hrd. apply Z.eqb_neq in Hrd.
  unfold fs_ramdisk_init. go. reflexivity.
Qed.

(** X19.  On a fresh system whose next three allocations succeed,
    [fs_ramdisk_init] leaves a well-formed state with an empty root
    directory, no handles, and [errno] untouched; and once [rootdir] is
    set, calling it again changes nothing. *)
Theorem X19_init_establishes_the_invariant o :
  allocs_succeed 3 o ->
  fs_ramdisk_init (boot o) = Ok (tt, with_oracle (drop 3 o) st_init)
  /\ inv_at (with_oracle (drop 3 o) st_init) []
  /\ fs_ramdisk_init (with_oracle (drop 3 o) st_init)
     = Ok (tt, with_oracle (drop 3 o) st_init)
  /\ (forall s, rootdir s <> NULL -> fs_ramdisk_init s = Ok (tt, s)).
Proof.
  intros Hok. split; [|split; [|split]].
  - unfold allocs_succeed in Hok.
    destruct o as [|b1 [|b2 [|b3 o']]]; cbn in Hok;
      repeat match goal with
             | H : Forall _ (_ :: _) |- _ =>
                 apply Forall_cons in H as [-> H]
             end; reflexivity.
  - apply (inv_at_chain st_init [] NULL st_init_inv); [reflexivity|].
    apply chain_nil.
  - apply init_again. discriminate.
  - exact init_again.
Qed.

(** X19, at a concrete input: four allocations that succeed. *)
Lemma X19_init_witness :
  let o := [true; true; true; true] in
  fs_ramdisk_init (boot o) = Ok (tt, with_oracle (drop 3 o) st_init)
  /\ inv_at (with_oracle (drop 3 o) st_init) []
  /\ fs_ramdisk_init (with_oracle (drop 3 o) st_init)
     = Ok (tt, with_oracle (drop 3 o) st_init)
  /\ (forall s, rootdir s <> NULL -> fs_ramdisk_init s = Ok (tt, s)).
Proof.
  apply (X19_init_establishes_the_invariant [true; true; true; true]).
  unfold allocs_succeed. cbn. repeat constructor.
Defined.

Section InitFails.
Context `{FcntlFlags}.

(** X20.  When an allocation fails in [fs_ramdisk_init]: if it is the
    first, nothing has changed and the call can be repeated; if it is the
    second or the third, [rootdir] stays set to the block that has been
    freed, so that a further [fs_ramdisk_init] does nothing, and an open
    stops at [assert(root != NULL)] or follows a pointer to freed
    memory. *)
Theorem X20_failed_init_is_not_retried o :
  fs_ramdisk_init (boot (false :: o)) = Ok (tt, boot o)
  /\ (exists s,
        fs_ramdisk_init (boot (true :: false :: o)) = Ok (tt, s)
        /\ rootdir s <> NULL /\ root s = NULL /\ files s = ∅ /\ dirs s = ∅
        /\ fs_ramdisk_init s = Ok (tt, s)
        /\ forall fn mode,
             mode_dir mode && negb (mode_rdonly mode) = false ->
             ramdisk_open fn mode s = Crash AssertFailed)
  /\ (exists s,
        fs_ramdisk_init (boot (true :: true :: false :: o)) = Ok (tt, s)
        /\ rootdir s <> NULL /\ root s <> NULL /\ files s = ∅ /\ dirs s = ∅
        /\ fs_ramdisk_init s = Ok (tt, s)
        /\ (forall fn mode,
              mode_dir mode && negb (mode_rdonly mode) = false ->
              strip_slash fn = EmptyString ->
              ramdisk_open fn mode s = Crash (BadPointer (root s)))
        /\ (forall fn mode,
              mode_dir mode && negb (mode_rdonly mode) = false ->
              strip_slash fn <> EmptyString ->
              strchr (strip_slash fn) slash = None ->
              ramdisk_open fn mode s = Crash (BadPointer (rootdir s)))).
Proof.
  split; [reflexivity|]. split.
  - eexists. split; [reflexivity|]. cbn.
    split; [discriminate|]. split; [reflexivity|].
    split; [reflexivity|]. split; [reflexivity|]. split; [reflexivity|].
    intros fn mode Hm. rewrite ramdisk_open_phases, Hm. reflexivity.
  - eexists. split; [reflexivity|]. cbn.
    split; [discriminate|]. split; [discriminate|].
    split; [reflexivity|]. split; [reflexivity|]. split; [reflexivity|].
    split.
    + intros fn mode Hm Hfn. rewrite ramdisk_open_phases, Hm.
      unfold bind at 1. unfold open_lookup. rewrite Hfn. reflexivity.
    + intros fn mode Hm Hfn Hnos. rewrite ramdisk_open_phases, Hm.
      unfold bind at 1. unfold open_lookup.
      destruct (strip_slash fn) as [|c fn'] eqn:Hstrip; [congruence|].
      unfold find_path, ramdisk_find_path. go.
      destruct (String.length (String c fn')) eqn:Hlen; [discriminate|].
      cbn [find_path_walk]. rewrite Hnos. reflexivity.
Qed.
End InitFails.

(** ** Shutdown *)

Lemma free_data_file e :
  (forall d, data e <> DataDir d) -> free_data (data e) = ret tt.
Proof. intros Hd. destruct (data e); [reflexivity..|]. congruence. Qed.

(** The walk of [fs_ramdisk_shutdown] frees every element of the list. *)
Lemma shutdown_walk_ok l :
  forall s first fuel,
    dirs s !! rootdir s = Some first ->
    chain (files s) (LinkHead (rootdir s)) first l -> NoDup l ->
    (forall x e, x ∈ l -> files s !! x = Some e ->
       forall d, data e <> DataDir d) ->
    (length l <= fuel)%nat ->
    exists s',
      shutdown_walk fuel first s = Ok (tt, s')
      /\ (forall x, files s' !! x
                    = if decide (x ∈ l) then None else files s !! x)
      /\ dirs s' = <[rootdir s := NULL]> (dirs s)
      /\ fds s' = fds s /\ rd_fd_queue s' = rd_fd_queue s
      /\ root s' = root s /\ rootdir s' = rootdir s /\ errno s' = errno s
      /\ brk s' = brk s /\ oracle s' = oracle s.
Proof.
  induction l as [|a l IH]; intros s first fuel Hfirst Hchain Hnd Hfiles Hfuel.
  - destruct (chain_inv _ _ _ _ Hchain) as [[-> _]|(_ & ? & ? & ? & _)];
      [|discriminate].
    exists s. split; [destruct fuel; reflexivity|].
    split; [intros x; rewrite decide_False by apply not_elem_of_nil;
            reflexivity|].
    split; [rewrite insert_id by exact Hfirst; reflexivity|]. auto 10.
  - destruct (chain_inv _ _ _ _ Hchain)
      as [[_ ?]|(Ha0 & e & l' & [= -> <-] & He & Hp & Hc)]; [discriminate|].
    destruct fuel as [|k]; [cbn in Hfuel; lia|].
    assert (Hin : first ∈ first :: l) by apply list_elem_of_here.
    destruct (list_remove_chain s (first :: l) first e first Hfirst Hchain
                Hnd Hin He)
      as (s1 & Hrun & HA & HB & HC & Hdirs & Hfds & Hq & Hrt & Hrd & Herr
          & Hbrk & Hor).
    rewrite decide_True in Hdirs by reflexivity.
    pose proof Hnd as Hnd0. apply NoDup_cons in Hnd0 as [Hal Hnd'].
    set (s2 := with_files (delete first (files s1)) s1).
    assert (Hwalk : shutdown_walk (S k) first s
                    = shutdown_walk k (le_next e) s2).
    { cbn [shutdown_walk]. rewrite (eqb_null _ Ha0). go.
      rewrite Hrun. go.
      rewrite (free_data_file e (Hfiles first e Hin He)). reflexivity. }
    assert (Hchain2 : chain (files s2) (LinkHead (rootdir s2)) (le_next e) l).
    { pose proof (chain_remove (files s) (files s2) _ _ _ first e Hchain Hnd
                    Hin ltac:(discriminate) He) as Hcr.
      rewrite decide_True in Hcr by reflexivity.
      rewrite filter_cons_False in Hcr by (intros Hc'; apply Hc'; reflexivity).
      rewrite (filter_ne_id l first Hal) in Hcr.
      cbn [rootdir s2 with_files]. rewrite Hrd. apply Hcr.
      intros x ex Hx Hxf Hex. cbn. rewrite lookup_delete_ne by congruence.
      destruct (HA x ex Hx Hxf Hex) as (e' & He' & Hn & Hpv & _). eauto. }
    destruct (IH s2 (le_next e) k) as (s' & Hrun' & Hf' & Hd' & Hrest).
    + cbn. rewrite Hdirs, Hrd. apply lookup_insert_eq.
    + exact Hchain2.
    + exact Hnd'.
    + intros x ex Hx Hex d. cbn in Hex.
      assert (Hxf : x <> first) by (intros ->; contradiction).
      rewrite lookup_delete_ne in Hex by congruence.
      destruct (chain_elem _ _ _ _ _ Hc Hx) as [_ [e0 He0]].
      destruct (HA x e0 (list_elem_of_further _ _ _ Hx) Hxf He0)
        as (e' & He' & _ & _ & Heq).
      replace e' with ex in * by congruence.
      destruct (same_but_links _ _ Heq) as (_ & _ & _ & _ & _ & Hda & _).
      rewrite Hda. apply (Hfiles x e0 (list_elem_of_further _ _ _ Hx) He0).
    + cbn in Hfuel. lia.
    + exists s'. split; [rewrite Hwalk; exact Hrun'|].
      split.
      { intros x. rewrite Hf'. cbn.
        destruct (decide (x ∈ l)) as [Hx|Hx].
        - rewrite decide_True by (apply list_elem_of_further, Hx).
          reflexivity.
        - destruct (decide (x = first)) as [->|Hxf].
          + rewrite decide_True by apply list_elem_of_here.
            apply lookup_delete_eq.
          + rewrite decide_False
              by (intros Hc'; apply elem_of_cons in Hc' as [?|?];
                  contradiction).
            rewrite lookup_delete_ne by congruence.
            apply HC. intros Hc'.
            apply elem_of_cons in Hc' as [?|?]; contradiction. }
      destruct Hrest as (Hfds' & Hq' & Hrt' & Hrd' & Herr' & Hbrk' & Hor').
      cbn in *.
      split; [rewrite Hd', Hrd, Hdirs; apply insert_insert_eq|].
      repeat split; congruence.
Qed.

(** X21.  [fs_ramdisk_shutdown] frees every file, the list head and the
    root node, whether or not handles are open, and leaves [root],
    [rootdir] and the handles as they were.  So afterwards
    [fs_ramdisk_init] does nothing ([rootdir] is not null), a second
    shutdown follows the freed [rootdir], and an operation through a
    handle that was open follows its freed file.  Before any
    initialisation it does nothing. *)
Theorem X21_shutdown_frees_and_keeps_rootdir s l :
  inv_at s l ->
  (exists s',
     fs_ramdisk_shutdown s = Ok (tt, s')
     /\ files s' = ∅ /\ dirs s' = delete (rootdir s) (dirs s)
     /\ rootdir s' = rootdir s /\ rootdir s' <> NULL /\ root s' = root s
     /\ fds s' = fds s /\ rd_fd_queue s' = rd_fd_queue s
     /\ fs_ramdisk_init s' = Ok (tt, s')
     /\ fs_ramdisk_shutdown s' = Crash (BadPointer (rootdir s))
     /\ (forall h fd,
           valid_handle s h fd -> dir fd = false ->
           ramdisk_total h s' = Crash (BadPointer (file fd))))
  /\ (forall o, fs_ramdisk_shutdown (boot o) = Ok (tt, boot o)).
Proof.
  intros Hinv. split; [|intros o; reflexivity].
  pose proof Hinv as Hinv0. unfold inv_at in Hinv0.
  destruct (inv_root _ _ _ _ _ _ _ _ Hinv0) as (r & Hr & _).
  destruct (inv_chain _ _ _ _ _ _ _ _ Hinv0) as (first & Hfirst & Hchain).
  pose proof (inv_nodup _ _ _ _ _ _ _ _ Hinv0) as Hnd0.
  apply NoDup_cons in Hnd0 as [Hrl Hnd].
  assert (Hrd0 : rootdir s <> NULL).
  { pose proof (inv_dirs_lt _ _ _ _ _ _ _ _ Hinv0 (rootdir s)
                  ltac:(rewrite Hfirst; eauto)). unfold NULL. lia. }
  destruct (shutdown_walk_ok l s first (base.size (files s)) Hfirst Hchain Hnd)
    as (s1 & Hwalk & Hf1 & Hd1 & Hfds & Hq & Hrt & Hrd & Herr & Hbrk & Hor).
  { intros x e Hx He d Hc.
    destruct (inv_flat _ _ _ _ _ _ _ _ Hinv0 x e Hx He) as [_ Hb].
    unfold block_ok in Hb. rewrite Hc in Hb. exact Hb. }
  { exact (inv_core_size _ _ _ _ _ _ _ _ Hinv0). }
  set (s' := with_files (delete (root s) (files s1))
               (with_dirs (delete (rootdir s) (dirs s1)) s1)).
  assert (Hrun : fs_ramdisk_shutdown s = Ok (tt, s')).
  { unfold fs_ramdisk_shutdown. go. rewrite (eqb_null _ Hrd0). go.
    rewrite Hwalk. go. rewrite Hd1, lookup_insert_eq. go.
    rewrite Hrt, Hf1, decide_False by exact Hrl. rewrite Hr. go.
    reflexivity. }
  assert (Hfiles : files s' = ∅).
  { apply map_eq. intros x. rewrite lookup_empty. cbn.
    destruct (decide (x = root s)) as [->|Hx]; [apply lookup_delete_eq|].
    rewrite lookup_delete_ne by congruence. rewrite Hf1.
    destruct (decide (x ∈ l)) as [|Hxl]; [reflexivity|].
    destruct (files s !! x) eqn:E; [|reflexivity].
    pose proof (inv_nodes _ _ _ _ _ _ _ _ Hinv0 x ltac:(rewrite E; eauto))
      as Hin.
    apply elem_of_cons in Hin as [?|?]; contradiction. }
  assert (Hdirs : dirs s' = delete (rootdir s) (dirs s)).
  { cbn. rewrite Hd1. apply delete_insert_eq. }
  assert (Hrd' : rootdir s' = rootdir s) by exact Hrd.
  exists s'. split; [exact Hrun|]. split; [exact Hfiles|].
  split; [exact Hdirs|]. split; [exact Hrd'|].
  split; [rewrite Hrd'; exact Hrd0|]. split; [exact Hrt|].
  split; [exact Hfds|]. split; [exact Hq|].
  split; [apply init_again; rewrite Hrd'; exact Hrd0|].
  split.
  - unfold fs_ramdisk_shutdown. go. rewrite Hrd', (eqb_null _ Hrd0). go.
    rewrite Hdirs, lookup_delete_eq. reflexivity.
  - intros h fd (Hh & Hfd & Hf) Hd.
    assert (Hv : valid_handle s' h fd)
      by (repeat split; [exact Hh|unfold s'; cbn; rewrite Hfds; exact Hfd
                        |exact Hf]).
    pose proof (fd_invalid_false s' h fd Hv) as Hok.
    destruct Hv as (_ & Hfd' & _).
    unfold ramdisk_total. unfold bind at 1. rewrite Hok. go.
    rewrite Hfiles, lookup_empty. reflexivity.
Qed.

(** X21, at a concrete input: the file system in which a reader holds
    ["/a"]. *)
Lemma X21_shutdown_witness :
  let s := st_reading in
  (exists s',
     fs_ramdisk_shutdown s = Ok (tt, s')
     /\ files s' = ∅ /\ dirs s' = delete (rootdir s) (dirs s)
     /\ rootdir s' = rootdir s /\ rootdir s' <> NULL /\ root s' = root s
     /\ fds s' = fds s /\ rd_fd_queue s' = rd_fd_queue s
     /\ fs_ramdisk_init s' = Ok (tt, s')
     /\ fs_ramdisk_shutdown s' = Crash (BadPointer (rootdir s))
     /\ (forall h fd,
           valid_handle s h fd -> dir fd = false ->
           ramdisk_total h s' = Crash (BadPointer (file fd))))
  /\ (forall o, fs_ramdisk_shutdown (boot o) = Ok (tt, boot o)).
Proof.
  apply (X21_shutdown_frees_and_keeps_rootdir st_reading [3]).
  apply (inv_at_chain st_reading [3] 3 st_reading_inv); [reflexivity|].
  eapply chain_cons;
    [discriminate|vm_compute; reflexivity|reflexivity|apply chain_nil].
Defined.

(** ** Names are matched without regard to case *)

Lemma tolower_slash y : tolower y = tolower slash -> y = slash.
Proof.
  destruct y as [[] [] [] [] [] [] [] []]; vm_compute; intros Hc;
    first [reflexivity | discriminate].
Qed.

Lemma same_fold_sym a b : same_fold a b = true -> same_fold b a = true.
Proof.
  revert b. induction a as [|x a IH]; intros [|y b]; cbn; try congruence.
  intros Hab. apply andb_prop in Hab as [Hxy Hab].
  rewrite (IH _ Hab), Z.eqb_sym, Hxy. reflexivity.
Qed.

Lemma same_fold_length a b :
  same_fold a b = true -> String.length a = String.length b.
Proof.
  revert b. induction a as [|x a IH]; intros [|y b]; cbn; try congruence.
  intros Hab. apply andb_prop in Hab as [_ Hab]. rewrite (IH _ Hab).
  reflexivity.
Qed.

Lemma same_fold_slash x y :
  (tolower x =? tolower y) = true -> Ascii.eqb x slash = Ascii.eqb y slash.
Proof.
  intros Hxy. apply Z.eqb_eq in Hxy.
  destruct (Ascii.eqb_spec x slash) as [->|Hx];
    destruct (Ascii.eqb_spec y slash) as [->|Hy]; try reflexivity.
  - exfalso. apply Hy, tolower_slash. congruence.
  - exfalso. apply Hx, tolower_slash. congruence.
Qed.

Lemma same_fold_strchr a b :
  same_fold a b = true -> strchr a slash = strchr b slash.
Proof.
  revert b. induction a as [|x a IH]; intros [|y b]; cbn; try congruence.
  intros Hab. apply andb_prop in Hab as [Hxy Hab].
  rewrite (same_fold_slash _ _ Hxy), (IH _ Hab). reflexivity.
Qed.

Lemma same_fold_advance n a b :
  same_fold a b = true ->
  same_fold (str_advance n a) (str_advance n b) = true.
Proof.
  revert a b. induction n as [|n IH]; intros a b Hab.
  - destruct a, b; exact Hab.
  - destruct a as [|x a], b as [|y b]; cbn in *; try congruence.
    apply andb_prop in Hab as [_ Hab]. apply IH, Hab.
Qed.

Lemma same_fold_strncasecmp a b nm n :
  same_fold a b = true -> strncasecmp a nm n = strncasecmp b nm n.
Proof.
  revert a b nm. induction n as [|n IH]; intros a b nm Hab; [reflexivity|].
  destruct a as [|x a], b as [|y b]; cbn in Hab; try congruence.
  apply andb_prop in Hab as [Hxy Hab]. apply Z.eqb_eq in Hxy.
  cbn [strncasecmp]. destruct nm as [|c nm]; [exact Hxy|].
  rewrite Hxy. rewrite (IH a b nm Hab). reflexivity.
Qed.

Lemma same_fold_list_find fuel m f a b n :
  same_fold a b = true -> list_find fuel m f a n = list_find fuel m f b n.
Proof.
  intros Hab. revert f. induction fuel as [|k IH]; intros f; [reflexivity|].
  cbn [list_find]. destruct (f =? NULL); [reflexivity|].
  apply bindo_ext; [reflexivity|]. intros e.
  rewrite (same_fold_strncasecmp a b (name e) n Hab).
  destruct (_ && _); [reflexivity|apply IH].
Qed.

Lemma same_fold_walk fuel fm dm :
  forall parent a b dir f,
    same_fold a b = true ->
    find_path_walk fuel fm dm parent a dir f
    = find_path_walk fuel fm dm parent b dir f.
Proof.
  induction fuel as [|k IH]; intros parent a b dir f Hab.
  - cbn [find_path_walk]. rewrite (same_fold_strchr a b Hab).
    destruct (strchr b slash); [reflexivity|].
    pose proof (same_fold_length a b Hab) as Hlen.
    destruct a as [|x a], b as [|y b]; try discriminate; [reflexivity|].
    unfold ramdisk_find. rewrite Hlen.
    apply bindo_ext; [|reflexivity].
    apply bindo_ext; [reflexivity|]. intros first.
    apply same_fold_list_find, Hab.
  - cbn [find_path_walk]. rewrite (same_fold_strchr a b Hab).
    destruct (strchr b slash) as [cur|].
    + apply bindo_ext.
      * destruct cur; [reflexivity|].
        apply bindo_ext; [|reflexivity].
        unfold ramdisk_find.
        apply bindo_ext; [reflexivity|]. intros first.
        apply same_fold_list_find, Hab.
      * intros [[parent' f']|]; [|reflexivity].
        apply IH, same_fold_advance, Hab.
    + pose proof (same_fold_length a b Hab) as Hlen.
      destruct a as [|x a], b as [|y b]; try discriminate; [reflexivity|].
      unfold ramdisk_find. rewrite Hlen.
      apply bindo_ext; [|reflexivity].
      apply bindo_ext; [reflexivity|]. intros first.
      apply same_fold_list_find, Hab.
Qed.

Lemma same_fold_find_path fm dm parent a b dir :
  same_fold a b = true ->
  ramdisk_find_path fm dm parent a dir = ramdisk_find_path fm dm parent b dir.
Proof.
  intros Hab. unfold ramdisk_find_path.
  rewrite (same_fold_length a b Hab). apply same_fold_walk, Hab.
Qed.

Lemma same_fold_strip a b :
  same_fold a b = true -> same_fold (strip_slash a) (strip_slash b) = true.
Proof.
  intros Hab. destruct a as [|x a], b as [|y b]; try discriminate;
    [reflexivity|].
  cbn [strip_slash]. pose proof Hab as Hab'. cbn in Hab'.
  apply andb_prop in Hab' as [Hxy Hab'].
  rewrite (same_fold_slash _ _ Hxy).
  destruct (Ascii.eqb y slash); [exact Hab'|exact Hab].
Qed.

Lemma same_fold_is_root a b :
  same_fold a b = true ->
  String.eqb a (String slash EmptyString)
  = String.eqb b (String slash EmptyString).
Proof.
  intros Hab. destruct a as [|x a], b as [|y b]; try discriminate;
    [reflexivity|].
  cbn in Hab. apply andb_prop in Hab as [Hxy Hab].
  cbn [String.eqb]. rewrite (same_fold_slash _ _ Hxy).
  destruct a, b; try discriminate; reflexivity.
Qed.

Section FoldCase.
Context `{FcntlFlags} `{StatBits}.

(** X22.  File names are matched without regard to the case of ASCII
    letters: two paths that differ in case only resolve to the same file,
    and [ramdisk_unlink], [ramdisk_stat] and a read-only [ramdisk_open]
    behave the same on both. *)
Theorem X22_names_fold_case fn fn' :
  same_fold fn fn' = true ->
  (forall fm dm parent dir,
     ramdisk_find_path fm dm parent fn dir
     = ramdisk_find_path fm dm parent fn' dir)
  /\ (forall s, ramdisk_unlink fn s = ramdisk_unlink fn' s)
  /\ (forall s, ramdisk_stat fn s = ramdisk_stat fn' s)
  /\ (forall s mode,
        mode_rdonly mode = true ->
        ramdisk_open fn mode s = ramdisk_open fn' mode s).
Proof.
  intros Hab. split; [|split; [|split]].
  - intros fm dm parent dir. apply same_fold_find_path, Hab.
  - intros s. unfold ramdisk_unlink, find_path, bind, gets.
    rewrite (same_fold_find_path _ _ _ fn fn' false Hab). reflexivity.
  - intros s. unfold ramdisk_stat.
    rewrite (same_fold_length fn fn' Hab), (same_fold_is_root fn fn' Hab).
    destruct (_ || _); [reflexivity|].
    unfold find_path, bind, gets.
    rewrite (same_fold_find_path _ _ _ fn fn' false Hab). reflexivity.
  - intros s mode Hro. rewrite !ramdisk_open_phases.
    destruct (mode_dir mode && negb (mode_rdonly mode)); [reflexivity|].
    pose proof (same_fold_strip fn fn' Hab) as Hs.
    assert (Hlk : open_lookup (strip_slash fn) mode s
                  = open_lookup (strip_slash fn') mode s).
    { unfold open_lookup. fold (mode_rdonly mode). rewrite Hro.
      unfold bind, gets, assert.
      destruct (negb (root s =? NULL)); [|reflexivity].
      cbn [ret].
      destruct (strip_slash fn) as [|x a], (strip_slash fn') as [|y b];
        try discriminate; [reflexivity|].
      unfold find_path.
      rewrite (same_fold_find_path _ _ _ (String x a) (String y b) _ Hs).
      reflexivity. }
    unfold bind. rewrite Hlk. reflexivity.
Qed.
End FoldCase.

(** X22, at a concrete input: ["/A"] and ["/a"]. *)
Lemma X22_fold_case_witness :
  (forall fm dm parent dir,
     ramdisk_find_path fm dm parent "/A" dir
     = ramdisk_find_path fm dm parent "/a" dir)
  /\ (forall s, ramdisk_unlink "/A" s = ramdisk_unlink "/a" s)
  /\ (forall s, ramdisk_stat (H := posix_stat) "/A" s
                = ramdisk_stat (H := posix_stat) "/a" s)
  /\ (forall s mode,
        mode_rdonly (H := kos_fcntl) mode = true ->
        ramdisk_open (H := kos_fcntl) "/A" mode s
        = ramdisk_open (H := kos_fcntl) "/a" mode s).
Proof.
  apply (X22_names_fold_case (H := kos_fcntl) (H0 := posix_stat) "/A" "/a").
  reflexivity.
Defined.

(** ** Stat *)

(** A lookup for a file never returns a directory. *)
Lemma find_path_walk_file fuel fm dm :
  forall parent fn f0 f,
    find_path_walk fuel fm dm parent fn false f0 = Ok f -> f <> NULL ->
    exists e, fm !! f = Some e /\ isdir e = false.
Proof.
  assert (Hlast : forall parent fn f,
            match fn with
            | String _ _ =>
                f' <~~ ramdisk_find fm dm parent fn (String.length fn) ;;
                if f' =? NULL then Ok NULL
                else
                  e <~~ deref_file fm f' ;;
                  if (negb false && isdir e) || (false && negb (isdir e))
                  then Ok NULL
                  else Ok f'
            | EmptyString => Ok NULL
            end = Ok f -> f <> NULL ->
            exists e, fm !! f = Some e /\ isdir e = false).
  { intros parent fn f Hrun Hf. destruct fn as [|c fn]; [congruence|].
    destruct (ramdisk_find fm dm parent (String c fn) _) as [r|];
      [|discriminate].
    cbn [bindo] in Hrun. destruct (r =? NULL); [congruence|].
    unfold deref_file in Hrun. destruct (fm !! r) as [e|] eqn:He;
      [|discriminate].
    cbn [bindo negb andb orb] in Hrun.
    destruct (isdir e) eqn:Hd; cbn [negb andb orb] in Hrun;
      [injection Hrun as <-; contradiction|].
    injection Hrun as <-. eauto. }
  induction fuel as [|k IH]; intros parent fn f0 f Hrun Hf;
    cbn [find_path_walk] in Hrun.
  - destruct (strchr fn slash); [discriminate|].
    apply (Hlast parent fn f); [|exact Hf].
    destruct fn; exact Hrun.
  - destruct (strchr fn slash) as [cur|].
    + match type of Hrun with
      | bindo ?o _ = _ => destruct o as [[[p' f']|]|]
      end; cbn [bindo] in Hrun; [|injection Hrun as <-; contradiction
                                |discriminate].
      eapply IH; eauto.
    + apply (Hlast parent fn f); [|exact Hf].
      destruct fn; exact Hrun.
Qed.

Lemma find_path_file fm dm parent fn f :
  ramdisk_find_path fm dm parent fn false = Ok f -> f <> NULL ->
  exists e, fm !! f = Some e /\ isdir e = false.
Proof. apply find_path_walk_file. Qed.

Section Stat.
Context `{StatBits}.

(** X23.  [ramdisk_stat] answers for the root directory (the empty path
    and ["/"]) without looking at the state, so also before
    initialisation.  For any other path the lookup is one for a file:
    when nothing is found the result is -1 with [ENOENT], and what is
    found is never a directory, so that the mode reported is that of a
    regular file with read and write permission and one link.  For a
    file, [ramdisk_fstat] through a handle of it reports what
    [ramdisk_stat] reports for its path. *)
Theorem X23_stat_of_root_and_files s :
  ramdisk_stat EmptyString s = Ok ((0, Some root_stat), s)
  /\ ramdisk_stat (String slash EmptyString) s = Ok ((0, Some root_stat), s)
  /\ (forall path,
        path <> EmptyString -> path <> String slash EmptyString ->
        ramdisk_find_path (files s) (dirs s) (rootdir s) path false
        = Ok NULL ->
        ramdisk_stat path s = Ok ((-1, None), with_errno (Some ENOENT) s))
  /\ (forall path f,
        resolves s path f ->
        exists e st,
          files s !! f = Some e /\ isdir e = false
          /\ ramdisk_stat path s = Ok ((0, Some st), s)
          /\ st_dev st = rd_dev
          /\ st_mode st = Z.lor mode_rw S_IFREG
          /\ st_size st = signed32 (datasize e)
          /\ st_nlink st = 1 /\ st_blksize st = rd_blksize
          /\ forall h fd,
               valid_handle s h fd -> file fd = f ->
               ramdisk_fstat h s = Ok ((0, Some st), s)).
Proof.
  split; [reflexivity|]. split; [reflexivity|].
  assert (Hnot_root : forall path,
            path <> EmptyString -> path <> String slash EmptyString ->
            ((String.length path =? 0)%nat
             || ((String.length path =? 1)%nat
                 && String.eqb path (String slash EmptyString))) = false).
  { intros path Hne Hns. destruct path as [|c path]; [congruence|].
    cbn [String.length Nat.eqb orb].
    destruct (String.eqb_spec (String c path) (String slash EmptyString));
      [congruence|].
    apply andb_false_r. }
  split.
  - intros path Hne Hns Hnone. unfold ramdisk_stat.
    rewrite (Hnot_root path Hne Hns). unfold find_path. go.
    rewrite Hnone. go. reflexivity.
  - intros path f [Hf Hres].
    destruct (find_path_file _ _ _ _ _ Hres Hf) as (e & He & Hd).
    assert (Hne : path <> EmptyString) by (intros ->; cbn in Hres; congruence).
    assert (Hns : path <> String slash EmptyString)
      by (intros ->; cbn in Hres; congruence).
    eexists e, _. split; [exact He|]. split; [exact Hd|].
    split.
    { unfold ramdisk_stat. rewrite (Hnot_root path Hne Hns).
      unfold find_path. go. rewrite Hres. go. rewrite (eqb_null _ Hf). go.
      reflexivity. }
    cbn. split; [reflexivity|]. split; [reflexivity|].
    split; [reflexivity|]. split; [reflexivity|]. split; [reflexivity|].
    intros h fd Hv Hfile.
    pose proof (fd_invalid_false s h fd Hv) as Hok.
    destruct Hv as (Hh & Hfd & Hf').
    unfold ramdisk_fstat. unfold bind at 1. rewrite Hok. go.
    rewrite Hfile. go. reflexivity.
Qed.
End Stat.

(** ** Running out of memory *)

Section NoMemory.
Context `{FcntlFlags}.

Lemma open_missing_creates s fn mode :
  (root s =? NULL) = false ->
  opens_write mode ->
  strip_slash fn <> EmptyString ->
  ramdisk_find_path (files s) (dirs s) (rootdir s) (strip_slash fn) false
  = Ok NULL ->
  ramdisk_open fn mode s
  = (f <~ ramdisk_create_file (rootdir s) (strip_slash fn) false ;;
     open_handle f mode) s.
Proof.
  intros Hrt [Hwr Hd] Hfn Hnone.
  assert (Hro : mode_rdonly mode = false).
  { unfold mode_write in Hwr. apply andb_prop in Hwr as [Hro _].
    apply negb_true_iff in Hro. exact Hro. }
  rewrite ramdisk_open_phases, Hd. cbn [andb].
  assert (Hlk : open_lookup (strip_slash fn) mode s
                = ramdisk_create_file (rootdir s) (strip_slash fn) false s).
  { unfold open_lookup. fold (mode_dir mode). fold (mode_rdonly mode).
    rewrite Hd, Hro. go.
    destruct (strip_slash fn) as [|c fn'] eqn:Hstrip; [congruence|].
    unfold find_path. go. rewrite Hnone. go.
    change (NULL =? NULL) with true. reflexivity. }
  unfold bind. rewrite Hlk. reflexivity.
Qed.

(** X24.  Creating a file when memory runs out.  If one of the three
    allocations of [ramdisk_create_file] fails (the node, its name, its
    block), the open returns null with [ENOMEM] and no file has been
    created: files, directory and handles are as before.  If they succeed
    and the allocation of the handle fails, the open returns null with
    [ENOMEM] as well, but the new, empty file stays in the directory. *)
Theorem X24_create_without_memory s l fn mode :
  inv_at s l -> opens_write mode ->
  strip_slash fn <> EmptyString ->
  strchr (strip_slash fn) slash = None ->
  ramdisk_find_path (files s) (dirs s) (rootdir s) (strip_slash fn) false
  = Ok NULL ->
  ((next_alloc s = false
    \/ next_alloc (after_alloc s) = false
    \/ next_alloc (after_alloc (after_alloc s)) = false) ->
   exists s',
     ramdisk_open fn mode s = Ok (NULL, s')
     /\ errno s' = Some ENOMEM
     /\ files s' = files s /\ dirs s' = dirs s /\ fds s' = fds s
     /\ rd_fd_queue s' = rd_fd_queue s)
  /\ (next_alloc s = true -> next_alloc (after_alloc s) = true ->
      next_alloc (after_alloc (after_alloc s)) = true ->
      next_alloc (after_alloc (after_alloc (after_alloc s))) = false ->
      exists s',
        ramdisk_open fn mode s = Ok (NULL, s')
        /\ errno s' = Some ENOMEM
        /\ inv_at s' (brk s :: l)
        /\ resolves s' (strip_slash fn) (brk s)
        /\ fds s' = fds s /\ rd_fd_queue s' = rd_fd_queue s).
Proof.
  intros Hinv Hwr Hfn Hnos Hnone.
  destruct (inv_root_node s (ex_intro _ l Hinv)) as (Hrt & _).
  pose proof Hinv as Hinv0. unfold inv_at in Hinv0.
  pose proof (inv_brk _ _ _ _ _ _ _ _ Hinv0) as Hbk.
  assert (Hb : (brk s =? NULL) = false)
    by (apply Z.eqb_neq; unfold NULL; lia).
  pose proof (strchr_none_strrchr _ _ Hnos) as Hp.
  rewrite (open_missing_creates s fn mode Hrt Hwr Hfn Hnone).
  split.
  - intros Hfail.
    unfold ramdisk_create_file, ramdisk_get_parent. rewrite Hp. go.
    change (0 <? 0) with false. go.
    destruct (next_alloc s) eqn:Ha1; go.
    2:{ change (NULL =? NULL) with true. go. unfold open_handle.
        change (NULL =? NULL) with true. eexists. split; [reflexivity|].
        repeat split. }
    destruct (next_alloc (after_alloc s)) eqn:Ha2; go.
    2:{ unfold open_handle. change (NULL =? NULL) with true.
        eexists. split; [reflexivity|]. repeat split. }
    destruct Hfail as [?|[?|Ha3]]; [discriminate..|].
    rewrite Ha3. go. unfold open_handle. change (NULL =? NULL) with true.
    eexists. split; [reflexivity|]. repeat split.
  - intros Ha1 Ha2 Ha3 Ha4.
    destruct (inv_chain _ _ _ _ _ _ _ _ Hinv0) as (first & Hfirst & _).
    destruct (create_file_ok s l (strip_slash fn) first Hinv Hp Hfirst
                Ha1 Ha2 Ha3)
      as (s1 & Hcreate & Hinv1 & Hnew & Hold & Hdirs & Hfds & Hq & Hroot & Hrd
          & Herr & Hbrk1 & Hor1).
    assert (Hf : brk s <> NULL) by (unfold NULL; lia).
    assert (Ha4' : next_alloc s1 = false).
    { unfold next_alloc in *. rewrite Hor1. exact Ha4. }
    unfold bind at 1. rewrite Hcreate.
    rewrite (open_handle_nomem s1 (brk s) _ mode Hf Hnew eq_refl
               ltac:(discriminate) Ha4').
    eexists. split; [reflexivity|]. split; [reflexivity|].
    split; [exact Hinv1|].
    split; [|split; [exact Hfds|exact Hq]].
    split; [exact Hf|].
    cbn [files dirs rootdir with_errno after_alloc with_oracle].
    eapply resolve_created;
      [exact Hf|exact Hnew|reflexivity|reflexivity| |exact Hp|exact Hfn].
    rewrite Hdirs, Hrd. apply lookup_insert_eq.
Qed.

Lemma write_null s h fd e buf :
  valid_handle s h fd -> dir fd = false ->
  files s !! file fd = Some e -> openfor e = OPENFOR_WRITE ->
  data e = DataNull -> 0 <= ptr fd ->
  ptr fd + Z.of_nat (length buf) <= datasize e -> datasize e < 2 ^ 32 ->
  buf <> [] ->
  ramdisk_write h buf s = Crash (BadPointer (ptr fd)).
Proof.
  intros Hv Hd He Hw Hdata Hp Hfit Hsmall Hne.
  pose proof (fd_invalid_false s h fd Hv) as Hok.
  destruct Hv as (Hh & Hfd & Hf).
  unfold ramdisk_write. unfold bind at 1. rewrite Hok. go.
  rewrite Hw, Z.eqb_refl. go.
  rewrite wrap32_small by lia.
  replace (ptr fd + Z.of_nat (length buf) >? datasize e) with false
    by (symmetry; rewrite Z.gtb_ltb; apply Z.ltb_ge; lia).
  go. rewrite Hdata. destruct buf; [congruence|]. reflexivity.
Qed.

(** X25.  Truncating when memory runs out.  [ramdisk_open] with
    [O_TRUNC] frees the block of the file and does not test the new one:
    if that allocation fails the open still returns a handle, of a file
    whose block is null, whose capacity reads 1024 and whose size is 0;
    a write of 1 to 1024 bytes through it then copies to the null
    pointer. *)
Theorem X25_truncate_without_memory s fn f e mode :
  inv s -> strip_slash fn <> EmptyString ->
  resolves s (strip_slash fn) f -> files s !! f = Some e -> usage e = 0 ->
  opens_truncate mode ->
  next_alloc s = true -> next_alloc (after_alloc s) = false ->
  exists s1 e1,
    ramdisk_open fn mode s = Ok (brk s, s1)
    /\ brk s <> NULL
    /\ fds s1 !! brk s = Some (mk_rd_fd f false 0 dirent0 mode)
    /\ files s1 !! f = Some e1
    /\ data e1 = DataNull /\ datasize e1 = rd_blksize /\ size e1 = 0
    /\ openfor e1 = OPENFOR_WRITE /\ usage e1 = 1
    /\ forall buf,
         (0 < length buf <= 1024)%nat ->
         ramdisk_write (brk s) buf s1 = Crash (BadPointer NULL).
Proof.
  intros Hinv Hfn Hres He Hu [[Hwr Hnd] [Hap Htr]] Ha1 Ha2.
  destruct (inv_resolved s _ f Hinv Hres)
    as (Hroot & Hbk & e' & He' & Hd & Hlock).
  replace e' with e in * by congruence. clear He'.
  assert (Hof : openfor e = OPENFOR_NOTHING).
  { destruct Hlock as [Hc [[? _]|[[_ ?]|[_ ?]]]]; [assumption|lia|lia]. }
  rewrite (ramdisk_open_file s fn f Hroot Hfn Hres mode Hnd).
  destruct Hres as [Hf _].
  unfold mode_write, mode_rdonly, mode_dir, mode_append, mode_trunc in *.
  apply andb_prop in Hwr as [Hro Hwr]. apply negb_true_iff in Hro.
  assert (Hf' := eqb_null _ Hf).
  assert (Hw : (openfor e =? OPENFOR_WRITE) = false)
    by (rewrite Hof; reflexivity).
  assert (Hr : (openfor e =? OPENFOR_READ) = false)
    by (rewrite Hof; reflexivity).
  assert (Hb : (brk s =? NULL) = false)
    by (apply Z.eqb_neq; unfold NULL; lia).
  eexists _, _. split.
  { unfold open_handle, open_lock, open_register. go.
    rewrite Hwr. go. cbn [usage set_openfor set_datasize set_data set_size].
    rewrite ?insert_insert_eq. reflexivity. }
  split; [unfold NULL; lia|].
  split; [cbn; rewrite ?lookup_insert_eq; reflexivity|].
  split; [cbn; apply lookup_insert_eq|].
  cbn. rewrite Hu.
  split; [reflexivity|]. split; [reflexivity|]. split; [reflexivity|].
  split; [reflexivity|]. split; [reflexivity|].
  intros buf Hlen.
  match goal with
  | |- ramdisk_write ?h buf ?st = _ =>
      apply (write_null st h (mk_rd_fd f false 0 dirent0 mode)
               (set_usage (0 + 1)
                  (set_size 0
                     (set_data DataNull
                        (set_datasize rd_blksize
                           (set_openfor OPENFOR_WRITE e))))) buf)
  end.
  - split; [unfold NULL; lia|]. split; [|exact Hf].
    cbn. rewrite ?lookup_insert_eq. reflexivity.
  - reflexivity.
  - cbn. rewrite ?lookup_insert_eq. reflexivity.
  - reflexivity.
  - reflexivity.
  - cbn. lia.
  - cbn. unfold rd_blksize. lia.
  - cbn. unfold rd_blksize. lia.
  - destruct buf; [cbn in Hlen; lia|discriminate].
Qed.
End NoMemory.

(** X24, at a concrete input: ["/b"] opened with [O_WRONLY] beside
    ["/a"], the next allocation failing. *)
Lemma X24_create_witness :
  let s := with_oracle [false] st_file in
  ((next_alloc s = false
    \/ next_alloc (after_alloc s) = false
    \/ next_alloc (after_alloc (after_alloc s)) = false) ->
   exists s',
     ramdisk_open (H := kos_fcntl) "/b" O_WRONLY s = Ok (NULL, s')
     /\ errno s' = Some ENOMEM
     /\ files s' = files s /\ dirs s' = dirs s /\ fds s' = fds s
     /\ rd_fd_queue s' = rd_fd_queue s)
  /\ (next_alloc s = true -> next_alloc (after_alloc s) = true ->
      next_alloc (after_alloc (after_alloc s)) = true ->
      next_alloc (after_alloc (after_alloc (after_alloc s))) = false ->
      exists s',
        ramdisk_open (H := kos_fcntl) "/b" O_WRONLY s = Ok (NULL, s')
        /\ errno s' = Some ENOMEM
        /\ inv_at s' (brk s :: [3])
        /\ resolves s' (strip_slash "/b") (brk s)
        /\ fds s' = fds s /\ rd_fd_queue s' = rd_fd_queue s).
Proof.
  apply (X24_create_without_memory (H := kos_fcntl)
           (with_oracle [false] st_file) [3] "/b" O_WRONLY).
  - exact st_file_inv_at.
  - exact kos_opens_write.
  - discriminate.
  - reflexivity.
  - vm_compute. reflexivity.
Defined.

(** X25, at a concrete input: ["/a"] opened with [O_WRONLY | O_TRUNC],
    the allocation of the handle succeeding and that of the block
    failing. *)
Lemma X25_truncate_witness :
  let s := with_oracle [true; false] st_file in
  let mode := Z.lor O_WRONLY O_TRUNC in
  exists s1 e1,
    ramdisk_open (H := kos_fcntl) "/a" mode s = Ok (brk s, s1)
    /\ brk s <> NULL
    /\ fds s1 !! brk s = Some (mk_rd_fd 3 false 0 dirent0 mode)
    /\ files s1 !! 3 = Some e1
    /\ data e1 = DataNull /\ datasize e1 = rd_blksize /\ size e1 = 0
    /\ openfor e1 = OPENFOR_WRITE /\ usage e1 = 1
    /\ forall buf,
         (0 < length buf <= 1024)%nat ->
         ramdisk_write (brk s) buf s1 = Crash (BadPointer NULL).
Proof.
  apply (X25_truncate_without_memory (H := kos_fcntl)
           (with_oracle [true; false] st_file) "/a" 3 (the_file st_file 3)).
  - exact st_file_inv.
  - discriminate.
  - exact st_file_resolves.
  - vm_compute. reflexivity.
  - reflexivity.
  - exact kos_opens_truncate.
  - reflexivity.
  - reflexivity.
Defined.

(** ** Paths in the root directory *)

Lemma name_test_same_fold a b :
  (strlen b =? Z.of_nat (String.length a))
  && (strncasecmp a b (String.length a) =? 0)
  = same_fold a b.
Proof.
  unfold strlen. revert b. induction a as [|x a IH]; intros [|y b].
  - reflexivity.
  - cbn [String.length same_fold]. 
    replace (Z.of_nat (S (String.length b)) =? Z.of_nat 0) with false
      by (symmetry; apply Z.eqb_neq; lia).
    reflexivity.
  - cbn [String.length same_fold].
    replace (Z.of_nat 0 =? Z.of_nat (S (String.length a))) with false
      by (symmetry; apply Z.eqb_neq; lia).
    reflexivity.
  - cbn [String.length same_fold strncasecmp]. rewrite <- IH.
    replace (Z.of_nat (S (String.length b)) =? Z.of_nat (S (String.length a)))
      with (Z.of_nat (String.length b) =? Z.of_nat (String.length a)).
    2:{ destruct (Z.of_nat (String.length b) =? Z.of_nat (String.length a))
          eqn:E; symmetry;
          [apply Z.eqb_eq in E; apply Z.eqb_eq|
           apply Z.eqb_neq in E; apply Z.eqb_neq]; lia. }
    destruct (tolower x =? tolower y) eqn:E.
    + reflexivity.
    + cbn [andb].
      replace (tolower x - tolower y =? 0) with false
        by (symmetry; apply Z.eqb_neq; apply Z.eqb_neq in E; lia).
      apply andb_false_r.
Qed.

Lemma find_path_skip fm dm parent fn dir :
  ramdisk_find_path fm dm parent fn dir
  = ramdisk_find_path fm dm parent (skip_slashes fn) dir.
Proof.
  induction fn as [|c fn IH]; [reflexivity|].
  cbn [skip_slashes]. destruct (Ascii.eqb c slash) eqn:E; [|reflexivity].
  rewrite <- IH. apply Ascii.eqb_eq in E. subst c. reflexivity.
Qed.

Lemma skip_slashes_head fn : strchr (skip_slashes fn) slash <> Some O.
Proof.
  induction fn as [|c fn IH]; [discriminate|].
  cbn [skip_slashes]. destruct (Ascii.eqb c slash) eqn:E; [exact IH|].
  cbn [strchr]. rewrite E. destruct (strchr fn slash); discriminate.
Qed.

Lemma list_find_first s prev a l nm fuel :
  chain (files s) prev a l -> (length l <= fuel)%nat ->
  list_find fuel (files s) a nm (String.length nm)
  = Ok (first_named s l nm).
Proof.
  unfold first_named.
  intros Hc. revert fuel. induction Hc as [prev|prev a e l Ha He Hp Hc IH];
    intros fuel Hlen.
  - destruct fuel; reflexivity.
  - destruct fuel as [|fuel]; [cbn in Hlen; lia|].
    cbn [list_find find]. rewrite (eqb_null _ Ha).
    unfold bindo, deref_file. rewrite He.
    replace (the_file s a) with e by (unfold the_file; rewrite He; reflexivity).
    rewrite name_test_same_fold.
    destruct (same_fold nm (name e)); [reflexivity|].
    apply IH. cbn in Hlen. lia.
Qed.

(** X26.  Looking a path up in the root directory.  Leading slashes are
    skipped.  What is left names a file only when it holds no further
    slash, there being no directory but the root: a path with a directory
    part or a slash at its end names nothing, whether a file or a
    directory is asked for.  A plain name is looked up from the front of
    the directory list, and names the first file whose name is the same
    up to the case of letters. *)
Theorem X26_lookup_in_the_root s l :
  inv_at s l ->
  let look fn dir :=
    ramdisk_find_path (files s) (dirs s) (rootdir s) fn dir in
  (forall fn dir, look fn dir = look (skip_slashes fn) dir)
  /\ (forall fn dir,
        strchr (skip_slashes fn) slash <> None -> look fn dir = Ok NULL)
  /\ (forall dir, look EmptyString dir = Ok NULL)
  /\ (forall nm,
        nm <> EmptyString -> strchr nm slash = None ->
        look nm false = Ok (first_named s l nm)
        /\ look nm true = Ok NULL).
Proof.
  intros Hinv look.
  destruct (inv_chain _ _ _ _ _ _ _ _ Hinv) as (first & Hfirst & Hchain).
  assert (Hsize : (length l <= base.size (files s))%nat).
  { eapply inv_core_size; eauto. }
  assert (Hflat : forall a e, a ∈ l -> files s !! a = Some e ->
                    isdir e = false).
  { intros a e Ha He. eapply inv_flat; eauto. }
  split; [intros; apply find_path_skip|].
  split; [|split].
  - intros fn dir Hsl. unfold look. rewrite find_path_skip.
    pose proof (skip_slashes_head fn) as Hhd.
    destruct (strchr (skip_slashes fn) slash) as [[|cur]|] eqn:Hcur;
      try congruence.
    unfold ramdisk_find_path.
    pose proof (strchr_lt _ _ _ Hcur) as Hlt.
    destruct (String.length (skip_slashes fn)) as [|k] eqn:Hk; [lia|].
    cbn [find_path_walk]. rewrite Hcur.
    destruct (ramdisk_find_flat (files s) (dirs s) (rootdir s) first
                (LinkHead (rootdir s)) l Hfirst Hchain Hsize
                (skip_slashes fn) (S cur)) as (r & -> & Hr).
    cbn [bindo]. destruct Hr as [->|Hr]; [reflexivity|].
    destruct (flat_elem (files s) first (LinkHead (rootdir s)) l Hchain Hflat
                r Hr) as (-> & e & He & Hd).
    unfold bindo, deref_file. rewrite He, Hd. reflexivity.
  - intros []; reflexivity.
  - intros nm Hnm Hsl. unfold look, ramdisk_find_path.
    assert (Hfind : ramdisk_find (files s) (dirs s) (rootdir s) nm
                      (String.length nm) = Ok (first_named s l nm)).
    { unfold ramdisk_find, bindo, deref_dir. rewrite Hfirst.
      eapply list_find_first; eauto. }
    assert (Hin : first_named s l nm = NULL \/ first_named s l nm ∈ l).
    { unfold first_named.
      destruct (find _ l) as [a|] eqn:Ha; [|left; reflexivity].
      right. apply find_some in Ha. apply list_elem_of_In, Ha. }
    assert (Hwalk : forall fuel dir,
      find_path_walk fuel (files s) (dirs s) (rootdir s) nm dir NULL
      = (f' <~~ ramdisk_find (files s) (dirs s) (rootdir s) nm
                  (String.length nm) ;;
         if f' =? NULL then Ok NULL
         else
           e <~~ deref_file (files s) f' ;;
           if (negb dir && isdir e) || (dir && negb (isdir e))
           then Ok NULL else Ok f')).
    { intros fuel dir. destruct fuel; cbn [find_path_walk]; rewrite Hsl;
        (destruct nm; [congruence|reflexivity]). }
    rewrite !Hwalk, Hfind. cbn [bindo].
    destruct Hin as [Hin|Hin]; [rewrite Hin; split; reflexivity|].
    destruct (flat_elem (files s) first (LinkHead (rootdir s)) l Hchain
                Hflat _ Hin) as (-> & e & He & Hd).
    unfold bindo, deref_file. rewrite He, Hd. split; reflexivity.
Qed.

(** X26, at a concrete input: the root directory that holds ["/b"] and
    ["/a"], in this order. *)
Lemma X26_lookup_witness :
  let s := st_listing_two in
  let look fn dir :=
    ramdisk_find_path (files s) (dirs s) (rootdir s) fn dir in
  (forall fn dir, look fn dir = look (skip_slashes fn) dir)
  /\ (forall fn dir,
        strchr (skip_slashes fn) slash <> None -> look fn dir = Ok NULL)
  /\ (forall dir, look EmptyString dir = Ok NULL)
  /\ (forall nm,
        nm <> EmptyString -> strchr nm slash = None ->
        look nm false = Ok (first_named s [5; 3] nm)
        /\ look nm true = Ok NULL).
Proof.
  exact (X26_lookup_in_the_root st_listing_two [5; 3] st_listing_two_inv_at).
Defined.

(** ** Appending *)

Section Append.
Context `{FcntlFlags}.

End Append.


(** ** Handles do not disturb each other *)





